(** * pdf-toolkit: page ranges, page mutations and staged files

    A shallow embedding of the page-targeting logic of [main.py] (the Flask
    backend of pdf-toolkit): the range strings parsed by [split_pdf],
    [rotate_pdf] and [organize_pdf], the colour strings parsed by
    [edit_pdf], [add_watermark] and [add_page_numbers], the page-number
    texts, the preview fallback, and the life cycle of the files the
    handlers stage in the upload and output directories.

    Python integers are modelled as [Z], Python strings as [string] (one
    character per byte: the model is of ASCII input, and a statement
    that would depend on other characters says so), lists as [list], sets
    as [gset].  An exception that leaves a handler is the [Raise]
    outcome; an early [return jsonify(...), status] is the [Reply] outcome. *)

From Stdlib Require Import ZArith Lia Ascii String DecimalString.
From stdpp Require Import base list list_numbers gmap sets strings.

Local Open Scope string_scope.
Local Open Scope list_scope.
Local Open Scope Z_scope.

(** ** Outcomes of handler code *)

Inductive exn : Type :=
  | ValueError        (* int() on a bad literal, bad unpacking, pypdf rotate *)
  | IndexError        (* sequence index out of range *)
  | TimeoutExpired    (* subprocess.run(..., timeout=120) *)
  | FileNotFoundError (* the executable of subprocess.run is missing *)
  | LibraryError      (* any other exception of a downstream library *)
  | OverflowError     (* a length that does not fit a C ssize_t *)
  | MemoryError.      (* a collection the interpreter cannot hold *)

Inductive outcome (A : Type) : Type :=
  | Done (a : A)
  | Reply (status : Z) (detail : string)
  | Raise (e : exn).
Arguments Done {A} a.
Arguments Reply {A} status detail.
Arguments Raise {A} e.

#[export] Instance outcome_ret : MRet outcome := fun A a => Done a.
#[export] Instance outcome_bind : MBind outcome := fun A B k m =>
  match m with
  | Done a => k a
  | Reply st d => Reply st d
  | Raise e => Raise e
  end.

(** ** Python string primitives *)

Module Py.

(** [str.isspace] on one ASCII character: TAB, LF, VT, FF, CR, the four
    separators 0x1c..0x1f, and the space. *)
Definition isspace (c : ascii) : bool :=
  let n := nat_of_ascii c in
  ((9 <=? n)%nat && (n <=? 13)%nat) || ((28 <=? n)%nat && (n <=? 32)%nat).

Fixpoint lstrip (s : string) : string :=
  match s with
  | EmptyString => EmptyString
  | String c r => if isspace c then lstrip r else s
  end.

Fixpoint rstrip (s : string) : string :=
  match s with
  | EmptyString => EmptyString
  | String c r =>
      match rstrip r with
      | EmptyString => if isspace c then EmptyString else String c EmptyString
      | r' => String c r'
      end
  end.

(** [s.strip()] *)
Definition strip (s : string) : string := rstrip (lstrip s).

(** The white space [int] skips around a literal of an ASCII string: TAB,
    LF, VT, FF, CR and the space, without the separators 0x1c..0x1f that
    [str.strip] removes. *)
Definition c_isspace (c : ascii) : bool :=
  let n := nat_of_ascii c in
  ((9 <=? n)%nat && (n <=? 13)%nat) || (n =? 32)%nat.

Fixpoint int_lstrip (s : string) : string :=
  match s with
  | EmptyString => EmptyString
  | String c r => if c_isspace c then int_lstrip r else s
  end.

Fixpoint int_rstrip (s : string) : string :=
  match s with
  | EmptyString => EmptyString
  | String c r =>
      match int_rstrip r with
      | EmptyString => if c_isspace c then EmptyString else String c EmptyString
      | r' => String c r'
      end
  end.

Definition int_strip (s : string) : string := int_rstrip (int_lstrip s).

(** [sys.get_int_max_str_digits()]: the longest decimal numeral [int]
    reads and [str] writes. *)
Definition int_max_str_digits : nat := 4300.

(** The decimal digits of a string, which the limit counts: the sign,
    underscores and white space are not counted, leading zeros are. *)
Fixpoint count_digits (s : string) : nat :=
  match s with
  | EmptyString => 0
  | String c r =>
      let n := nat_of_ascii c in
      (if (48 <=? n)%nat && (n <=? 57)%nat then 1 else 0) + count_digits r
  end.

(** [s.lstrip(ch)] for a one-character argument. *)
Fixpoint lstrip_char (ch : ascii) (s : string) : string :=
  match s with
  | EmptyString => EmptyString
  | String c r => if Ascii.eqb c ch then lstrip_char ch r else s
  end.

(** [s.split(sep)] for a one-character separator: never empty. *)
Fixpoint split (sep : ascii) (s : string) : list string :=
  match s with
  | EmptyString => [EmptyString]
  | String c r =>
      if Ascii.eqb c sep then EmptyString :: split sep r
      else match split sep r with
           | h :: t => String c h :: t
           | [] => [String c EmptyString]
           end
  end.

(** [ch in s] for a one-character needle. *)
Fixpoint contains (ch : ascii) (s : string) : bool :=
  match s with
  | EmptyString => false
  | String c r => Ascii.eqb c ch || contains ch r
  end.

(** [s[i:j]] for [0 <= i <= j]: clipped to the string, never an error. *)
Definition slice (i j : nat) (s : string) : string := substring i (j - i) s.

(** Value of a digit character in bases up to 16. *)
Definition digit_value (c : ascii) : option Z :=
  let n := Z.of_nat (nat_of_ascii c) in
  if (48 <=? n) && (n <=? 57) then Some (n - 48)
  else if (97 <=? n) && (n <=? 102) then Some (n - 87)
  else if (65 <=? n) && (n <=? 70) then Some (n - 55)
  else None.

(** Digits of an integer literal: one or more digits of the base, single
    underscores allowed between digits.  [prev] records that the previous
    character was a digit. *)
Fixpoint digits (base : Z) (prev : bool) (acc : Z) (s : string) : option Z :=
  match s with
  | EmptyString => if prev then Some acc else None
  | String c r =>
      if Ascii.eqb c "_" then
        if prev then digits base false acc r else None
      else
        match digit_value c with
        | Some d => if d <? base then digits base true (acc * base + d) r else None
        | None => None
        end
  end.

(** After the sign: base 16 accepts a [0x]/[0X] prefix, followed by at most
    one underscore. *)
Definition unsigned (base : Z) (s : string) : option Z :=
  match s with
  | String "0" (String x r) =>
      if (base =? 16) && (Ascii.eqb x "x" || Ascii.eqb x "X") then
        match r with
        | String "_" r' => digits base false 0 r'
        | _ => digits base false 0 r
        end
      else digits base false 0 s
  | _ => digits base false 0 s
  end.

Definition signed (base : Z) (s : string) : option Z :=
  match s with
  | String "+" r => unsigned base r
  | String "-" r => Z.opp <$> unsigned base r
  | _ => unsigned base s
  end.

(** [int(s, base)] for base 10 or 16; [None] is [ValueError].  In base
    10 a literal of more than [int_max_str_digits] digits is refused; base
    16, a power of two, has no limit. *)
Definition int_base (base : Z) (s : string) : option Z :=
  let s := int_strip s in
  if (base =? 10) && (int_max_str_digits <? count_digits s)%nat then None
  else signed base s.

(** [int(s)] *)
Definition int (s : string) : outcome Z :=
  match int_base 10 s with
  | Some z => Done z
  | None => Raise ValueError
  end.

(** [int(s, 16)] *)
Definition int16 (s : string) : outcome Z :=
  match int_base 16 s with
  | Some z => Done z
  | None => Raise ValueError
  end.

(** The decimal numeral of an integer: what [str(z)] returns when it
    returns, as it does for |z| < 10^4300 and so for every page index. *)
Definition str (z : Z) : string := NilZero.string_of_int (Z.to_int z).

(** [str(z)]: an integer of more than [int_max_str_digits] digits is a
    [ValueError]. *)
Definition str_checked (z : Z) : outcome string :=
  let s := NilZero.string_of_int (Z.to_int z) in
  if (int_max_str_digits <? count_digits s)%nat then Raise ValueError
  else Done s.

(** [range(a, b)] *)
Definition range (a b : Z) : list Z := seqZ a (b - a).

(** [s.startswith(p)] *)
Fixpoint startswith (p s : string) : bool :=
  match p, s with
  | EmptyString, _ => true
  | String a p', String b s' => Ascii.eqb a b && startswith p' s'
  | String _ _, EmptyString => false
  end.

(** [s.replace(old, new)] for a non-empty [old]: the occurrences of [old]
    are found left to right without overlap.  [skip] counts the characters
    of a matched occurrence that are still to be dropped. *)
Fixpoint replace_from (old new : string) (skip : nat) (s : string) : string :=
  match s with
  | EmptyString => EmptyString
  | String c r =>
      match skip with
      | S k => replace_from old new k r
      | O =>
          if startswith old s
          then new +:+ replace_from old new (String.length old - 1) r
          else String c (replace_from old new 0 r)
      end
  end.

Definition replace (old new s : string) : string := replace_from old new 0 s.

(** [needle in s] for strings. *)
Fixpoint contains_str (needle s : string) : bool :=
  startswith needle s ||
  match s with
  | EmptyString => false
  | String _ r => contains_str needle r
  end.

(** [s.isascii()] *)
Fixpoint isascii (s : string) : bool :=
  match s with
  | EmptyString => true
  | String c r => (nat_of_ascii c <? 128)%nat && isascii r
  end.

(** [sys.maxsize], the largest length of a list. *)
Definition maxsize : Z := 9223372036854775807.

End Py.

(** ** Page selection of [split_pdf] and [rotate_pdf] *)

(** [start, end = map(int, part.split("-"))]: the unpacking needs exactly
    two pieces, each converted by [int]; anything else is a [ValueError]. *)
Definition unpack_pair (pieces : list string) : outcome (Z * Z) :=
  match pieces with
  | [a; b] => start ← Py.int a; end_ ← Py.int b; Done (start, end_)
  | _ => Raise ValueError
  end.

(** One turn of the loop [for part in pages.split(",")] of [split_pdf]:
    the indices the part appends to [selected_pages]. *)
Definition split_part (total_pages : Z) (part : string) : outcome (list Z) :=
  let part := Py.strip part in
  if Py.contains "-" part then
    '(start, end_) ← unpack_pair (Py.split "-" part);
    Done (Py.range (start - 1) (Z.min end_ total_pages))
  else
    n ← Py.int part;
    let page_num := n - 1 in
    if (0 <=? page_num) && (page_num <? total_pages)
    then Done [page_num] else Done [].

Fixpoint split_loop (total_pages : Z) (parts : list string)
    (selected_pages : list Z) : outcome (list Z) :=
  match parts with
  | [] => Done selected_pages
  | part :: rest =>
      new ← split_part total_pages part;
      split_loop total_pages rest (selected_pages ++ new)
  end.

(** The "Parse page selection" block of [split_pdf]. *)
Definition split_select (pages : string) (total_pages : nat) : outcome (list Z) :=
  if String.eqb pages "all" then Done (Py.range 0 (Z.of_nat total_pages))
  else split_loop (Z.of_nat total_pages) (Py.split "," pages) [].

(** The same loop in [rotate_pdf], where [selected_pages] is a set. *)
Definition rotate_part (total_pages : Z) (part : string)
    (selected_pages : gset Z) : outcome (gset Z) :=
  let part := Py.strip part in
  if Py.contains "-" part then
    '(start, end_) ← unpack_pair (Py.split "-" part);
    Done (selected_pages ∪ list_to_set (Py.range (start - 1) (Z.min end_ total_pages)))
  else
    n ← Py.int part;
    let page_num := n - 1 in
    if (0 <=? page_num) && (page_num <? total_pages)
    then Done (selected_pages ∪ {[page_num]}) else Done selected_pages.

Fixpoint rotate_loop (total_pages : Z) (parts : list string)
    (selected_pages : gset Z) : outcome (gset Z) :=
  match parts with
  | [] => Done selected_pages
  | part :: rest =>
      selected_pages ← rotate_part total_pages part selected_pages;
      rotate_loop total_pages rest selected_pages
  end.

Definition rotate_select (pages : string) (total_pages : nat) : outcome (gset Z) :=
  if String.eqb pages "all" then Done (list_to_set (Py.range 0 (Z.of_nat total_pages)))
  else rotate_loop (Z.of_nat total_pages) (Py.split "," pages) ∅.

(** ** Range strings the specification calls valid *)

Definition is_digit (c : ascii) : bool :=
  let n := nat_of_ascii c in (48 <=? n)%nat && (n <=? 57)%nat.

Fixpoint all_digits (s : string) : bool :=
  match s with
  | EmptyString => true
  | String c r => is_digit c && all_digits r
  end.

Fixpoint has_nonzero (s : string) : bool :=
  match s with
  | EmptyString => false
  | String c r => negb (Ascii.eqb c "0") || has_nonzero r
  end.

(** A positive integer written in decimal digits. *)
Definition positive_number (s : string) : bool :=
  all_digits s && has_nonzero s.

(** A token: a positive integer, or two positive integers around one dash. *)
Definition valid_token (t : string) : bool :=
  positive_number t ||
  match Py.split "-" t with
  | [a; b] => positive_number a && positive_number b
  | _ => false
  end.

(** A valid range string: the sentinel, or comma-separated tokens with
    optional white space around each token. *)
Definition valid_range (pages : string) : bool :=
  String.eqb pages "all" ||
  forallb (fun part => valid_token (Py.strip part)) (Py.split "," pages).

(** The numbers of a token are within the digit limit of [int]. *)
Definition within_digit_limit (t : string) : bool :=
  forallb (fun piece => (String.length piece <=? Py.int_max_str_digits)%nat)
          (Py.split "-" t).

(** A range string with every number within the digit limit. *)
Definition bounded_range (pages : string) : bool :=
  forallb (fun part => within_digit_limit (Py.strip part)) (Py.split "," pages).

(** A valid range string with a number of 4301 digits. *)
Definition long_range : string :=
  "1-" +:+ string_of_list_ascii (repeat "9"%char 4301).

(** Value of a digit string read from the left, starting from [acc]. *)
Fixpoint decimal_value (acc : Z) (s : string) : Z :=
  match s with
  | EmptyString => acc
  | String c r => decimal_value (acc * 10 + (Z.of_nat (nat_of_ascii c) - 48)) r
  end.


(** ** Python and library sequences *)

(** [reader.pages[i]] of pypdf, a Python sequence: a negative index counts
    from the end, an index outside the sequence is an [IndexError]. *)
Definition getitem {A} (l : list A) (i : Z) : outcome A :=
  let n := Z.of_nat (length l) in
  let j := if i <? 0 then i + n else i in
  if (0 <=? j) && (j <? n) then
    match l !! Z.to_nat j with
    | Some x => Done x
    | None => Raise IndexError
    end
  else Raise IndexError.

(** [doc[i]] of a PyMuPDF document: every index below the page count is
    in the document, a negative one counting backwards from the end; an
    index from the page count on is an [IndexError], and so is every index
    into a document without pages. *)
Definition fitz_getitem {A} (doc : list A) (i : Z) : outcome A :=
  let n := Z.of_nat (length doc) in
  if i <? n then
    match doc !! Z.to_nat (i mod n) with
    | Some x => Done x
    | None => Raise IndexError
    end
  else Raise IndexError.

(** ** [organize_pdf] *)

(** "Parse pages to delete": one turn of the loop. *)
Definition organize_delete_part (part : string) (pages_to_delete : gset Z)
    : outcome (gset Z) :=
  let part := Py.strip part in
  if Py.contains "-" part then
    '(start, end_) ← unpack_pair (Py.split "-" part);
    (* pages_to_delete.update(range(start, end + 1)): the range is not
       clamped to the document, and a set cannot hold more than
       sys.maxsize numbers *)
    if Py.maxsize <? end_ + 1 - start then Raise MemoryError
    else Done (pages_to_delete ∪ list_to_set (Py.range start (end_ + 1)))
  else
    n ← Py.int part;
    Done (pages_to_delete ∪ {[n]}).

Fixpoint organize_delete_loop (parts : list string) (pages_to_delete : gset Z)
    : outcome (gset Z) :=
  match parts with
  | [] => Done pages_to_delete
  | part :: rest =>
      pages_to_delete ← organize_delete_part part pages_to_delete;
      organize_delete_loop rest pages_to_delete
  end.

(** [pages_to_delete]: the loop runs only [if delete_pages:]. *)
Definition organize_delete (delete_pages : string) : outcome (gset Z) :=
  if String.eqb delete_pages "" then Done ∅
  else organize_delete_loop (Py.split "," delete_pages) ∅.

(** "Parse page order": one turn of the loop. *)
Definition organize_order_part (part : string) : outcome (list Z) :=
  let part := Py.strip part in
  if Py.contains "-" part then
    '(start, end_) ← unpack_pair (Py.split "-" part);
    (* new_order.extend(range(start, end + 1)): the range is not clamped
       to the document, and extend asks for its length, which must fit a
       C ssize_t *)
    if Py.maxsize <? end_ + 1 - start then Raise OverflowError
    else Done (Py.range start (end_ + 1))
  else
    n ← Py.int part;
    Done [n].

Fixpoint organize_order_loop (parts : list string) (new_order : list Z)
    : outcome (list Z) :=
  match parts with
  | [] => Done new_order
  | part :: rest =>
      new ← organize_order_part part;
      organize_order_loop rest (new_order ++ new)
  end.

Definition organize_order (page_order : string) : outcome (list Z) :=
  organize_order_loop (Py.split "," page_order) [].

(** The 1-based page numbers a range specification of [organize_pdf]
    stands for, in the order written; the empty specification (the default
    of [delete_pages]) stands for none. *)
Definition expansion (spec : string) : outcome (list Z) :=
  if String.eqb spec "" then Done [] else organize_order spec.

Section organize.
Context {Page : Type}.

(** "Add pages in new order, skipping deleted ones": [writer] is the list
    of pages added to the [PdfWriter] so far. *)
Fixpoint organize_add_pages (reader_pages : list Page) (pages_to_delete : gset Z)
    (new_order : list Z) (writer : list Page) : outcome (list Page) :=
  match new_order with
  | [] => Done writer
  | page_num :: rest =>
      if bool_decide (page_num ∈ pages_to_delete) then
        organize_add_pages reader_pages pages_to_delete rest writer
      else if (1 <=? page_num) && (page_num <=? Z.of_nat (length reader_pages)) then
        page ← getitem reader_pages (page_num - 1);
        organize_add_pages reader_pages pages_to_delete rest (writer ++ [page])
      else organize_add_pages reader_pages pages_to_delete rest writer
  end.

(** The handler between the upload and the response: the pages written to
    the output document.  [page_order] is [None] when the form field is
    absent. *)
Definition organize_pdf (reader_pages : list Page) (page_order : option string)
    (delete_pages : string) : outcome (list Page) :=
  match page_order with
  | None => Reply 400 "page_order is required"
  | Some page_order =>
      if String.eqb page_order "" then Reply 400 "page_order is required"
      else
        pages_to_delete ← organize_delete delete_pages;
        new_order ← organize_order page_order;
        organize_add_pages reader_pages pages_to_delete new_order []
  end.

End organize.

(** ** [rotate_pdf] *)

Section rotate.
Context {Page : Type}.

(** [page.rotate(rotation)] of pypdf, which may raise. *)
Variable page_rotate : Page -> Z -> outcome Page.

(** [for i, page in enumerate(reader.pages)]: rotate the selected pages,
    add every page to the writer. *)
Fixpoint rotate_pages (selected_pages : gset Z) (rotation : Z) (i : Z)
    (pages : list Page) (writer : list Page) : outcome (list Page) :=
  match pages with
  | [] => Done writer
  | page :: rest =>
      page ← (if bool_decide (i ∈ selected_pages)
              then page_rotate page rotation else Done page);
      rotate_pages selected_pages rotation (i + 1) rest (writer ++ [page])
  end.

(** The pages of the output document of one rotate request. *)
Definition rotate_pdf (reader_pages : list Page) (rotation : Z) (pages : string)
    : outcome (list Page) :=
  selected_pages ← rotate_select pages (length reader_pages);
  rotate_pages selected_pages rotation 0 reader_pages [].

(** A client applying rotate requests one after the other, each to the
    output of the previous one. *)
Fixpoint rotate_requests (doc : list Page) (requests : list (Z * string))
    : outcome (list Page) :=
  match requests with
  | [] => Done doc
  | (rotation, pages) :: rest =>
      doc ← rotate_pdf doc rotation pages;
      rotate_requests doc rest
  end.

End rotate.

(** A page as far as rotation is concerned: its [/Rotate] entry and the
    rest of the page object. *)
Record page : Type := { page_rotation : Z; page_content : string }.

(** Modelled from the spec: [PageObject.rotate] belongs to pypdf, which is
    not part of the repository; per section 4.3 rotation "accumulate[s]
    [spec.degrees] onto the page's existing rotation, modulo 360". *)
Definition page_rotate_spec (p : page) (degrees : Z) : outcome page :=
  Done {| page_rotation := (page_rotation p + degrees) mod 360;
          page_content := page_content p |}.

(** Sum of the degrees of the requests whose selection contains page [i]
    of a document of [total_pages] pages. *)
Fixpoint applied_degrees (total_pages : nat) (i : Z) (requests : list (Z * string)) : Z :=
  match requests with
  | [] => 0
  | (rotation, pages) :: rest =>
      (match rotate_select pages total_pages with
       | Done sel => if bool_decide (i ∈ sel) then rotation else 0
       | _ => 0
       end) + applied_degrees total_pages i rest
  end.

(** ** Colours of [edit_pdf], [add_watermark] and [add_page_numbers] *)

(** The "Parse color" block, identical in the three handlers.  The channels
    are the integers read from the string; the division by 255 that follows
    cannot fail and is left out. *)
Definition parse_color (color : string) : outcome (Z * Z * Z) :=
  let color_hex := Py.lstrip_char "#" color in
  r ← Py.int16 (Py.slice 0 2 color_hex);
  g ← Py.int16 (Py.slice 2 4 color_hex);
  b ← Py.int16 (Py.slice 4 6 color_hex);
  Done (r, g, b).

(** The three conversions of the block, on the three slices. *)
Definition channels (s0 s1 s2 : string) : outcome (Z * Z * Z) :=
  r ← Py.int16 s0; g ← Py.int16 s1; b ← Py.int16 s2; Done (r, g, b).

Definition is_hex_digit (c : ascii) : bool :=
  match Py.digit_value c with Some _ => true | None => false end.

(** A well-formed colour: six hexadecimal digits after an optional [#]. *)
Definition well_formed_color (color : string) : bool :=
  let h := match color with String "#" r => r | _ => color end in
  (String.length h =? 6)%nat && forallb is_hex_digit (list_ascii_of_string h).

Definition is_Some_bool {A} (o : option A) : bool :=
  match o with Some _ => true | None => false end.

(** The characters [int(_, 16)] can accept in a slice of two characters of
    an ASCII string: hexadecimal digits, a sign, the white space of [int]. *)
Definition color_char (c : ascii) : bool :=
  is_hex_digit c || Ascii.eqb c "+" || Ascii.eqb c "-" || Py.c_isspace c.

(** Every character, for checks by enumeration. *)
Definition all_ascii : list ascii := map ascii_of_nat (seq 0 256).

(** [int(_, 16)] rejects the one- and two-character slices that hold a
    character outside [color_char]. *)
Definition rejects_one (c : ascii) : bool :=
  color_char c || negb (is_Some_bool (Py.int_base 16 (String c ""))).

Definition rejects_two (c1 c2 : ascii) : bool :=
  (color_char c1 && color_char c2) ||
  negb (is_Some_bool (Py.int_base 16 (String c1 (String c2 "")))).

(** ** [generate_preview], PDF branch *)

Section preview.
Context {Page Thumb : Type}.

(** Rendering a page to a JPEG thumbnail of the given width (PyMuPDF). *)
Variable render : Page -> Z -> outcome Thumb.

(** The thumbnail and the ["pages"] field of the JSON answer. *)
Definition generate_preview (doc : list Page) (page width : Z) : outcome (Thumb * Z) :=
  let total_pages := Z.of_nat (length doc) in
  let page := if page >=? total_pages then 0 else page in
  pdf_page ← fitz_getitem doc page;
  thumb ← render pdf_page width;
  Done (thumb, total_pages).

End preview.

(** ** Staged files *)

(** The upload and output directories, and the log of the [unlink] calls
    that removed a file. *)
Record world : Type := { disk : gset string; unlinked : list string }.

Definition create (path : string) (w : world) : world :=
  {| disk := disk w ∪ {[path]}; unlinked := unlinked w |}.

(** [cleanup_file]: [unlink] only a file that exists.  Unlinking a file
    that exists is taken to succeed, so the [except] clause, which would
    swallow a failure, has nothing to catch. *)
Definition cleanup_file (filepath : string) (w : world) : world :=
  if bool_decide (filepath ∈ disk w)
  then {| disk := disk w ∖ {[filepath]}; unlinked := unlinked w ++ [filepath] |}
  else w.

(** [save_upload_file] when [upload_file.save] succeeds: [file_path] is the
    name built from a fresh UUID.  A handler whose behaviour under a
    failing save is studied has the failure in its environment (see
    [unlock_env]). *)
Definition save_upload_file (file_path : string) (w : world) : world :=
  create file_path w.

(** [shutil.move(src, dst)] inside the output directory. *)
Definition move (src dst : string) (w : world) : world :=
  {| disk := (disk w ∖ {[src]}) ∪ {[dst]}; unlinked := unlinked w |}.

(** What a handler hands to the server: a reply, an escaping exception, or
    ([Done]) the file response of [send_file] with the paths its
    [call_on_close] callbacks are to clean. *)
Definition handled : Type := (world * outcome (list string))%type.

(** [flask.send_file] builds its response with [direct_passthrough=True]. *)
Definition send_file_direct_passthrough : bool := true.

(** What the server does when the response has been sent or the client has
    gone: it closes the iterable the response handed to it.  An ordinary
    response hands out a [ClosingIterator] that calls [Response.close], and
    with it the [call_on_close] callbacks; a [direct_passthrough] response
    hands out its file wrapper itself, so [Response.close] is never called
    and the callbacks never run.  A JSON reply or an exception has no
    callback. *)
Definition close_response (h : handled) : world :=
  match h with
  | (w, Done callbacks) =>
      if send_file_direct_passthrough then w
      else foldl (fun w p => cleanup_file p w) w callbacks
  | (w, _) => w
  end.

(** What the calls of [word_to_pdf] into LibreOffice and Flask did in one
    request, and the names the request generated. *)
Record word_env : Type := {
  word_temp_path : string;        (* UPLOAD_DIR / "<uuid>_<filename>" *)
  word_output_path : string;      (* OUTPUT_DIR / generate_filename(..) *)
  word_converted_path : string;   (* OUTPUT_DIR / (temp_path.stem + ".pdf") *)
  run_wrote : bool;               (* LibreOffice wrote converted_path *)
  run_raised : option exn;        (* subprocess.run raised *)
  move_raised : option exn;       (* shutil.move raised, nothing moved *)
  word_send_raised : option exn   (* send_file raised *)
}.

(** [word_to_pdf]; [file] is [None] when [not file] holds of
    [request.files.get("file")]: no such part, or one without a filename. *)
Definition word_to_pdf (file : option string) (env : word_env) (w : world) : handled :=
  match file with
  | None => (w, Reply 400 "No file provided")
  | Some _ =>
      let temp_path := word_temp_path env in
      let output_path := word_output_path env in
      let converted_path := word_converted_path env in
      let w := save_upload_file temp_path w in
      (* try *)
      let '(w, r) :=
        let w := if run_wrote env then create converted_path w else w in
        match run_raised env with
        | Some e => (w, Raise e)
        | None =>
            if bool_decide (converted_path ∈ disk w) then
              match move_raised env with
              | Some e => (w, Raise e)
              | None =>
                  let w := move converted_path output_path w in
                  match word_send_raised env with
                  | Some e => (w, Raise e)
                  | None => (w, Done [output_path])
                  end
              end
            else (w, Reply 500 "Conversion failed")
        end in
      (* except *)
      let r :=
        match r with
        | Raise TimeoutExpired => Reply 500 "Conversion timed out"
        | Raise FileNotFoundError => Reply 500 "LibreOffice not installed"
        | _ => r
        end in
      (* finally *)
      (cleanup_file temp_path w, r)
  end.

(** What the library calls of [rotate_pdf] did in one request. *)
Record rotate_env : Type := {
  rotate_temp_path : string;
  rotate_output_path : string;
  reader_pages : outcome (list page);  (* PdfReader(str(temp_path)).pages *)
  write_raised : option exn;           (* writer.write(f) raised *)
  rotate_send_raised : option exn      (* send_file raised *)
}.

(** [rotate_pdf] with its files; [rotation] and [pages] are the form
    fields, [rotation] still a string; [page_rotate] is [page.rotate]. *)
Definition rotate_pdf_request (page_rotate : page -> Z -> outcome page)
    (file : option string) (rotation pages : string)
    (env : rotate_env) (w : world) : handled :=
  match file with
  | None => (w, Reply 400 "No file provided")
  | Some _ =>
      match Py.int rotation with
      | Done rotation =>
          let temp_path := rotate_temp_path env in
          let output_path := rotate_output_path env in
          let w := save_upload_file temp_path w in
          (* try *)
          let '(w, r) :=
            match doc ← reader_pages env; rotate_pdf page_rotate doc rotation pages with
            | Done _ =>
                (* with open(output_path, "wb") as f: writer.write(f) *)
                let w := create output_path w in
                match write_raised env with
                | Some e => (w, Raise e)
                | None =>
                    match rotate_send_raised env with
                    | Some e => (w, Raise e)
                    | None => (w, Done [output_path])
                    end
                end
            | Reply st d => (w, Reply st d)
            | Raise e => (w, Raise e)
            end in
          (* finally *)
          (cleanup_file temp_path w, r)
      | Reply st d => (w, Reply st d)
      | Raise e => (w, Raise e)
      end
  end.

(** ** [split_pdf]: the archive *)

Section split_archive.
Context {Page : Type}.

(** "Create ZIP with split pages": [zip_file] is the list of the entries
    written so far, each a name and the one-page document it holds.  An
    archive may hold the same name twice. *)
Fixpoint split_write (reader_pages : list Page) (selected_pages : list Z)
    (zip_file : list (string * Page)) : outcome (list (string * Page)) :=
  match selected_pages with
  | [] => Done zip_file
  | page_num :: rest =>
      page ← getitem reader_pages page_num;
      split_write reader_pages rest
        (zip_file ++ [("page_" +:+ Py.str (page_num + 1) +:+ ".pdf", page)])
  end.

(** The entry of the archive for the page of index [i]. *)
Definition is_entry (reader_pages : list Page) (e : string * Page) (i : Z) : Prop :=
  e.1 = "page_" +:+ Py.str (i + 1) +:+ ".pdf" /\ reader_pages !! Z.to_nat i = Some e.2.

(** The handler between the upload and the response. *)
Definition split_pdf (reader_pages : list Page) (pages : string)
    : outcome (list (string * Page)) :=
  selected_pages ← split_select pages (length reader_pages);
  split_write reader_pages selected_pages [].

(** ** [merge_pdfs] *)

(** The two nested loops: each file is given by what [PdfReader] makes of
    it, its pages or an exception. *)
Fixpoint merge_loop (files : list (outcome (list Page))) (writer : list Page)
    : outcome (list Page) :=
  match files with
  | [] => Done writer
  | reader :: rest =>
      pages ← reader;
      merge_loop rest (writer ++ pages)
  end.

Definition merge_pdfs (files : list (outcome (list Page))) : outcome (list Page) :=
  if (length files <? 2)%nat then Reply 400 "At least 2 PDF files required"
  else merge_loop files [].

End split_archive.

(** ** Handlers with their files *)

(** [split_pdf] answers from memory: nothing is allocated in the output
    directory.  [reader] is what [PdfReader] makes of the upload. *)
Definition split_pdf_request (file : option string) (pages : string)
    (temp_path : string) (reader : outcome (list page)) (w : world)
    : world * outcome (list (string * page)) :=
  match file with
  | None => (w, Reply 400 "No file provided")
  | Some _ =>
      let w := save_upload_file temp_path w in
      (* try *)
      let r := doc ← reader; split_pdf doc pages in
      (* finally *)
      (cleanup_file temp_path w, r)
  end.

(** One uploaded file of [merge_pdfs]: the name it is staged under and what
    [PdfReader] makes of it. *)
Record upload : Type := {
  upload_path : string;
  upload_pages : outcome (list page)
}.

(** [for file in files]: stage the file, record it in [temp_files], read
    it.  The loop stops at the first file that cannot be read. *)
Fixpoint merge_stage (files : list upload) (temp_files : list string)
    (writer : list page) (w : world)
    : world * list string * outcome (list page) :=
  match files with
  | [] => (w, temp_files, Done writer)
  | file :: rest =>
      let w := save_upload_file (upload_path file) w in
      let temp_files := temp_files ++ [upload_path file] in
      match upload_pages file with
      | Done pages => merge_stage rest temp_files (writer ++ pages) w
      | Reply st d => (w, temp_files, Reply st d)
      | Raise e => (w, temp_files, Raise e)
      end
  end.

Record merge_env : Type := {
  merge_output_path : string;
  merge_write_raised : option exn;   (* writer.write(f) raised *)
  merge_send_raised : option exn     (* send_file raised *)
}.

(** [merge_pdfs] with its files. *)
Definition merge_pdfs_request (files : list upload) (env : merge_env) (w : world)
    : handled :=
  if (length files <? 2)%nat then (w, Reply 400 "At least 2 PDF files required")
  else
    (* try *)
    let '(w, temp_files, merged) := merge_stage files [] [] w in
    let '(w, r) :=
      match merged with
      | Done _ =>
          let w := create (merge_output_path env) w in
          match merge_write_raised env with
          | Some e => (w, Raise e)
          | None =>
              match merge_send_raised env with
              | Some e => (w, Raise e)
              | None => (w, Done [merge_output_path env])
              end
          end
      | Reply st d => (w, Reply st d)
      | Raise e => (w, Raise e)
      end in
    (* finally *)
    (foldl (fun w p => cleanup_file p w) w temp_files, r).

(** What pikepdf did in one [unlock_pdf] request. *)
Inductive pike_open : Type :=
  | PikeOpened                      (* the password, if any, was right *)
  | PikePasswordError               (* pikepdf.PasswordError *)
  | PikeOpenError (message : string).   (* any other exception *)

Record unlock_env : Type := {
  unlock_stage_raised : option exn;       (* upload_file.save refused the name *)
  unlock_temp_path : string;
  unlock_output_path : string;
  unlock_open : pike_open;
  unlock_save_wrote : bool;               (* pdf.save created the output file *)
  unlock_save_raised : option string;     (* pdf.save raised, with this message *)
  unlock_send_raised : option string      (* send_file raised, with this message *)
}.

(** [unlock_pdf]: the upload is staged before the [try]; inside it
    [PasswordError] has its own clause and [except Exception] takes
    everything else.  [file] is [None] when [not file] holds. *)
Definition unlock_pdf (file : option string) (env : unlock_env) (w : world) : handled :=
  match file with
  | None => (w, Reply 400 "No file provided")
  | Some _ =>
      match unlock_stage_raised env with
      | Some e => (w, Raise e)
      | None =>
      let temp_path := unlock_temp_path env in
      let output_path := unlock_output_path env in
      let w := save_upload_file temp_path w in
      (* try *)
      let '(w, r) :=
        match unlock_open env with
        | PikePasswordError => (w, Reply 401 "Invalid password")
        | PikeOpenError m => (w, Reply 500 ("Failed to unlock PDF: " +:+ m))
        | PikeOpened =>
            let w := if unlock_save_wrote env then create output_path w else w in
            match unlock_save_raised env with
            | Some m => (w, Reply 500 ("Failed to unlock PDF: " +:+ m))
            | None =>
                match unlock_send_raised env with
                | Some m => (w, Reply 500 ("Failed to unlock PDF: " +:+ m))
                | None => (w, Done [output_path])
                end
            end
        end in
      (* finally *)
      (cleanup_file temp_path w, r)
      end
  end.

(** [html_to_pdf]: no upload; [except Exception] turns every failure of
    pdfkit or [send_file] into a reply. *)
Record html_env : Type := {
  html_output_path : string;
  pdfkit_wrote : bool;                 (* wkhtmltopdf created the output file *)
  pdfkit_raised : option string;       (* pdfkit.from_url raised, with this message *)
  html_send_raised : option string     (* send_file raised, with this message *)
}.

Definition html_to_pdf (url : option string) (env : html_env) (w : world) : handled :=
  match url with
  | None => (w, Reply 400 "URL is required")
  | Some url =>
      if String.eqb url "" then (w, Reply 400 "URL is required")
      else
        let output_path := html_output_path env in
        let w := if pdfkit_wrote env then create output_path w else w in
        match pdfkit_raised env with
        | Some m => (w, Reply 500 ("Conversion failed: " +:+ m))
        | None =>
            match html_send_raised env with
            | Some m => (w, Reply 500 ("Conversion failed: " +:+ m))
            | None => (w, Done [output_path])
            end
        end
  end.

(** ** Text inserted on PyMuPDF pages: [edit_pdf], [add_watermark],
       [add_page_numbers] *)

(** "Format page number text": [str] is applied to the page number before
    the first [replace], to the page count before the second. *)
Definition page_number_text (format_str : string) (page_num total_pages : Z)
    : outcome string :=
  n ← Py.str_checked page_num;
  let text := Py.replace "{n}" n format_str in
  total ← Py.str_checked total_pages;
  Done (Py.replace "{total}" total text).

(** The text the specification describes, a template with its placeholders
    filled in: the template is read once from the left, an occurrence of
    [{n}] gives the page number, an occurrence of [{total}] the page
    count, any other character gives itself.  [skip] counts the characters
    of a placeholder still to be passed. *)
Fixpoint fill_from (n total : string) (skip : nat) (template : string) : string :=
  match template with
  | EmptyString => EmptyString
  | String c r =>
      match skip with
      | S k => fill_from n total k r
      | O =>
          if Py.startswith "{n}" template then n +:+ fill_from n total 2 r
          else if Py.startswith "{total}" template then total +:+ fill_from n total 6 r
          else String c (fill_from n total 0 r)
      end
  end.

Definition fill_template (n total template : string) : string :=
  fill_from n total 0 template.

(** The characters of a decimal numeral. *)
Definition numeral_char (c : ascii) : bool := is_digit c || Ascii.eqb c "-".

Fixpoint numeral (s : string) : bool :=
  match s with
  | EmptyString => true
  | String c r => numeral_char c && numeral r
  end.

Section fitz_text.

(** Pages are left abstract, and so are page coordinates, which are
    floating-point numbers: their arithmetic is left to the parameters
    below. *)
Context {Page Coord : Type}.

(** [page.rect.width], [page.rect.height] *)
Variables rect_width rect_height : Page -> Coord.

(** [x / 2], [x * 0.2], [x * 0.8], an integer as a coordinate, and
    [x - n] for an integer [n]. *)
Variables half scale02 scale08 : Coord -> Coord.
Variable of_int : Z -> Coord.
Variable minus_int : Coord -> Z -> Coord.

(** [page.insert_text(point, text, fontsize=_, color=_, rotate=_,
    overlay=_)] of PyMuPDF: the page with the text on it, or the exception
    of the library, which checks its arguments.  The colour is given by
    the three integers the handler divides by 255. *)
Variable insert_text :
  Page -> Coord * Coord -> string -> Z -> Z * Z * Z -> Z -> bool -> outcome Page.

(** [edit_pdf] between the upload and [doc.save]: the pages of the saved
    document.  [insert_text] is called with its defaults [rotate=0] and
    [overlay=True], and only [if text:]. *)
Definition edit_pdf (doc : list Page) (text : string) (text_x text_y : Coord)
    (text_size : Z) (text_color : string) (page_num : Z) : outcome (list Page) :=
  if (page_num <? 1) || (page_num >? Z.of_nat (length doc))
  then Reply 400 "Invalid page number"
  else
    pg ← fitz_getitem doc (page_num - 1);
    rgb ← parse_color text_color;
    pg ← (if String.eqb text "" then Done pg
          else insert_text pg (text_x, text_y) text text_size rgb 0 true);
    Done (<[Z.to_nat (page_num - 1) := pg]> doc).

(** "Calculate position" of [add_watermark]. *)
Definition watermark_point (position : string) (width height : Coord) : Coord * Coord :=
  if String.eqb position "center" then (half width, half height)
  else if String.eqb position "top-left" then (scale02 width, scale02 height)
  else if String.eqb position "top-right" then (scale08 width, scale02 height)
  else if String.eqb position "bottom-left" then (scale02 width, scale08 height)
  else if String.eqb position "bottom-right" then (scale08 width, scale08 height)
  else (half width, half height).

(** [for page in doc]: the first call that fails ends the request. *)
Fixpoint add_watermark_loop (text : string) (font_size : Z) (rgb : Z * Z * Z)
    (rotation : Z) (position : string) (doc : list Page) : outcome (list Page) :=
  match doc with
  | [] => Done []
  | pg :: rest =>
      pg ← insert_text pg
             (watermark_point position (rect_width pg) (rect_height pg))
             text font_size rgb rotation true;
      rest ← add_watermark_loop text font_size rgb rotation position rest;
      Done (pg :: rest)
  end.

(** [add_watermark] between the upload and [doc.save].  The handler reads
    [opacity] from the form and passes it to nothing. *)
Definition add_watermark (doc : list Page) (text : string) (font_size : Z)
    (opacity : Coord) (color : string) (rotation : Z) (position : string)
    : outcome (list Page) :=
  rgb ← parse_color color;
  add_watermark_loop text font_size rgb rotation position doc.

(** "Calculate position" of [add_page_numbers], with [margin = 30]. *)
Definition page_number_point (position : string) (pg : Page) : Coord * Coord :=
  let margin := 30 in
  let y := if Py.contains_str "top" position then of_int margin
           else minus_int (rect_height pg) margin in
  let x := if Py.contains_str "left" position then of_int margin
           else if Py.contains_str "right" position then minus_int (rect_width pg) margin
           else half (rect_width pg) in
  (x, y).

(** [for i, page in enumerate(doc)]: a skipped page stays as it is; the
    first page whose number cannot be printed or whose text cannot be
    inserted ends the request. *)
Fixpoint add_page_numbers_loop (position format_str : string) (font_size : Z)
    (rgb : Z * Z * Z) (start_number : Z) (skip_first : bool) (total_pages : Z)
    (i : Z) (doc : list Page) : outcome (list Page) :=
  match doc with
  | [] => Done []
  | pg :: rest =>
      pg ← (if skip_first && (i =? 0) then Done pg
            else
              let page_num := start_number + i in
              let page_num := if skip_first then page_num - 1 else page_num in
              let point := page_number_point position pg in
              text ← page_number_text format_str page_num total_pages;
              insert_text pg point text font_size rgb 0 true);
      rest ← add_page_numbers_loop position format_str font_size rgb start_number
               skip_first total_pages (i + 1) rest;
      Done (pg :: rest)
  end.

(** [add_page_numbers] between the upload and [doc.save]. *)
Definition add_page_numbers (doc : list Page) (position format_str : string)
    (font_size : Z) (color : string) (start_number : Z) (skip_first : bool)
    : outcome (list Page) :=
  let total_pages := Z.of_nat (length doc) in
  rgb ← parse_color color;
  add_page_numbers_loop position format_str font_size rgb start_number skip_first
    total_pages 0 doc.

End fitz_text.

(** A page and an [insert_text] to run the handlers on: the page keeps the
    texts put on it, and the call refuses a rotation that is not a multiple
    of 90 and a colour channel outside 0..255, as PyMuPDF does. *)
Record sample_page : Type := {
  sample_width : Z;
  sample_height : Z;
  sample_texts : list (Z * Z * string)
}.

Definition sample_insert_text (pg : sample_page) (point : Z * Z) (text : string)
    (fontsize : Z) (color : Z * Z * Z) (rotate : Z) (overlay : bool)
    : outcome sample_page :=
  let '(r, g, b) := color in
  if negb (rotate mod 90 =? 0) then Raise ValueError
  else if (Z.min r (Z.min g b) <? 0) || (255 <? Z.max r (Z.max g b)) then Raise ValueError
  else Done {| sample_width := sample_width pg; sample_height := sample_height pg;
               sample_texts := sample_texts pg ++ [(point.1, point.2, text)] |}.

(** ** [jpg_to_pdf]: the layout of an image on its page *)

(** A4 in points, by orientation. *)
Definition jpg_page_size (orientation : string) : Z * Z :=
  if String.eqb orientation "landscape" then (842, 595) else (595, 842).

(** A page of the output: its size, where the image is pasted and the size
    of the pasted image. *)
Record placed_image : Type := {
  placed_page : Z * Z;
  placed_at : Z * Z;
  placed_size : Z * Z
}.

Section jpg.

(** [img.thumbnail(box, LANCZOS)] of Pillow: the size of the image after
    the call, or the exception of the library (a box with a side that is
    not positive is a [ValueError]). *)
Variable thumbnail : Z * Z -> Z * Z -> outcome (Z * Z).

(** One turn of [for img in images]. *)
Definition jpg_place (orientation : string) (margin : Z) (img : Z * Z)
    : outcome placed_image :=
  let page_size := jpg_page_size orientation in
  let max_width := page_size.1 - 2 * margin in
  let max_height := page_size.2 - 2 * margin in
  size ← thumbnail img (max_width, max_height);
  let x := (page_size.1 - size.1) `div` 2 in
  let y := (page_size.2 - size.2) `div` 2 in
  Done {| placed_page := page_size; placed_at := (x, y); placed_size := size |}.

Fixpoint jpg_pages (orientation : string) (margin : Z) (images : list (Z * Z))
    : outcome (list placed_image) :=
  match images with
  | [] => Done []
  | img :: rest =>
      p ← jpg_place orientation margin img;
      rest ← jpg_pages orientation margin rest;
      Done (p :: rest)
  end.

(** The pages of the PDF, one for each uploaded image, given by its size. *)
Definition jpg_to_pdf (images : list (Z * Z)) (orientation : string) (margin : Z)
    : outcome (list placed_image) :=
  match images with
  | [] => Reply 400 "No files provided"
  | _ => jpg_pages orientation margin images
  end.

End jpg.

(** A thumbnail like Pillow's, without the rounding of the aspect ratio:
    a box with a side below 1 is refused, a larger image is cut to the
    box. *)
Definition sample_thumbnail (img box : Z * Z) : outcome (Z * Z) :=
  if (box.1 <? 1) || (box.2 <? 1) then Raise ValueError
  else Done (Z.min img.1 box.1, Z.min img.2 box.2).

(** A colour slice of two hexadecimal digits is read as a number of one
    byte. *)
Definition accepts_two (c1 c2 : ascii) : bool :=
  negb (is_hex_digit c1 && is_hex_digit c2) ||
  match Py.int_base 16 (String c1 (String c2 "")) with
  | Some v => (0 <=? v) && (v <=? 255)
  | None => false
  end.
(** * Properties *)

(** ** Sanity checks of the primitives *)

Example int_ok : Py.int " 12 " = Done 12. Proof. reflexivity. Qed.
Example int_neg : Py.int "-3" = Done (-3). Proof. reflexivity. Qed.
Example int_us : Py.int "1_000" = Done 1000. Proof. reflexivity. Qed.
Example int_bad : Py.int "" = Raise ValueError. Proof. reflexivity. Qed.
Example int_bad2 : Py.int "1__0" = Raise ValueError. Proof. reflexivity. Qed.
Example int16_ok : Py.int16 "fF" = Done 255. Proof. reflexivity. Qed.
Example int16_zz : Py.int16 "zz" = Raise ValueError. Proof. reflexivity. Qed.
Example split_ex : Py.split "," "1, 2-3,," = ["1"; " 2-3"; ""; ""]. Proof. reflexivity. Qed.
Example strip_ex : Py.strip "  a b  " = "a b". Proof. reflexivity. Qed.
Example str_ex : Py.str (-120) = "-120". Proof. reflexivity. Qed.
Example str_ex0 : Py.str 0 = "0". Proof. reflexivity. Qed.
Example replace_ex : Py.replace "{n}" "12" "Page {n} of {n}{total}" = "Page 12 of 12{total}".
Proof. reflexivity. Qed.
Example range_ex : Py.range 2 5 = [2; 3; 4]. Proof. reflexivity. Qed.
Example slice_ex : Py.slice 2 4 "abc" = "c". Proof. reflexivity. Qed.

Example split_select_ex : split_select "1, 3-4,9" 5 = Done [0; 2; 3].
Proof. reflexivity. Qed.
Example split_select_desc : split_select "3-1" 5 = Done [].
Proof. reflexivity. Qed.
Example split_select_neg : split_select "-3" 5 = Raise ValueError.
Proof. reflexivity. Qed.
Example split_select_zero : split_select "0-2" 5 = Done [-1; 0; 1].
Proof. reflexivity. Qed.
Example rotate_select_ex : rotate_select "1, 3-4,9" 5 = Done ({[0; 2; 3]} : gset Z).
Proof. vm_compute. reflexivity. Qed.

Example valid_range_ex : valid_range "1, 3-4 ,9" = true. Proof. reflexivity. Qed.
Example valid_range_zero : valid_range "0" = false. Proof. reflexivity. Qed.
Example valid_range_neg : valid_range "-3" = false. Proof. reflexivity. Qed.

(** ** Facts about the string primitives *)

Section digit_strings.

Lemma is_digit_value c :
  is_digit c = true ->
  Py.digit_value c = Some (Z.of_nat (nat_of_ascii c) - 48) /\
  0 <= Z.of_nat (nat_of_ascii c) - 48 < 10.
Proof.
  unfold is_digit, Py.digit_value. intros H.
  apply andb_true_iff in H as [H1 H2].
  apply Nat.leb_le in H1. apply Nat.leb_le in H2.
  replace (48 <=? Z.of_nat (nat_of_ascii c)) with true by (symmetry; apply Z.leb_le; lia).
  replace (Z.of_nat (nat_of_ascii c) <=? 57) with true by (symmetry; apply Z.leb_le; lia).
  simpl. split; [reflexivity | lia].
Qed.

Lemma is_digit_not_special c :
  is_digit c = true ->
  Py.isspace c = false /\ Ascii.eqb c "_" = false /\ Ascii.eqb c "-" = false /\
  Ascii.eqb c "+" = false /\ Ascii.eqb c "," = false.
Proof.
  destruct c as [[] [] [] [] [] [] [] []]; vm_compute; intros H;
    first [discriminate H | repeat split].
Qed.

Lemma digits_all_digits s : forall prev acc,
  all_digits s = true -> (s <> EmptyString \/ prev = true) ->
  Py.digits 10 prev acc s = Some (decimal_value acc s).
Proof.
  induction s as [|c r IH]; intros prev acc Hs Hne.
  - destruct Hne as [Hne | ->]; [congruence | reflexivity].
  - cbn [all_digits] in Hs. apply andb_true_iff in Hs as [Hc Hr].
    cbn [Py.digits decimal_value].
    destruct (is_digit_not_special c Hc) as (_ & -> & _).
    destruct (is_digit_value c Hc) as [-> Hb].
    replace (Z.of_nat (nat_of_ascii c) - 48 <? 10) with true
      by (symmetry; apply Z.ltb_lt; lia).
    apply IH; auto.
Qed.

Lemma decimal_value_ge s : forall acc,
  all_digits s = true -> 0 <= acc -> acc <= decimal_value acc s.
Proof.
  induction s as [|c r IH]; intros acc Hs Hacc; cbn [decimal_value]; [lia|].
  cbn [all_digits] in Hs. apply andb_true_iff in Hs as [Hc Hr].
  destruct (is_digit_value c Hc) as [_ Hb].
  specialize (IH (acc * 10 + (Z.of_nat (nat_of_ascii c) - 48)) Hr). lia.
Qed.

Lemma decimal_value_pos s : forall acc,
  all_digits s = true -> 0 <= acc -> has_nonzero s = true ->
  1 <= decimal_value acc s.
Proof.
  induction s as [|c r IH]; intros acc Hs Hacc Hnz; [discriminate|].
  cbn [all_digits] in Hs. apply andb_true_iff in Hs as [Hc Hr].
  destruct (is_digit_value c Hc) as [_ Hb].
  cbn [has_nonzero] in Hnz. cbn [decimal_value].
  destruct (Ascii.eqb c "0") eqn:E; cbn in Hnz.
  - apply IH; auto; lia.
  - assert (Z.of_nat (nat_of_ascii c) - 48 <> 0).
    { intros H0. apply Ascii.eqb_neq in E. apply E.
      rewrite <- (ascii_nat_embedding c).
      replace (nat_of_ascii c) with 48%nat by lia. reflexivity. }
    pose proof (decimal_value_ge r (acc * 10 + (Z.of_nat (nat_of_ascii c) - 48)) Hr).
    lia.
Qed.

Lemma rstrip_no_space s :
  (forall c, Py.contains c s = true -> Py.isspace c = false) -> Py.rstrip s = s.
Proof.
  induction s as [|c r IH]; intros H; [reflexivity|].
  cbn [Py.rstrip]. rewrite IH.
  - destruct r; [|reflexivity].
    rewrite (H c); [reflexivity|]. cbn. now rewrite Ascii.eqb_refl.
  - intros d Hd. apply H. cbn. rewrite Hd. apply orb_true_r.
Qed.

Lemma all_digits_contains s c :
  all_digits s = true -> Py.contains c s = true -> is_digit c = true.
Proof.
  induction s as [|d r IH]; cbn; [discriminate|].
  intros Hs Hc. apply andb_true_iff in Hs as [Hd Hr].
  apply orb_true_iff in Hc as [Hc | Hc]; [|auto].
  apply Ascii.eqb_eq in Hc. now subst.
Qed.

Lemma int_rstrip_no_space s :
  (forall c, Py.contains c s = true -> Py.c_isspace c = false) -> Py.int_rstrip s = s.
Proof.
  induction s as [|c r IH]; intros H; [reflexivity|].
  cbn [Py.int_rstrip]. rewrite IH.
  - destruct r; [|reflexivity].
    rewrite (H c); [reflexivity|]. cbn. now rewrite Ascii.eqb_refl.
  - intros d Hd. apply H. cbn. rewrite Hd. apply orb_true_r.
Qed.

Lemma is_digit_not_c_space c : is_digit c = true -> Py.c_isspace c = false.
Proof.
  destruct c as [[] [] [] [] [] [] [] []]; vm_compute; intros H;
    first [discriminate H | reflexivity].
Qed.

Lemma int_strip_all_digits s : all_digits s = true -> Py.int_strip s = s.
Proof.
  intros Hs. unfold Py.int_strip.
  assert (Py.int_lstrip s = s) as ->.
  { destruct s as [|c r]; [reflexivity|]. cbn in *.
    apply andb_true_iff in Hs as [Hc _].
    now rewrite (is_digit_not_c_space c Hc). }
  apply int_rstrip_no_space. intros c Hc.
  apply is_digit_not_c_space. eapply all_digits_contains; eauto.
Qed.

Lemma count_all_digits s : all_digits s = true -> Py.count_digits s = String.length s.
Proof.
  induction s as [|c r IH]; cbn [all_digits Py.count_digits String.length];
    [reflexivity|].
  intros H. apply andb_true_iff in H as [Hc Hr].
  unfold is_digit in Hc. rewrite Hc, (IH Hr). reflexivity.
Qed.

Lemma strip_all_digits s : all_digits s = true -> Py.strip s = s.
Proof.
  intros Hs. unfold Py.strip.
  assert (Py.lstrip s = s) as ->.
  { destruct s as [|c r]; [reflexivity|]. cbn in *.
    apply andb_true_iff in Hs as [Hc _].
    now destruct (is_digit_not_special c Hc) as (-> & _). }
  apply rstrip_no_space. intros c Hc.
  apply (is_digit_not_special c). eapply all_digits_contains; eauto.
Qed.

Lemma contains_all_digits s c :
  all_digits s = true -> is_digit c = false -> Py.contains c s = false.
Proof.
  intros Hs Hc. destruct (Py.contains c s) eqn:E; [|reflexivity].
  rewrite (all_digits_contains s c Hs E) in Hc. discriminate.
Qed.

Lemma unsigned_10 s : Py.unsigned 10 s = Py.digits 10 false 0 s.
Proof.
  destruct s as [|c [|x r]]; try reflexivity;
    destruct c as [[] [] [] [] [] [] [] []]; reflexivity.
Qed.

Lemma signed_digit c r :
  is_digit c = true -> Py.signed 10 (String c r) = Py.digits 10 false 0 (String c r).
Proof.
  intros Hc. rewrite <- unsigned_10.
  destruct c as [[] [] [] [] [] [] [] []]; try reflexivity; discriminate Hc.
Qed.

(** [int] reads a digit string as its decimal value. *)
Lemma int_all_digits s :
  all_digits s = true -> s <> EmptyString ->
  (String.length s <= Py.int_max_str_digits)%nat ->
  Py.int s = Done (decimal_value 0 s).
Proof.
  intros Hs Hne Hlen. unfold Py.int, Py.int_base. cbv zeta.
  rewrite int_strip_all_digits, count_all_digits by assumption.
  replace (Py.int_max_str_digits <? String.length s)%nat with false
    by (symmetry; apply Nat.ltb_ge; exact Hlen).
  cbn [Z.eqb Pos.eqb andb].
  destruct s as [|c r]; [congruence|].
  pose proof Hs as Hs'. cbn [all_digits] in Hs'. apply andb_true_iff in Hs' as [Hc _].
  rewrite signed_digit by assumption.
  rewrite digits_all_digits; auto.
Qed.

Lemma int_positive_number s :
  positive_number s = true -> (String.length s <= Py.int_max_str_digits)%nat ->
  exists n, Py.int s = Done n /\ 1 <= n.
Proof.
  unfold positive_number. intros H Hlen. apply andb_true_iff in H as [Hd Hnz].
  exists (decimal_value 0 s). split.
  - apply int_all_digits; [assumption| |assumption]. intros ->. discriminate.
  - apply decimal_value_pos; auto; lia.
Qed.

End digit_strings.

(** ** The selection loops *)

(** Equality of two sets of page numbers built with unions. *)
Ltac set_eq :=
  apply set_eq; intros ?;
  rewrite ?elem_of_union, ?elem_of_list_to_set, ?elem_of_app, ?elem_of_cons,
    ?elem_of_nil, ?elem_of_singleton, ?elem_of_empty;
  tauto.

Section selection.

Lemma contains_false_split c s : Py.contains c s = false -> Py.split c s = [s].
Proof.
  induction s as [|d r IH]; cbn; [reflexivity|].
  intros H. apply orb_false_iff in H as [Hd Hr].
  rewrite Hd, (IH Hr). reflexivity.
Qed.

Lemma split_pair_contains c s a b : Py.split c s = [a; b] -> Py.contains c s = true.
Proof.
  intros H. destruct (Py.contains c s) eqn:E; [reflexivity|].
  rewrite (contains_false_split c s E) in H. discriminate.
Qed.

Lemma split_loop_acc total parts : forall acc,
  split_loop total parts acc = (l ← split_loop total parts []; Done (acc ++ l)).
Proof.
  induction parts as [|part rest IH]; intros acc; cbn.
  - now rewrite app_nil_r.
  - destruct (split_part total part) as [new | |]; cbn; try reflexivity.
    rewrite (IH (acc ++ new)), (IH new).
    destruct (split_loop total rest []) as [l | |]; cbn; try reflexivity.
    now rewrite app_assoc.
Qed.

(** The set built by [rotate_pdf] holds the indices listed by [split_pdf]. *)
Lemma rotate_part_split total part sel :
  rotate_part total part sel =
  (new ← split_part total part; Done (sel ∪ list_to_set new)).
Proof.
  unfold rotate_part, split_part.
  destruct (Py.contains "-" (Py.strip part)).
  - destruct (unpack_pair _) as [[start end_] | |]; reflexivity.
  - destruct (Py.int _) as [n | |]; cbn; try reflexivity.
    destruct ((0 <=? n - 1) && (n - 1 <? total)); cbn; f_equal; set_eq.
Qed.

Lemma rotate_loop_split total parts : forall sel,
  rotate_loop total parts sel =
  (l ← split_loop total parts []; Done (sel ∪ list_to_set l)).
Proof.
  induction parts as [|part rest IH]; intros sel; cbn.
  - f_equal. set_eq.
  - rewrite rotate_part_split.
    destruct (split_part total part) as [new | |]; cbn; try reflexivity.
    rewrite IH, (split_loop_acc total rest new).
    destruct (split_loop total rest []) as [l | |]; cbn; try reflexivity.
    f_equal. set_eq.
Qed.

Lemma rotate_select_split pages total :
  rotate_select pages total = (l ← split_select pages total; Done (list_to_set l)).
Proof.
  unfold rotate_select, split_select.
  destruct (String.eqb pages "all"); [reflexivity|].
  rewrite rotate_loop_split.
  destruct (split_loop _ _ []) as [l | |]; cbn; try reflexivity.
  f_equal. set_eq.
Qed.

Lemma range_bounds a b i : i ∈ Py.range a b <-> a <= i < b.
Proof. unfold Py.range. rewrite elem_of_seqZ. lia. Qed.

Lemma range_empty a b : b <= a -> Py.range a b = [].
Proof. intros H. unfold Py.range. apply seqZ_nil. lia. Qed.

Lemma range_all (n : nat) : Py.range 0 (Z.of_nat n) = Z.of_nat <$> seq 0 n.
Proof.
  unfold Py.range, seqZ. rewrite Z.sub_0_r, Nat2Z.id.
  apply list_fmap_ext. intros _ i _. lia.
Qed.

Lemma unpack_pair_positive a b :
  positive_number a = true -> positive_number b = true ->
  (String.length a <= Py.int_max_str_digits)%nat ->
  (String.length b <= Py.int_max_str_digits)%nat ->
  exists start end_, unpack_pair [a; b] = Done (start, end_) /\ 1 <= start /\ 1 <= end_.
Proof.
  intros Ha Hb La Lb.
  destruct (int_positive_number a Ha La) as (na & Ea & Hna).
  destruct (int_positive_number b Hb Lb) as (nb & Eb & Hnb).
  exists na, nb. cbn. rewrite Ea. cbn. rewrite Eb. cbn. auto.
Qed.

Lemma positive_number_no_dash t : positive_number t = true -> Py.contains "-" t = false.
Proof.
  unfold positive_number. intros H. apply andb_true_iff in H as [Hd _].
  now apply contains_all_digits.
Qed.

Lemma split_part_valid total part :
  valid_token (Py.strip part) = true ->
  within_digit_limit (Py.strip part) = true ->
  exists new, split_part total part = Done new /\
              Forall (fun i => 0 <= i < total) new.
Proof.
  unfold valid_token, within_digit_limit, split_part. intros H Hlim.
  apply orb_true_iff in H as [Hp | Hs].
  - rewrite (positive_number_no_dash _ Hp).
    rewrite (contains_false_split _ _ (positive_number_no_dash _ Hp)) in Hlim.
    cbn in Hlim. rewrite andb_true_r in Hlim. apply Nat.leb_le in Hlim.
    destruct (int_positive_number _ Hp Hlim) as (n & -> & Hn). cbn.
    destruct ((0 <=? n - 1) && (n - 1 <? total)) eqn:E; eexists; split;
      try reflexivity; [|constructor].
    apply andb_true_iff in E as [E1 E2].
    apply Z.leb_le in E1. apply Z.ltb_lt in E2. repeat constructor; lia.
  - destruct (Py.split "-" (Py.strip part)) as [|a [|b [|]]] eqn:E; try discriminate.
    rewrite (split_pair_contains _ _ _ _ E).
    apply andb_true_iff in Hs as [Ha Hb].
    cbn in Hlim. rewrite andb_true_r in Hlim.
    apply andb_true_iff in Hlim as [La Lb].
    apply Nat.leb_le in La. apply Nat.leb_le in Lb.
    destruct (unpack_pair_positive a b Ha Hb La Lb) as (start & end_ & -> & Hs & He). cbn.
    eexists; split; [reflexivity|].
    apply Forall_forall. intros i Hi. apply range_bounds in Hi. lia.
Qed.

Lemma split_loop_valid total parts :
  forallb (fun part => valid_token (Py.strip part)) parts = true ->
  forallb (fun part => within_digit_limit (Py.strip part)) parts = true ->
  exists sel, split_loop total parts [] = Done sel /\
              Forall (fun i => 0 <= i < total) sel.
Proof.
  induction parts as [|part rest IH]; cbn; intros H Hlim.
  - exists []. split; [reflexivity | constructor].
  - apply andb_true_iff in H as [Hp Hr].
    apply andb_true_iff in Hlim as [Lp Lr].
    destruct (split_part_valid total part Hp Lp) as (new & -> & Hnew). cbn.
    destruct (IH Hr Lr) as (sel & Esel & Hsel).
    rewrite split_loop_acc, Esel. cbn.
    exists (new ++ sel). split; [reflexivity|]. now apply Forall_app.
Qed.

Lemma split_select_valid pages (total : nat) :
  valid_range pages = true -> bounded_range pages = true ->
  exists sel, split_select pages total = Done sel /\
              Forall (fun i => 0 <= i < Z.of_nat total) sel.
Proof.
  unfold valid_range, bounded_range, split_select. intros H Hlim.
  destruct (String.eqb pages "all"); cbn in H.
  - eexists; split; [reflexivity|].
    apply Forall_forall. intros i Hi. apply range_bounds in Hi. lia.
  - now apply split_loop_valid.
Qed.

End selection.

(** C5: for every page count, the "all" sentinel resolves to exactly the
    indices [0 .. total_pages-1]: in ascending order in [split_pdf], as
    the set of these indices in [rotate_pdf]. *)
Theorem all_selects_every_page (total_pages : nat) :
  split_select "all" total_pages = Done (Z.of_nat <$> seq 0 total_pages) /\
  exists sel : gset Z,
    rotate_select "all" total_pages = Done sel /\
    forall i, i ∈ sel <-> 0 <= i < Z.of_nat total_pages.
Proof.
  split.
  - unfold split_select. cbn. now rewrite range_all.
  - eexists; split; [reflexivity|].
    intros i. rewrite elem_of_list_to_set, range_bounds. lia.
Qed.

(** C6 as the code has it: for every valid range string whose numbers
    have at most 4300 digits, the limit of [int], and every page count, the
    selection of [split_pdf] and of [rotate_pdf] is computed without an
    error and every index in it lies in [0, total_pages): what points
    outside the document is dropped. *)
Theorem valid_range_selection_in_bounds (pages : string) (total_pages : nat) :
  valid_range pages = true ->
  bounded_range pages = true ->
  (exists sel, split_select pages total_pages = Done sel /\
               Forall (fun i => 0 <= i < Z.of_nat total_pages) sel) /\
  (exists sel : gset Z, rotate_select pages total_pages = Done sel /\
               forall i, i ∈ sel -> 0 <= i < Z.of_nat total_pages).
Proof.
  intros H Hlim.
  destruct (split_select_valid pages total_pages H Hlim) as (sel & E & Hsel).
  split; [eauto|].
  rewrite rotate_select_split, E. cbn.
  eexists; split; [reflexivity|].
  intros i Hi. apply elem_of_list_to_set in Hi.
  rewrite Forall_forall in Hsel. auto.
Qed.

Lemma valid_range_selection_in_bounds_witness :
  valid_range "1, 3-4,9,2-70" = true /\
  bounded_range "1, 3-4,9,2-70" = true /\
  (exists sel, split_select "1, 3-4,9,2-70" 5 = Done sel /\
               Forall (fun i => 0 <= i < Z.of_nat 5) sel) /\
  (exists sel : gset Z, rotate_select "1, 3-4,9,2-70" 5 = Done sel /\
               forall i, i ∈ sel -> 0 <= i < Z.of_nat 5).
Proof.
  split; [reflexivity|]. split; [reflexivity|].
  apply (valid_range_selection_in_bounds "1, 3-4,9,2-70" 5); reflexivity.
Defined.

(** C6 as stated fails: a token of more than 4300 digits is a positive
    integer, so the range string is valid, but [int] refuses it and both
    handlers raise. *)
Lemma valid_range_with_long_number_raises :
  valid_range long_range = true /\
  split_select long_range 5 = Raise ValueError /\
  rotate_select long_range 5 = Raise ValueError.
Proof. vm_compute. repeat split. Qed.

(** ** Descending range tokens *)

Section descending.

Lemma append_nil_l (s : string) : "" +:+ s = s.
Proof. reflexivity. Qed.

Lemma append_cons c (r s : string) : String c r +:+ s = String c (r +:+ s).
Proof. reflexivity. Qed.

Lemma split_app_sep c a b :
  Py.contains c a = false -> Py.contains c b = false ->
  Py.split c (a +:+ String c b) = [a; b].
Proof.
  intros Ha Hb. induction a as [|d r IH].
  - rewrite append_nil_l. cbn [Py.split].
    now rewrite Ascii.eqb_refl, (contains_false_split c b Hb).
  - rewrite append_cons. cbn [Py.split].
    cbn [Py.contains] in Ha. apply orb_false_iff in Ha as [Hd Hr].
    now rewrite Hd, (IH Hr).
Qed.

Lemma contains_app_sep c a b : Py.contains c (a +:+ String c b) = true.
Proof.
  induction a as [|d r IH].
  - rewrite append_nil_l. cbn [Py.contains]. now rewrite Ascii.eqb_refl.
  - rewrite append_cons. cbn [Py.contains]. rewrite IH. apply orb_true_r.
Qed.

Lemma split_loop_app total l1 l2 : forall acc,
  split_loop total (l1 ++ l2) acc = (x ← split_loop total l1 acc; split_loop total l2 x).
Proof.
  induction l1 as [|part rest IH]; intros acc; cbn; [reflexivity|].
  destruct (split_part total part) as [new | |]; cbn; auto.
Qed.

(** A descending token appends nothing to the selection. *)
Lemma split_part_descending total part sa sb a b :
  Py.strip part = sa +:+ "-" +:+ sb ->
  Py.contains "-" sa = false -> Py.contains "-" sb = false ->
  Py.int sa = Done a -> Py.int sb = Done b -> a > b ->
  split_part total part = Done [].
Proof.
  intros Hp Ha Hb Ea Eb Hab. unfold split_part. rewrite Hp.
  change (sa +:+ "-" +:+ sb) with (sa +:+ String "-" sb).
  rewrite contains_app_sep, split_app_sep by assumption.
  cbn. rewrite Ea. cbn. rewrite Eb. cbn.
  f_equal. apply range_empty. lia.
Qed.

Lemma split_loop_skip total before part after acc :
  split_part total part = Done [] ->
  split_loop total (before ++ part :: after) acc = split_loop total (before ++ after) acc.
Proof.
  intros Hp. rewrite !split_loop_app.
  destruct (split_loop total before acc) as [x | |]; cbn; try reflexivity.
  rewrite Hp. cbn. now rewrite app_nil_r.
Qed.

Lemma split_all_not_descending before part after sa sb :
  Py.split "," "all" = before ++ part :: after ->
  Py.strip part <> sa +:+ "-" +:+ sb.
Proof.
  cbn. intros H E.
  assert (part = "all") as ->.
  { destruct before as [|x [|y before]]; inversion H; subst; reflexivity. }
  pose proof (contains_app_sep "-" sa sb) as Hc.
  change (sa +:+ String "-" sb) with (sa +:+ "-" +:+ sb) in Hc.
  rewrite <- E in Hc. discriminate Hc.
Qed.

End descending.

(** C2 as the code has it: a descending range token [a-b] with [a > b]
    is not an error; it selects no page, and [split_pdf] and [rotate_pdf]
    resolve the string to what its other tokens select. *)
Theorem descending_range_selects_nothing
    (pages : string) (total_pages : nat) (before after : list string)
    (part sa sb : string) (a b : Z) :
  Py.split "," pages = before ++ part :: after ->
  Py.strip part = sa +:+ "-" +:+ sb ->
  Py.contains "-" sa = false -> Py.contains "-" sb = false ->
  Py.int sa = Done a -> Py.int sb = Done b -> a > b ->
  split_part (Z.of_nat total_pages) part = Done [] /\
  split_select pages total_pages =
    split_loop (Z.of_nat total_pages) (before ++ after) [] /\
  rotate_select pages total_pages =
    rotate_loop (Z.of_nat total_pages) (before ++ after) ∅.
Proof.
  intros Hs Hp Ha Hb Ea Eb Hab.
  pose proof (split_part_descending (Z.of_nat total_pages) part sa sb a b
                Hp Ha Hb Ea Eb Hab) as Hpart.
  assert (String.eqb pages "all" = false) as Hall.
  { destruct (String.eqb pages "all") eqn:E; [|reflexivity].
    apply String.eqb_eq in E. subst pages.
    now destruct (split_all_not_descending before part after sa sb Hs). }
  assert (split_select pages total_pages =
          split_loop (Z.of_nat total_pages) (before ++ after) []) as Hsplit.
  { unfold split_select. rewrite Hall, Hs. now apply split_loop_skip. }
  repeat split; [assumption..|].
  rewrite rotate_select_split, Hsplit, rotate_loop_split.
  destruct (split_loop _ _ []) as [l | |]; cbn; try reflexivity.
  f_equal. set_eq.
Qed.

Lemma descending_range_selects_nothing_witness :
  split_part (Z.of_nat 5) " 3-1" = Done [] /\
  split_select "2, 3-1,4" 5 = split_loop (Z.of_nat 5) (["2"] ++ ["4"]) [] /\
  rotate_select "2, 3-1,4" 5 = rotate_loop (Z.of_nat 5) (["2"] ++ ["4"]) ∅.
Proof.
  apply (descending_range_selects_nothing "2, 3-1,4" 5 ["2"] ["4"] " 3-1" "3" "1" 3 1);
    first [reflexivity | lia].
Defined.

(** C2 as stated fails: ["3-1"] resolves, silently, to the empty
    selection in both handlers. *)
Lemma descending_range_is_accepted :
  split_select "3-1" 5 = Done [] /\
  rotate_select "3-1" 5 = Done ∅ /\
  ~ (exists e, split_select "3-1" 5 = Raise e) /\
  ~ (exists e, rotate_select "3-1" 5 = Raise e).
Proof.
  repeat split; try reflexivity; intros [e H]; discriminate H.
Qed.

(** ** [organize_pdf] *)

Example expansion_ex : expansion "2, 4-6,1" = Done [2; 4; 5; 6; 1].
Proof. reflexivity. Qed.
Example organize_bad_token : organize_pdf [10; 20; 30] (Some "2,x") "" = Raise ValueError.
Proof. reflexivity. Qed.
Example organize_no_order : organize_pdf [10; 20; 30] None "" = Reply 400 "page_order is required".
Proof. reflexivity. Qed.
Example organize_repeat : organize_pdf [10; 20; 30] (Some "3,3,9,1-2") "2" = Done [30; 30; 10].
Proof. reflexivity. Qed.

Section organize_facts.
Context {Page : Type}.
Implicit Types (reader_pages writer : list Page) (deleted : list Z).

Lemma getitem_in_range reader_pages (i : Z) :
  0 <= i < Z.of_nat (length reader_pages) ->
  exists page, getitem reader_pages i = Done page /\
               reader_pages !! Z.to_nat i = Some page.
Proof.
  intros Hi. unfold getitem.
  replace (i <? 0) with false by (symmetry; apply Z.ltb_ge; lia).
  replace (0 <=? i) with true by (symmetry; apply Z.leb_le; lia).
  replace (i <? Z.of_nat (length reader_pages)) with true
    by (symmetry; apply Z.ltb_lt; lia).
  cbn. destruct (reader_pages !! Z.to_nat i) as [page|] eqn:E; [eauto|].
  apply lookup_ge_None in E. lia.
Qed.

(** The writing loop keeps, in order, the page numbers that are neither
    deleted nor outside the document. *)
Lemma organize_add_pages_filter reader_pages (s : gset Z) deleted new_order :
  (forall p, p ∈ s <-> p ∈ deleted) ->
  forall writer, exists out,
    organize_add_pages reader_pages s new_order writer = Done (writer ++ out) /\
    Forall2 (fun page p => reader_pages !! Z.to_nat (p - 1) = Some page) out
      (filter (fun p => p ∉ deleted /\ 1 <= p <= Z.of_nat (length reader_pages))
              new_order).
Proof.
  intros Hs. induction new_order as [|p rest IH]; intros writer.
  - exists []. cbn. rewrite app_nil_r. split; [reflexivity | constructor].
  - cbn [organize_add_pages]. rewrite filter_cons.
    destruct (decide (p ∈ s)) as [Hin | Hout].
    + rewrite bool_decide_eq_true_2 by assumption.
      rewrite decide_False by (rewrite <- Hs; tauto). apply IH.
    + rewrite bool_decide_eq_false_2 by assumption.
      destruct ((1 <=? p) && (p <=? Z.of_nat (length reader_pages))) eqn:E.
      * apply andb_true_iff in E as [E1 E2].
        apply Z.leb_le in E1. apply Z.leb_le in E2.
        rewrite decide_True by (rewrite <- Hs; tauto).
        destruct (getitem_in_range reader_pages (p - 1)) as (page & -> & Hpage);
          [lia|]. cbn.
        destruct (IH (writer ++ [page])) as (out & -> & Hout').
        exists (page :: out). rewrite <- app_assoc. split; [reflexivity|].
        now constructor.
      * rewrite decide_False; [apply IH|].
        intros [_ [H1 H2]].
        apply Z.leb_le in H1. apply Z.leb_le in H2. rewrite H1, H2 in E. discriminate.
Qed.

End organize_facts.

Example organize_long_range :
  organize_pdf ["a"; "b"; "c"] (Some "1-9223372036854775808") "" = Raise OverflowError.
Proof. reflexivity. Qed.

(** C4: [organize_pdf] does what the claim says on the example of the
    specification, but it expands a range token before it looks at the
    page count: a range of more numbers than a list can hold is an
    [OverflowError] (in [page_order]) or a [MemoryError] (in
    [delete_pages]) where the claim wants the pages outside the document
    dropped, as [split_pdf] drops them by clamping the same range. *)
Theorem organize_expands_ranges_unclamped :
  organize_pdf ["page 1"; "page 2"; "page 3"] (Some "2,1,3") "1"
    = Done ["page 2"; "page 3"] /\
  (forall (Page : Type) (doc : list Page),
     organize_pdf doc (Some "1-100000000000000000000") "" = Raise OverflowError /\
     organize_pdf doc (Some "1") "1-100000000000000000000" = Raise MemoryError) /\
  (forall total_pages : nat,
     split_select "1-100000000000000000000" total_pages
     = Done (Py.range 0 (Z.min 100000000000000000000 (Z.of_nat total_pages)))).
Proof.
  split; [reflexivity|]. split.
  - intros Page doc. split; reflexivity.
  - intros total_pages. reflexivity.
Qed.

(** ** [rotate_pdf] *)

Example rotate_pdf_ex :
  rotate_pdf page_rotate_spec
    [ {| page_rotation := 0; page_content := "a" |};
      {| page_rotation := 270; page_content := "b" |};
      {| page_rotation := 90; page_content := "c" |} ] 180 "2-3"
  = Done [ {| page_rotation := 0; page_content := "a" |};
           {| page_rotation := 90; page_content := "b" |};
           {| page_rotation := 270; page_content := "c" |} ].
Proof. reflexivity. Qed.

Section rotate_facts.
Context {Page : Type} (page_rotate : Page -> Z -> outcome Page).
Implicit Types (doc writer out : list Page) (sel : gset Z).

(** What the loop of [rotate_pdf] adds to the writer: one page for each
    page read, at the same position. *)
Lemma rotate_pages_spec sel rotation doc : forall i writer out,
  rotate_pages page_rotate sel rotation i doc writer = Done out ->
  exists new,
    out = writer ++ new /\ length new = length doc /\
    forall (k : nat) p, doc !! k = Some p ->
      if bool_decide (i + Z.of_nat k ∈ sel)
      then exists p', page_rotate p rotation = Done p' /\ new !! k = Some p'
      else new !! k = Some p.
Proof.
  induction doc as [|pg rest IH]; intros i writer out H; cbn in H.
  - injection H as <-. exists []. rewrite app_nil_r.
    repeat split. intros k p Hk. now rewrite lookup_nil in Hk.
  - destruct (if bool_decide (i ∈ sel) then page_rotate pg rotation else Done pg)
      as [pg' | |] eqn:E; cbn in H; try discriminate.
    destruct (IH _ _ _ H) as (new & -> & Hlen & Hnew).
    exists (pg' :: new). rewrite <- app_assoc. repeat split; [cbn; lia|].
    intros [|k] p Hk; cbn in Hk.
    + injection Hk as ->. rewrite Z.add_0_r.
      destruct (bool_decide (i ∈ sel)); [eauto|]. now injection E as ->.
    + specialize (Hnew k p Hk).
      replace (i + Z.of_nat (S k)) with (i + 1 + Z.of_nat k) by lia. exact Hnew.
Qed.

(** The loop ends without an exception when [page.rotate] raises none. *)
Lemma rotate_pages_total sel rotation doc :
  (forall p, exists p', page_rotate p rotation = Done p') ->
  forall i writer, exists out,
    rotate_pages page_rotate sel rotation i doc writer = Done out.
Proof.
  intros Hrot. induction doc as [|pg rest IH]; intros i writer; cbn; [eauto|].
  destruct (bool_decide (i ∈ sel)); cbn; [|apply IH].
  destruct (Hrot pg) as [pg' ->]. cbn. apply IH.
Qed.

Lemma rotate_pdf_spec doc rotation pages out :
  rotate_pdf page_rotate doc rotation pages = Done out ->
  exists sel,
    rotate_select pages (length doc) = Done sel /\
    length out = length doc /\
    forall (i : nat) p, doc !! i = Some p ->
      if bool_decide (Z.of_nat i ∈ sel)
      then exists p', page_rotate p rotation = Done p' /\ out !! i = Some p'
      else out !! i = Some p.
Proof.
  unfold rotate_pdf. intros H.
  destruct (rotate_select pages (length doc)) as [sel | |]; cbn in H; try discriminate.
  destruct (rotate_pages_spec _ _ _ _ _ _ H) as (new & -> & Hlen & Hnew).
  exists sel. repeat split; assumption.
Qed.

Lemma rotate_pdf_total doc rotation pages sel :
  rotate_select pages (length doc) = Done sel ->
  (forall p, exists p', page_rotate p rotation = Done p') ->
  exists out, rotate_pdf page_rotate doc rotation pages = Done out.
Proof.
  intros Hsel Hrot. unfold rotate_pdf. rewrite Hsel. cbn.
  now apply rotate_pages_total.
Qed.

End rotate_facts.

(** C8: a rotate request that is answered writes as many pages as it
    read, each at its original position, and every page whose index is not
    selected is written as it was read; the selected ones are the results
    of [page.rotate].  The request is answered whenever the range string is
    one the handler can read and [page.rotate] does not raise. *)
Theorem rotate_keeps_order_and_unselected_pages
    (Page : Type) (page_rotate : Page -> Z -> outcome Page)
    (doc : list Page) (rotation : Z) (pages : string) :
  (forall sel : gset Z,
     rotate_select pages (length doc) = Done sel ->
     (forall p, exists p', page_rotate p rotation = Done p') ->
     exists out, rotate_pdf page_rotate doc rotation pages = Done out) /\
  (forall out,
     rotate_pdf page_rotate doc rotation pages = Done out ->
     exists sel : gset Z,
       rotate_select pages (length doc) = Done sel /\
       length out = length doc /\
       forall (i : nat) p, doc !! i = Some p ->
         if bool_decide (Z.of_nat i ∈ sel)
         then exists p', page_rotate p rotation = Done p' /\ out !! i = Some p'
         else out !! i = Some p).
Proof.
  split.
  - intros sel. apply rotate_pdf_total.
  - apply rotate_pdf_spec.
Qed.

Lemma rotate_keeps_order_and_unselected_pages_witness :
  let doc := [ {| page_rotation := 0; page_content := "a" |};
               {| page_rotation := 270; page_content := "b" |} ] in
  exists out sel,
    rotate_pdf page_rotate_spec doc 90 "2" = Done out /\
    rotate_select "2" (length doc) = Done sel /\
    length out = length doc /\
    forall (i : nat) p, doc !! i = Some p ->
      if bool_decide (Z.of_nat i ∈ sel)
      then exists p', page_rotate_spec p 90 = Done p' /\ out !! i = Some p'
      else out !! i = Some p.
Proof.
  intros doc.
  destruct (rotate_keeps_order_and_unselected_pages page page_rotate_spec doc 90 "2")
    as [Htotal Hspec].
  destruct (Htotal {[1]}) as [out Hout];
    [vm_compute; reflexivity | intros p; eexists; reflexivity |].
  destruct (Hspec out Hout) as (sel & Hsel & Hlen & Hpages).
  exists out, sel. repeat split; assumption.
Defined.

(** ** Sequences of rotations *)

Section rotation_sums.
Implicit Types (doc : list page) (requests : list (Z * string)).

Lemma rotate_requests_sum requests : forall doc,
  Forall (fun r => exists sel, rotate_select (snd r) (length doc) = Done sel) requests ->
  exists doc',
    rotate_requests page_rotate_spec doc requests = Done doc' /\
    length doc' = length doc /\
    forall (i : nat) p, doc !! i = Some p ->
      exists p', doc' !! i = Some p' /\
        page_content p' = page_content p /\
        page_rotation p' mod 360 =
          (page_rotation p + applied_degrees (length doc) (Z.of_nat i) requests) mod 360 /\
        (0 <= page_rotation p < 360 -> 0 <= page_rotation p' < 360).
Proof.
  induction requests as [|[rotation pages] rest IH]; intros doc Hv.
  - exists doc. repeat split. intros i p Hp. exists p. cbn.
    rewrite Z.add_0_r. auto.
  - inversion Hv as [|? ? [sel0 Hpages] Hrest]; subst. cbn in Hpages.
    destruct (rotate_pdf_total page_rotate_spec doc rotation pages sel0 Hpages)
      as [doc1 Hdoc1]; [intros p; eexists; reflexivity|].
    destruct (rotate_pdf_spec _ _ _ _ _ Hdoc1) as (sel & Hsel & Hlen1 & Hstep).
    rewrite <- Hlen1 in Hrest.
    destruct (IH doc1 Hrest) as (doc' & Hdoc' & Hlen' & Hrec).
    exists doc'. cbn [rotate_requests]. rewrite Hdoc1. cbn.
    split; [assumption|]. split; [congruence|].
    intros i p Hp. specialize (Hstep i p Hp).
    cbn [applied_degrees]. rewrite Hsel.
    destruct (bool_decide (Z.of_nat i ∈ sel)).
    + destruct Hstep as (p1 & Hrot & Hp1). injection Hrot as <-.
      destruct (Hrec i _ Hp1) as (p' & Hp' & Hc & Hr & Hb).
      exists p'. cbn in *. rewrite Hlen1 in Hr.
      split; [assumption|]. split; [assumption|]. split.
      * rewrite Hr, Z.add_mod_idemp_l by lia. f_equal; lia.
      * intros _. apply Hb. apply Z.mod_pos_bound. lia.
    + destruct (Hrec i p Hstep) as (p' & Hp' & Hc & Hr & Hb).
      exists p'. rewrite Hlen1 in Hr.
      split; [assumption|]. split; [assumption|]. split; [|assumption].
      rewrite Hr. f_equal; lia.
Qed.

End rotation_sums.

(** C7 (with [page.rotate] as the specification describes it): after any
    sequence of rotate requests whose range strings the handler can read,
    a page to which the requests applied degrees summing to a multiple of
    360 has the rotation it had at the start: the same angle modulo 360,
    and the very same [/Rotate] value when that was in [0, 360) at the
    start. *)
Theorem rotations_summing_to_360_restore_page
    (doc : list page) (requests : list (Z * string)) :
  Forall (fun r => exists sel, rotate_select (snd r) (length doc) = Done sel)
         requests ->
  exists doc',
    rotate_requests page_rotate_spec doc requests = Done doc' /\
    forall (i : nat) p,
      doc !! i = Some p ->
      applied_degrees (length doc) (Z.of_nat i) requests mod 360 = 0 ->
      exists p', doc' !! i = Some p' /\
        page_content p' = page_content p /\
        page_rotation p' mod 360 = page_rotation p mod 360 /\
        (0 <= page_rotation p < 360 -> p' = p).
Proof.
  intros Hv. destruct (rotate_requests_sum requests doc Hv) as (doc' & E & _ & H).
  exists doc'. split; [assumption|]. intros i p Hp Hsum.
  destruct (H i p Hp) as (p' & Hp' & Hc & Hr & Hb).
  assert (page_rotation p' mod 360 = page_rotation p mod 360) as Hmod.
  { rewrite Hr, Z.add_mod, Hsum, Z.add_0_r, Z.mod_mod by lia. reflexivity. }
  exists p'. split; [assumption|]. split; [assumption|]. split; [assumption|].
  intros Hp0. specialize (Hb Hp0).
  rewrite !Z.mod_small in Hmod by assumption.
  destruct p, p'; cbn in *; congruence.
Qed.

Lemma rotations_summing_to_360_restore_page_witness :
  let doc := [ {| page_rotation := 90; page_content := "a" |};
               {| page_rotation := 0; page_content := "b" |} ] in
  let requests := [(90, "all"); (180, "1"); (90, "0-1"); (270, "2")] in
  exists doc',
    rotate_requests page_rotate_spec doc requests = Done doc' /\
    forall (i : nat) p,
      doc !! i = Some p ->
      applied_degrees (length doc) (Z.of_nat i) requests mod 360 = 0 ->
      exists p', doc' !! i = Some p' /\
        page_content p' = page_content p /\
        page_rotation p' mod 360 = page_rotation p mod 360 /\
        (0 <= page_rotation p < 360 -> p' = p).
Proof.
  intros doc requests.
  apply (rotations_summing_to_360_restore_page doc requests).
  repeat (constructor; [eexists; vm_compute; reflexivity|]). constructor.
Defined.

Example rotations_ex :
  rotate_requests page_rotate_spec
    [ {| page_rotation := 90; page_content := "a" |};
      {| page_rotation := 0; page_content := "b" |} ]
    [(90, "all"); (180, "1"); (90, "0-1"); (270, "2")]
  = Done [ {| page_rotation := 90; page_content := "a" |};
           {| page_rotation := 0; page_content := "b" |} ].
Proof. reflexivity. Qed.

(** ** [add_page_numbers] *)

Example page_number_text_ex :
  page_number_text "Page {n} of {total}" 3 12 = Done "Page 3 of 12".
Proof. reflexivity. Qed.
Example page_number_text_limit :
  page_number_text "{total}" (10 ^ 4300) 12 = Raise ValueError.
Proof. vm_compute. reflexivity. Qed.
Example fill_template_ex :
  fill_template "3" "12" "{n}/{total} {n} {tot{n}al}" = "3/12 3 {tot3al}".
Proof. reflexivity. Qed.
Example add_page_numbers_ex :
  add_page_numbers sample_width sample_height (fun x => x `div` 2) id Z.sub
    sample_insert_text
    [ {| sample_width := 595; sample_height := 842; sample_texts := [] |};
      {| sample_width := 595; sample_height := 842; sample_texts := [] |};
      {| sample_width := 842; sample_height := 595; sample_texts := [] |} ]
    "top-right" "{n}/{total}" 12 "#000000" 5 true
  = Done [ {| sample_width := 595; sample_height := 842; sample_texts := [] |};
           {| sample_width := 595; sample_height := 842;
              sample_texts := [(565, 30, "5/3")] |};
           {| sample_width := 842; sample_height := 595;
              sample_texts := [(812, 30, "6/3")] |} ].
Proof. reflexivity. Qed.
Example add_page_numbers_negative_channel :
  add_page_numbers sample_width sample_height (fun x => x `div` 2) id Z.sub
    sample_insert_text
    [ {| sample_width := 595; sample_height := 842; sample_texts := [] |} ]
    "bottom-center" "{n}" 12 "-f0000" 1 false
  = Raise ValueError.
Proof. reflexivity. Qed.

Section templates.

Lemma startswith_app p : forall s,
  Py.startswith p s = true -> exists r, s = p +:+ r.
Proof.
  induction p as [|a p IH]; intros s H.
  - exists s. reflexivity.
  - destruct s as [|b s]; [discriminate H|]. cbn in H.
    apply andb_true_iff in H as [Hab Hs]. apply Ascii.eqb_eq in Hab. subst b.
    destruct (IH s Hs) as [r ->]. exists r. reflexivity.
Qed.

Lemma replace_unfold old new c r :
  Py.replace_from old new 0 (String c r) =
  if Py.startswith old (String c r)
  then new +:+ Py.replace_from old new (String.length old - 1) r
  else String c (Py.replace_from old new 0 r).
Proof. reflexivity. Qed.

Lemma fill_unfold n total c r :
  fill_from n total 0 (String c r) =
  if Py.startswith "{n}" (String c r) then n +:+ fill_from n total 2 r
  else if Py.startswith "{total}" (String c r) then total +:+ fill_from n total 6 r
  else String c (fill_from n total 0 r).
Proof. reflexivity. Qed.

Lemma numeral_char_plain c :
  numeral_char c = true -> Ascii.eqb "{" c = false.
Proof.
  destruct c as [[] [] [] [] [] [] [] []]; vm_compute; intros H;
    first [discriminate H | reflexivity].
Qed.

(** A numeral passes the second replacement unchanged. *)
Lemma replace_passes_numeral old' new n : forall x,
  numeral n = true ->
  Py.replace_from (String "{" old') new 0 (n +:+ x)
  = n +:+ Py.replace_from (String "{" old') new 0 x.
Proof.
  induction n as [|c n IH]; intros x H; [reflexivity|].
  cbn [numeral] in H. apply andb_true_iff in H as [Hc Hn].
  rewrite !append_cons, replace_unfold. cbn [Py.startswith].
  rewrite (numeral_char_plain c Hc). cbn [andb]. now rewrite IH.
Qed.

(** A character that no numeral has, at the head of the result of the
    first replacement, was at the head of its argument. *)
Lemma replace_head n x r y :
  numeral n = true -> n <> "" ->
  numeral_char x = false ->
  Py.replace_from "{n}" n 0 r = String x y ->
  exists r', r = String x r' /\ Py.replace_from "{n}" n 0 r' = y.
Proof.
  intros Hn Hne Hx H. destruct r as [|d r]; [discriminate H|].
  rewrite replace_unfold in H.
  destruct (Py.startswith "{n}" (String d r)).
  - destruct n as [|c n]; [congruence|]. rewrite append_cons in H.
    injection H as -> _. cbn [numeral] in Hn.
    apply andb_true_iff in Hn as [Hc _]. congruence.
  - injection H as -> <-. eauto.
Qed.

Lemma fill_from_correct n total :
  numeral n = true -> n <> "" ->
  forall (fuel : nat) (s : string), (String.length s <= fuel)%nat ->
    Py.replace_from "{total}" total 0 (Py.replace_from "{n}" n 0 s)
    = fill_from n total 0 s.
Proof.
  intros Hn Hne. induction fuel as [|fuel IH]; intros s Hlen.
  - destruct s; [reflexivity | cbn in Hlen; lia].
  - destruct s as [|c r]; [reflexivity|].
    rewrite fill_unfold.
    destruct (Py.startswith "{n}" (String c r)) eqn:En.
    + apply startswith_app in En as [r' E].
      change ("{n}" +:+ r') with (String "{" (String "n" (String "}" r'))) in E.
      rewrite E.
      change (Py.replace_from "{n}" n 0 (String "{" (String "n" (String "}" r'))))
        with (n +:+ Py.replace_from "{n}" n 0 r').
      injection E as _ ->.
      change (fill_from n total 2 (String "n" (String "}" r')))
        with (fill_from n total 0 r').
      rewrite replace_passes_numeral by assumption.
      rewrite IH; [reflexivity|]. cbn in Hlen. lia.
    + destruct (Py.startswith "{total}" (String c r)) eqn:Et.
      * apply startswith_app in Et as [r' E].
        change ("{total}" +:+ r')
          with (String "{" (String "t" (String "o" (String "t" (String "a"
                 (String "l" (String "}" r'))))))) in E.
        rewrite E.
        change (Py.replace_from "{n}" n 0
                  (String "{" (String "t" (String "o" (String "t" (String "a"
                    (String "l" (String "}" r'))))))))
          with (String "{" (String "t" (String "o" (String "t" (String "a"
                 (String "l" (String "}" (Py.replace_from "{n}" n 0 r')))))))).
        change (Py.replace_from "{total}" total 0
                  (String "{" (String "t" (String "o" (String "t" (String "a"
                    (String "l" (String "}" (Py.replace_from "{n}" n 0 r')))))))))
          with (total +:+ Py.replace_from "{total}" total 0
                            (Py.replace_from "{n}" n 0 r')).
        injection E as _ ->.
        change (fill_from n total 6
                  (String "t" (String "o" (String "t" (String "a"
                    (String "l" (String "}" r')))))))
          with (fill_from n total 0 r').
        rewrite IH; [reflexivity|]. cbn in Hlen. lia.
      * rewrite replace_unfold, En, replace_unfold.
        destruct (Py.startswith "{total}" (String c (Py.replace_from "{n}" n 0 r)))
          eqn:E2.
        -- exfalso. apply startswith_app in E2 as [z E2].
           change ("{total}" +:+ z)
             with (String "{" (String "t" (String "o" (String "t" (String "a"
                    (String "l" (String "}" z))))))) in E2.
           injection E2 as -> E2.
           apply replace_head in E2 as (r1 & -> & E2); [|assumption..|reflexivity].
           apply replace_head in E2 as (r2 & -> & E2); [|assumption..|reflexivity].
           apply replace_head in E2 as (r3 & -> & E2); [|assumption..|reflexivity].
           apply replace_head in E2 as (r4 & -> & E2); [|assumption..|reflexivity].
           apply replace_head in E2 as (r5 & -> & E2); [|assumption..|reflexivity].
           apply replace_head in E2 as (r6 & -> & E2); [|assumption..|reflexivity].
           discriminate Et.
        -- rewrite IH; [reflexivity|]. cbn in Hlen. lia.
Qed.

Lemma numeral_of_uint d : numeral (NilEmpty.string_of_uint d) = true.
Proof. induction d; cbn; auto. Qed.

Lemma numeral_of_int i :
  numeral (NilZero.string_of_int i) = true /\ NilZero.string_of_int i <> "".
Proof.
  assert (forall d, numeral (NilZero.string_of_uint d) = true /\
                    NilZero.string_of_uint d <> "") as Hu.
  { intros d. split.
    - destruct d; try apply (numeral_of_uint (_ _)); reflexivity.
    - destruct d; discriminate. }
  destruct i as [d | d]; cbn [NilZero.string_of_int].
  - apply Hu.
  - split; [|discriminate]. cbn [numeral]. apply (Hu d).
Qed.

Lemma str_checked_done z s :
  Py.str_checked z = Done s -> s = NilZero.string_of_int (Z.to_int z).
Proof.
  unfold Py.str_checked. cbv zeta.
  destruct (Py.int_max_str_digits <? _)%nat; [discriminate|]. now intros [= <-].
Qed.

(** The two replacements of the handler fill the template. *)
Lemma page_number_text_fills format_str page_num total_pages text :
  page_number_text format_str page_num total_pages = Done text ->
  text = fill_template (NilZero.string_of_int (Z.to_int page_num))
                       (NilZero.string_of_int (Z.to_int total_pages)) format_str.
Proof.
  unfold page_number_text. intros H.
  destruct (Py.str_checked page_num) as [n | |] eqn:En; try discriminate H.
  cbn in H.
  destruct (Py.str_checked total_pages) as [t | |] eqn:Et; try discriminate H.
  cbn in H. injection H as <-.
  apply str_checked_done in En. apply str_checked_done in Et. subst n t.
  destruct (numeral_of_int (Z.to_int page_num)) as [Hn Hne].
  unfold Py.replace, fill_template. now apply (fill_from_correct _ _ Hn Hne _ _ (le_n _)).
Qed.

Lemma page_number_text_total format_str page_num total_pages n t :
  Py.str_checked page_num = Done n -> Py.str_checked total_pages = Done t ->
  exists text, page_number_text format_str page_num total_pages = Done text.
Proof. intros En Et. unfold page_number_text. rewrite En. cbn. rewrite Et. cbn. eauto. Qed.

End templates.

(** Case analysis on the first computation of a bind that is known to end
    with a value. *)
Ltac bind_case H x E :=
  lazymatch type of H with
  | (?m ≫= _) = Done _ =>
      destruct m as [x | |] eqn:E; cbn in H; [|discriminate H..]
  end.

Section page_number_facts.
Context {Page Coord : Type}.
Variables (rect_width rect_height : Page -> Coord) (half : Coord -> Coord).
Variables (of_int : Z -> Coord) (minus_int : Coord -> Z -> Coord).
Variable insert_text :
  Page -> Coord * Coord -> string -> Z -> Z * Z * Z -> Z -> bool -> outcome Page.

Let loop := add_page_numbers_loop rect_width rect_height half of_int minus_int insert_text.
Let point := page_number_point rect_width rect_height half of_int minus_int.

(** What the loop of [add_page_numbers] leaves at each position. *)
Lemma add_page_numbers_loop_spec position format_str font_size rgb start_number
    skip_first total_pages (doc : list Page) : forall (i : Z) out,
  loop position format_str font_size rgb start_number skip_first total_pages i doc
    = Done out ->
  length out = length doc /\
  forall (k : nat) pg, doc !! k = Some pg ->
    if skip_first && (i + Z.of_nat k =? 0) then out !! k = Some pg
    else exists text pg',
      page_number_text format_str
        (start_number + (i + Z.of_nat k) - (if skip_first then 1 else 0)) total_pages
        = Done text /\
      insert_text pg (point position pg) text font_size rgb 0 true = Done pg' /\
      out !! k = Some pg'.
Proof.
  subst loop point.
  induction doc as [|pg rest IH]; intros i out H; cbn [add_page_numbers_loop] in H.
  - injection H as <-. split; [reflexivity|]. intros k pg Hk.
    now rewrite lookup_nil in Hk.
  - destruct (skip_first && (i =? 0)) eqn:Eskip.
    + cbn in H. bind_case H rest' Erest. injection H as <-.
      destruct (IH _ _ Erest) as [Hlen Hrest].
      split; [cbn; now rewrite Hlen|].
      intros [|k] pg0 Hk; cbn in Hk.
      * injection Hk as ->. now rewrite Z.add_0_r, Eskip.
      * specialize (Hrest k pg0 Hk).
        replace (i + Z.of_nat (S k)) with (i + 1 + Z.of_nat k) by lia. exact Hrest.
    + cbv zeta in H.
      destruct (page_number_text format_str
                  (if skip_first then start_number + i - 1 else start_number + i)
                  total_pages) as [text | |] eqn:Etext; try discriminate H.
      cbn in H.
      destruct (insert_text pg _ text font_size rgb 0 true) as [pg' | |] eqn:Eins;
        try discriminate H.
      cbn in H. bind_case H rest' Erest. injection H as <-.
      destruct (IH _ _ Erest) as [Hlen Hrest].
      split; [cbn; now rewrite Hlen|].
      intros [|k] pg0 Hk; cbn in Hk.
      * injection Hk as ->. rewrite Z.add_0_r, Eskip.
        exists text, pg'. split; [|split; [exact Eins | reflexivity]].
        rewrite <- Etext. f_equal. destruct skip_first; lia.
      * specialize (Hrest k pg0 Hk).
        replace (i + Z.of_nat (S k)) with (i + 1 + Z.of_nat k) by lia. exact Hrest.
Qed.

(** The loop ends without an exception when every number can be printed
    and [insert_text] raises none. *)
Lemma add_page_numbers_loop_total position format_str font_size rgb start_number
    (skip_first : bool) total_pages (doc : list Page) :
  (exists t, Py.str_checked total_pages = Done t) ->
  (forall pg pt text, exists pg',
     insert_text pg pt text font_size rgb 0 true = Done pg') ->
  forall i : Z,
    (forall k : nat, (k < length doc)%nat -> exists n,
       Py.str_checked (start_number + (i + Z.of_nat k)
                       - (if skip_first then 1 else 0)) = Done n) ->
    exists out,
      loop position format_str font_size rgb start_number skip_first total_pages i doc
      = Done out.
Proof.
  subst loop point. intros [t Ht] Hins.
  induction doc as [|pg rest IH]; intros i Hstr; cbn [add_page_numbers_loop];
    [eauto|].
  destruct (IH (i + 1)) as [rest' Hrest].
  { intros k Hk. destruct (Hstr (S k)) as [n Hn]; [cbn; lia|].
    exists n. rewrite <- Hn. f_equal. lia. }
  destruct (skip_first && (i =? 0)).
  - cbn. rewrite Hrest. cbn. eauto.
  - destruct (Hstr 0%nat) as [n Hn]; [cbn; lia|].
    destruct (page_number_text_total format_str
                (if skip_first then start_number + i - 1 else start_number + i)
                total_pages n t) as [text ->]; [|assumption|].
    { rewrite <- Hn. f_equal. destruct skip_first; lia. }
    cbn. destruct (Hins pg (page_number_point rect_width rect_height half of_int
                              minus_int position pg) text) as [pg' ->].
    cbn. rewrite Hrest. cbn. eauto.
Qed.

End page_number_facts.

(** C9: when [add_page_numbers] answers, every page of the document has
    been handled: with [skip_first] set, page 0 is as it was, without a
    number; every other page of 0-based index [i] has received, by one
    call of [insert_text], the format template with each [{n}] replaced
    by the decimal numeral of [start_number + i - (1 if skip_first else 0)]
    and each [{total}] by that of the page count.  It answers whenever the
    colour parses, the numbers have at most 4300 digits and [insert_text]
    accepts its arguments. *)
Theorem page_numbers_follow_template
    (Page Coord : Type) (rect_width rect_height : Page -> Coord)
    (half : Coord -> Coord) (of_int : Z -> Coord) (minus_int : Coord -> Z -> Coord)
    (insert_text :
       Page -> Coord * Coord -> string -> Z -> Z * Z * Z -> Z -> bool -> outcome Page)
    (doc : list Page) (position format_str : string) (font_size : Z)
    (color : string) (start_number : Z) (skip_first : bool) :
  let answer := add_page_numbers rect_width rect_height half of_int minus_int
                  insert_text doc position format_str font_size color start_number
                  skip_first in
  let number := fun i : nat =>
    start_number + Z.of_nat i - (if skip_first then 1 else 0) in
  (forall out, answer = Done out ->
     length out = length doc /\
     exists rgb, parse_color color = Done rgb /\
     forall (i : nat) pg, doc !! i = Some pg ->
       if skip_first && (Z.of_nat i =? 0) then out !! i = Some pg
       else exists pg',
         out !! i = Some pg' /\
         insert_text pg
           (page_number_point rect_width rect_height half of_int minus_int position pg)
           (fill_template (NilZero.string_of_int (Z.to_int (number i)))
              (NilZero.string_of_int (Z.to_int (Z.of_nat (length doc))))
              format_str)
           font_size rgb 0 true = Done pg') /\
  (forall rgb, parse_color color = Done rgb ->
     (forall i : nat, (i < length doc)%nat ->
        exists n, Py.str_checked (number i) = Done n) ->
     (exists t, Py.str_checked (Z.of_nat (length doc)) = Done t) ->
     (forall pg pt text, exists pg',
        insert_text pg pt text font_size rgb 0 true = Done pg') ->
     exists out, answer = Done out).
Proof.
  cbv zeta. split.
  - intros out H. unfold add_page_numbers in H.
    destruct (parse_color color) as [rgb | |] eqn:Ec; try discriminate H.
    cbn in H.
    destruct (add_page_numbers_loop_spec _ _ _ _ _ _ _ _ _ _ _ _ _ _ _ _ H)
      as [Hlen Hpages].
    split; [exact Hlen|]. exists rgb. split; [reflexivity|].
    intros i pg Hpg. specialize (Hpages i pg Hpg). rewrite Z.add_0_l in Hpages.
    destruct (skip_first && (Z.of_nat i =? 0)); [exact Hpages|].
    destruct Hpages as (text & pg' & Htext & Hins & Hout).
    apply page_number_text_fills in Htext. subst text. eauto.
  - intros rgb Hc Hstr Htotal Hins. unfold add_page_numbers. rewrite Hc. cbn.
    apply add_page_numbers_loop_total; [assumption..|].
    intros k Hk. rewrite Z.add_0_l. now apply Hstr.
Qed.

Lemma page_numbers_follow_template_witness :
  let doc := [ {| sample_width := 595; sample_height := 842; sample_texts := [] |};
               {| sample_width := 595; sample_height := 842; sample_texts := [] |};
               {| sample_width := 842; sample_height := 595; sample_texts := [] |} ] in
  exists out,
    add_page_numbers sample_width sample_height (fun x => x `div` 2) id Z.sub
      sample_insert_text doc "top-right" "Page {n} of {total}" 12 "#1a2b3c" 7 true
    = Done out /\
    length out = length doc /\
    exists rgb, parse_color "#1a2b3c" = Done rgb /\
    forall (i : nat) pg, doc !! i = Some pg ->
      if true && (Z.of_nat i =? 0) then out !! i = Some pg
      else exists pg',
        out !! i = Some pg' /\
        sample_insert_text pg
          (page_number_point sample_width sample_height (fun x => x `div` 2) id Z.sub
             "top-right" pg)
          (fill_template (NilZero.string_of_int (Z.to_int (7 + Z.of_nat i - 1)))
             (NilZero.string_of_int (Z.to_int (Z.of_nat (length doc))))
             "Page {n} of {total}")
          12 rgb 0 true = Done pg'.
Proof.
  intros doc.
  destruct (page_numbers_follow_template sample_page Z sample_width sample_height
              (fun x => x `div` 2) id Z.sub sample_insert_text doc
              "top-right" "Page {n} of {total}" 12 "#1a2b3c" 7 true) as [Hspec Htotal].
  destruct (Htotal (26, 43, 60)) as [out Hout].
  - reflexivity.
  - intros i Hi. subst doc. cbn in Hi.
    destruct i as [|[|[|i]]]; try lia; eexists; vm_compute; reflexivity.
  - eexists. vm_compute. reflexivity.
  - intros pg pt text. eexists. reflexivity.
  - exists out. split; [exact Hout|]. exact (Hspec out Hout).
Defined.

(** ** [generate_preview] *)

Example preview_ex :
  generate_preview (fun (p : string) (w : Z) => Done (p, w)) ["a"; "b"] 1 150
  = Done (("b", 150), 2).
Proof. reflexivity. Qed.
Example preview_fallback :
  generate_preview (fun (p : string) (w : Z) => Done (p, w)) ["a"; "b"] 2 150
  = Done (("a", 150), 2).
Proof. reflexivity. Qed.

(** C10 as the code has it: on a document with at least one page, a
    requested index at or beyond the page count is replaced by 0: the
    request is answered as a request for page 0 is, with the thumbnail of
    the first page whenever rendering it succeeds. *)
Theorem preview_falls_back_to_first_page
    (Page Thumb : Type) (render : Page -> Z -> outcome Thumb)
    (doc : list Page) (page width : Z) :
  (0 < length doc)%nat ->
  page >= Z.of_nat (length doc) ->
  exists first,
    doc !! 0%nat = Some first /\
    generate_preview render doc page width =
      (thumb ← render first width; Done (thumb, Z.of_nat (length doc))) /\
    generate_preview render doc page width = generate_preview render doc 0 width.
Proof.
  intros Hlen Hpage. destruct doc as [|first rest]; [cbn in Hlen; lia|].
  exists first. split; [reflexivity|].
  unfold generate_preview, fitz_getitem.
  replace (page >=? Z.of_nat (length (first :: rest))) with true
    by (symmetry; apply Z.geb_le; lia).
  replace (0 >=? Z.of_nat (length (first :: rest))) with false
    by (symmetry; rewrite Z.geb_leb; apply Z.leb_gt; cbn [length]; lia).
  replace (0 <? Z.of_nat (length (first :: rest))) with true
    by (symmetry; apply Z.ltb_lt; cbn [length]; lia).
  rewrite Z.mod_0_l by (cbn [length]; lia).
  split; reflexivity.
Qed.

Lemma preview_falls_back_to_first_page_witness :
  exists first,
    ["a"; "b"] !! 0%nat = Some first /\
    generate_preview (fun (p : string) (w : Z) => Done (p, w)) ["a"; "b"] 7 150 =
      (thumb ← Done (first, 150); Done (thumb, Z.of_nat (length ["a"; "b"]))) /\
    generate_preview (fun (p : string) (w : Z) => Done (p, w)) ["a"; "b"] 7 150 =
      generate_preview (fun (p : string) (w : Z) => Done (p, w)) ["a"; "b"] 0 150.
Proof.
  apply (preview_falls_back_to_first_page string (string * Z)
           (fun p w => Done (p, w)) ["a"; "b"] 7 150); cbn; lia.
Defined.

(** C10 as stated fails on a document without pages: there is no page 0
    to fall back to, and indexing the document raises. *)
Lemma preview_of_empty_document_fails :
  generate_preview (fun (p : string) (w : Z) => Done (p, w)) [] 0 150 = Raise IndexError /\
  0 >= Z.of_nat (length ([] : list string)).
Proof. split; [reflexivity | cbn; lia]. Qed.

(** ** Colours *)

Example parse_color_ex : parse_color "#1a2B3c" = Done (26, 43, 60).
Proof. reflexivity. Qed.
Example parse_color_zz : parse_color "zz0000" = Raise ValueError.
Proof. reflexivity. Qed.
Example parse_color_short : parse_color "#fff" = Raise ValueError.
Proof. reflexivity. Qed.
Example parse_color_five : parse_color "ff00f" = Done (255, 0, 15).
Proof. reflexivity. Qed.
Example parse_color_separator :
  parse_color (String (ascii_of_nat 28) "f0000") = Raise ValueError.
Proof. reflexivity. Qed.

Section color_facts.

Lemma all_ascii_complete c : In c all_ascii.
Proof.
  unfold all_ascii. apply in_map_iff. exists (nat_of_ascii c). split.
  - apply ascii_nat_embedding.
  - apply in_seq. pose proof (nat_ascii_bounded c). lia.
Qed.

Lemma rejects_two_all :
  forallb (fun c1 => forallb (rejects_two c1) all_ascii) all_ascii = true.
Proof. vm_compute. reflexivity. Qed.

Lemma rejects_one_all : forallb rejects_one all_ascii = true.
Proof. vm_compute. reflexivity. Qed.

Lemma int16_two_bad c1 c2 :
  color_char c1 && color_char c2 = false ->
  Py.int_base 16 (String c1 (String c2 "")) = None.
Proof.
  intros Hbad. pose proof rejects_two_all as H.
  rewrite forallb_forall in H. specialize (H c1 (all_ascii_complete c1)).
  rewrite forallb_forall in H. specialize (H c2 (all_ascii_complete c2)).
  unfold rejects_two in H. rewrite Hbad in H.
  destruct (Py.int_base 16 _); [discriminate H | reflexivity].
Qed.

Lemma int16_one_bad c :
  color_char c = false -> Py.int_base 16 (String c "") = None.
Proof.
  intros Hbad. pose proof rejects_one_all as H.
  rewrite forallb_forall in H. specialize (H c (all_ascii_complete c)).
  unfold rejects_one in H. rewrite Hbad in H.
  destruct (Py.int_base 16 _); [discriminate H | reflexivity].
Qed.

Lemma substring_zero (r : string) : substring 0 0 r = "".
Proof. destruct r; reflexivity. Qed.

Lemma channels_fail s0 s1 s2 :
  Py.int_base 16 s0 = None \/ Py.int_base 16 s1 = None \/ Py.int_base 16 s2 = None ->
  channels s0 s1 s2 = Raise ValueError.
Proof.
  unfold channels, Py.int16. intros [H | [H | H]]; rewrite H.
  - reflexivity.
  - destruct (Py.int_base 16 s0); reflexivity.
  - destruct (Py.int_base 16 s0); [|reflexivity].
    destruct (Py.int_base 16 s1); reflexivity.
Qed.

Lemma parse_color_channels color :
  parse_color color =
  let h := Py.lstrip_char "#" color in
  channels (Py.slice 0 2 h) (Py.slice 2 4 h) (Py.slice 4 6 h).
Proof. reflexivity. Qed.

Ltac bad_slice Hbad :=
  first
    [ reflexivity
    | apply int16_one_bad; exact Hbad
    | apply int16_two_bad; rewrite Hbad; reflexivity
    | apply int16_two_bad; rewrite Hbad; apply andb_false_r ].

(** A colour that is too short, or has a character no conversion accepts
    among its first six, makes one of the three conversions fail. *)
Lemma channels_of_bad_color (h : string) :
  ((String.length h < 5)%nat \/
   exists (i : nat) (c : ascii),
     (i < 6)%nat /\ String.get i h = Some c /\ color_char c = false) ->
  channels (Py.slice 0 2 h) (Py.slice 2 4 h) (Py.slice 4 6 h) = Raise ValueError.
Proof.
  intros H. apply channels_fail.
  destruct h as [|c0 [|c1 [|c2 [|c3 [|c4 [|c5 r]]]]]]; cbn [Py.slice substring Nat.sub];
    rewrite ?substring_zero;
    try (right; right; reflexivity);
    (destruct H as [H | (i & c & Hi & Hget & Hbad)]; [cbn in H; lia|]);
    do 6 (try destruct i as [|i]); try lia;
    cbn in Hget; try discriminate Hget; injection Hget as <-;
    solve [ left; bad_slice Hbad
          | right; left; bad_slice Hbad
          | right; right; bad_slice Hbad ].
Qed.

End color_facts.

(** C3 as the code has it: an ASCII colour string that, after its leading
    [#] characters, is shorter than five characters or has among its first
    six characters one that is neither a hexadecimal digit, a sign nor
    white space of [int] (as ["zz0000"] has) makes the colour parsing of
    [add_watermark], of [add_page_numbers] and (on a valid page number) of
    [edit_pdf] fail, with the [ValueError] of [int], before any text is
    inserted. *)
Theorem malformed_color_is_rejected (color : string) :
  Py.isascii color = true ->
  ((String.length (Py.lstrip_char "#" color) < 5)%nat \/
   exists (i : nat) (c : ascii),
     (i < 6)%nat /\ String.get i (Py.lstrip_char "#" color) = Some c /\
     color_char c = false) ->
  parse_color color = Raise ValueError /\
  (forall (Page Coord : Type) insert_text (doc : list Page) text
          (text_x text_y : Coord) text_size page_num,
     1 <= page_num <= Z.of_nat (length doc) ->
     edit_pdf insert_text doc text text_x text_y text_size color page_num
     = Raise ValueError) /\
  (forall (Page Coord : Type) rect_width rect_height half scale02 scale08 insert_text
          (doc : list Page) text font_size (opacity : Coord) rotation position,
     add_watermark rect_width rect_height half scale02 scale08 insert_text
       doc text font_size opacity color rotation position = Raise ValueError) /\
  (forall (Page Coord : Type) rect_width rect_height (half : Coord -> Coord)
          of_int minus_int insert_text
          (doc : list Page) position format_str font_size start_number skip_first,
     add_page_numbers rect_width rect_height half of_int minus_int insert_text
       doc position format_str font_size color start_number skip_first
     = Raise ValueError).
Proof.
  intros _ H.
  assert (parse_color color = Raise ValueError) as E.
  { rewrite parse_color_channels. now apply channels_of_bad_color. }
  split; [assumption|]. split; [|split].
  - intros Page Coord insert_text doc text text_x text_y text_size page_num Hp.
    unfold edit_pdf.
    replace ((page_num <? 1) || (page_num >? Z.of_nat (length doc))) with false
      by (symmetry; apply orb_false_iff; rewrite Z.ltb_ge, Z.gtb_ltb, Z.ltb_ge; lia).
    unfold fitz_getitem.
    replace (page_num - 1 <? Z.of_nat (length doc)) with true
      by (symmetry; apply Z.ltb_lt; lia).
    rewrite Z.mod_small by lia.
    destruct (doc !! Z.to_nat (page_num - 1)) as [pg|] eqn:Epg;
      [|apply lookup_ge_None in Epg; lia].
    cbn. now rewrite E.
  - intros. unfold add_watermark. now rewrite E.
  - intros. unfold add_page_numbers. now rewrite E.
Qed.

Lemma malformed_color_is_rejected_witness :
  parse_color "zz0000" = Raise ValueError /\
  (forall (Page Coord : Type) insert_text (doc : list Page) text
          (text_x text_y : Coord) text_size page_num,
     1 <= page_num <= Z.of_nat (length doc) ->
     edit_pdf insert_text doc text text_x text_y text_size "zz0000" page_num
     = Raise ValueError) /\
  (forall (Page Coord : Type) rect_width rect_height half scale02 scale08 insert_text
          (doc : list Page) text font_size (opacity : Coord) rotation position,
     add_watermark rect_width rect_height half scale02 scale08 insert_text
       doc text font_size opacity "zz0000" rotation position = Raise ValueError) /\
  (forall (Page Coord : Type) rect_width rect_height (half : Coord -> Coord)
          of_int minus_int insert_text
          (doc : list Page) position format_str font_size start_number skip_first,
     add_page_numbers rect_width rect_height half of_int minus_int insert_text
       doc position format_str font_size "zz0000" start_number skip_first
     = Raise ValueError).
Proof.
  apply (malformed_color_is_rejected "zz0000").
  - reflexivity.
  - right. exists 0%nat, "z"%char. split; [lia|]. split; reflexivity.
Defined.

(** C3 as stated fails: what follows the sixth character is never read, and
    a sign or a blank is accepted where a digit is expected, so colours
    that are not six hexadecimal digits are parsed without an error. *)
Lemma malformed_color_is_accepted :
  well_formed_color "ff0000zz" = false /\
  parse_color "ff0000zz" = Done (255, 0, 0) /\
  well_formed_color "+f-f 7" = false /\
  parse_color "+f-f 7" = Done (15, -15, 7).
Proof. repeat split. Qed.

(** ** Staged files *)

Section staged_files.
Implicit Types (w : world) (p q : string).

Lemma cleanup_file_present p w :
  p ∈ disk w ->
  cleanup_file p w = {| disk := disk w ∖ {[p]}; unlinked := unlinked w ++ [p] |}.
Proof. intros H. unfold cleanup_file. now rewrite bool_decide_eq_true_2. Qed.

Lemma cleanup_file_absent p w : p ∉ disk w -> cleanup_file p w = w.
Proof. intros H. unfold cleanup_file. now rewrite bool_decide_eq_false_2. Qed.

(** [cleanup_file] is idempotent: a second call finds nothing to unlink. *)
Lemma cleanup_file_gone p w : p ∉ disk (cleanup_file p w).
Proof.
  unfold cleanup_file. case_bool_decide as H; cbn; [|assumption].
  rewrite elem_of_difference, elem_of_singleton. tauto.
Qed.

Lemma cleanup_file_twice p w : cleanup_file p (cleanup_file p w) = cleanup_file p w.
Proof. apply cleanup_file_absent, cleanup_file_gone. Qed.

Lemma cleanup_file_other p q w :
  q <> p -> (q ∈ disk (cleanup_file p w) <-> q ∈ disk w).
Proof.
  intros Hne. unfold cleanup_file. case_bool_decide as H; cbn; [|tauto].
  rewrite elem_of_difference, elem_of_singleton. tauto.
Qed.

Lemma create_present p w : p ∈ disk (create p w).
Proof. cbn. rewrite elem_of_union, elem_of_singleton. tauto. Qed.

Lemma create_other p q w : q ∈ disk w -> q ∈ disk (create p w).
Proof. cbn. rewrite elem_of_union. tauto. Qed.

Lemma move_keeps p src dst w : p <> src -> p ∈ disk w -> p ∈ disk (move src dst w).
Proof.
  intros Hne Hp. cbn.
  rewrite elem_of_union, elem_of_difference, elem_of_singleton. tauto.
Qed.

Lemma move_target src dst w : dst ∈ disk (move src dst w).
Proof. cbn. rewrite elem_of_union, elem_of_singleton. tauto. Qed.

(** Closing a response runs no clean-up: a file response is passed
    through to the server, any other outcome has no callback. *)
Lemma close_response_keeps (h : handled) : close_response h = fst h.
Proof. destruct h as [w [l | st d | e]]; reflexivity. Qed.

(** The end of a handler, after the [finally] clause has cleaned the
    input: the input is gone, unlinked once, and nothing else has moved. *)
Lemma finish_response temp w (r : outcome (list string)) :
  temp ∈ disk w ->
  let w' := close_response (cleanup_file temp w, r) in
  temp ∉ disk w' /\ unlinked w' = unlinked w ++ [temp] /\
  forall q, q <> temp -> (q ∈ disk w' <-> q ∈ disk w).
Proof.
  intros Ht w'. subst w'. rewrite close_response_keeps. cbn [fst].
  split; [apply cleanup_file_gone|]. split.
  - now rewrite cleanup_file_present.
  - intros q Hq. now apply cleanup_file_other.
Qed.

End staged_files.

Example word_to_pdf_ok :
  let env := {| word_temp_path := "uploads/u_a.docx";
                word_output_path := "outputs/converted_1.pdf";
                word_converted_path := "outputs/u_a.pdf";
                run_wrote := true; run_raised := None; move_raised := None;
                word_send_raised := None |} in
  let h := word_to_pdf (Some "a.docx") env {| disk := ∅; unlinked := [] |} in
  snd h = Done ["outputs/converted_1.pdf"] /\
  disk (close_response h) = {["outputs/converted_1.pdf"]} /\
  unlinked (close_response h) = ["uploads/u_a.docx"].
Proof.
  cbv zeta. split; [reflexivity|].
  split; [apply (bool_decide_unpack _); vm_compute; exact I | reflexivity].
Qed.

(** When [writer.write] raises in [rotate_pdf], the output file that
    [open(output_path, "wb")] has just created stays as well. *)
Example output_file_left_after_failed_write :
  let env := {| rotate_temp_path := "uploads/u_in.pdf";
                rotate_output_path := "outputs/rotated_1.pdf";
                reader_pages := Done [ {| page_rotation := 0; page_content := "a" |} ];
                write_raised := Some LibraryError;
                rotate_send_raised := None |} in
  let h := rotate_pdf_request page_rotate_spec (Some "in.pdf") "90" "all" env
             {| disk := ∅; unlinked := [] |} in
  snd h = Raise LibraryError /\
  "outputs/rotated_1.pdf" ∈ disk (close_response h) /\
  unlinked (close_response h) = ["uploads/u_in.pdf"].
Proof.
  cbv zeta. split; [reflexivity|]. split; [|reflexivity].
  apply (bool_decide_unpack _). vm_compute. exact I.
Qed.

Section handlers.

Ltac on_disk :=
  cbn [disk create move save_upload_file];
  rewrite ?elem_of_union, ?elem_of_difference, ?elem_of_singleton; tauto.

(** The handler ends without a file response; [Ht] says that the input is
    on disk before the [finally] clause, [Hu] that nothing was unlinked. *)
Ltac no_response Ht Hu :=
  cbv beta iota zeta; cbn [snd];
  lazymatch goal with
  | |- _ ∉ disk (close_response (cleanup_file ?t ?W, ?r)) /\ _ =>
      let H1 := fresh in let H2 := fresh in
      destruct (finish_response t W r Ht) as (H1 & H2 & _);
      rewrite Hu in H2; split; [exact H1 | split; [exact H2 | intros ?; discriminate]]
  end.

(** The handler returns the file response for [o], which is on disk. *)
Ltac file_response Hto Ht Ho Hu :=
  cbv beta iota zeta; cbn [snd];
  lazymatch goal with
  | |- _ ∉ disk (close_response (cleanup_file ?t ?W, Done [?o])) /\ _ =>
      let H1 := fresh in let H2 := fresh in let H3 := fresh in
      destruct (finish_response t W (Done [o]) Ht) as (H1 & H2 & H3);
      rewrite Hu in H2; split; [exact H1 | split; [exact H2 |]];
      intros ? [= <-]; split; [reflexivity|];
      apply H3; [congruence | exact Ho]
  end.

(** [word_to_pdf] with an uploaded file. *)
Lemma word_to_pdf_keeps_output file env w :
  word_temp_path env <> word_output_path env ->
  word_temp_path env <> word_converted_path env ->
  let h := word_to_pdf (Some file) env w in
  let w' := close_response h in
  word_temp_path env ∉ disk w' /\
  unlinked w' = unlinked w ++ [word_temp_path env] /\
  forall callbacks, snd h = Done callbacks ->
    callbacks = [word_output_path env] /\ word_output_path env ∈ disk w'.
Proof.
  destruct env as [temp output converted wrote raised mraised sraised].
  cbn [word_temp_path word_output_path word_converted_path].
  intros Hto Htc. unfold word_to_pdf.
  cbn [word_temp_path word_output_path word_converted_path run_wrote run_raised
       move_raised word_send_raised].
  set (w1 := save_upload_file temp w).
  set (w2 := if wrote then create converted w1 else w1).
  assert (temp ∈ disk w2) as Ht by (subst w2 w1; destruct wrote; on_disk).
  assert (unlinked w2 = unlinked w) as Hu by (subst w2 w1; now destruct wrote).
  destruct raised as [e|].
  - destruct e; no_response Ht Hu.
  - case_bool_decide as Hconv; [|no_response Ht Hu].
    destruct mraised as [e|]; [destruct e; no_response Ht Hu|].
    set (w3 := move converted output w2).
    assert (temp ∈ disk w3) as Ht3 by (subst w3; now apply move_keeps).
    assert (output ∈ disk w3) as Ho3 by (subst w3; apply move_target).
    assert (unlinked w3 = unlinked w) as Hu3 by exact Hu.
    destruct sraised as [e|].
    + destruct e; no_response Ht3 Hu3.
    + file_response Hto Ht3 Ho3 Hu3.
Qed.

(** [rotate_pdf] with an uploaded file and a rotation that [int] reads,
    whatever [page.rotate] does. *)
Lemma rotate_pdf_keeps_output page_rotate file rotation pages env w degrees :
  Py.int rotation = Done degrees ->
  rotate_temp_path env <> rotate_output_path env ->
  let h := rotate_pdf_request page_rotate (Some file) rotation pages env w in
  let w' := close_response h in
  rotate_temp_path env ∉ disk w' /\
  unlinked w' = unlinked w ++ [rotate_temp_path env] /\
  forall callbacks, snd h = Done callbacks ->
    callbacks = [rotate_output_path env] /\ rotate_output_path env ∈ disk w'.
Proof.
  destruct env as [temp output reader wraised sraised].
  cbn [rotate_temp_path rotate_output_path].
  intros Hrot Hto. unfold rotate_pdf_request. rewrite Hrot.
  cbn [rotate_temp_path rotate_output_path reader_pages write_raised rotate_send_raised].
  set (w1 := save_upload_file temp w).
  assert (temp ∈ disk w1) as Ht by (subst w1; on_disk).
  assert (unlinked w1 = unlinked w) as Hu by reflexivity.
  destruct (reader ≫= _) as [out | st d | e]; [|no_response Ht Hu..].
  set (w2 := create output w1).
  assert (temp ∈ disk w2) as Ht2 by (subst w2; now apply create_other).
  assert (output ∈ disk w2) as Ho2 by (subst w2; apply create_present).
  assert (unlinked w2 = unlinked w) as Hu2 by reflexivity.
  destruct wraised as [e|]; [no_response Ht2 Hu2|].
  destruct sraised as [e|]; [no_response Ht2 Hu2|].
  file_response Hto Ht2 Ho2 Hu2.
Qed.

End handlers.

(** C1 does not hold of the code.  In [word_to_pdf] and in [rotate_pdf],
    on every exit path after staging (file response, error reply,
    exception), the staged upload is off the disk once the request is over
    and was unlinked exactly once; but whenever the handler returns its
    file response, the output file is still in the output directory after
    the response has been closed, although the handler registered its
    clean-up with [call_on_close]: nothing but the upload is ever
    unlinked. *)
Theorem output_file_outlives_file_response :
  (forall (file : string) (env : word_env) (w : world),
     word_temp_path env <> word_output_path env ->
     word_temp_path env <> word_converted_path env ->
     let h := word_to_pdf (Some file) env w in
     let w' := close_response h in
     word_temp_path env ∉ disk w' /\
     unlinked w' = unlinked w ++ [word_temp_path env] /\
     forall callbacks, snd h = Done callbacks ->
       callbacks = [word_output_path env] /\ word_output_path env ∈ disk w') /\
  (forall (page_rotate : page -> Z -> outcome page) (file rotation pages : string)
          (env : rotate_env) (w : world) (degrees : Z),
     Py.int rotation = Done degrees ->
     rotate_temp_path env <> rotate_output_path env ->
     let h := rotate_pdf_request page_rotate (Some file) rotation pages env w in
     let w' := close_response h in
     rotate_temp_path env ∉ disk w' /\
     unlinked w' = unlinked w ++ [rotate_temp_path env] /\
     forall callbacks, snd h = Done callbacks ->
       callbacks = [rotate_output_path env] /\ rotate_output_path env ∈ disk w').
Proof.
  split; [exact word_to_pdf_keeps_output | exact rotate_pdf_keeps_output].
Qed.

Lemma output_file_outlives_file_response_witness :
  let env := {| rotate_temp_path := "uploads/u_in.pdf";
                rotate_output_path := "outputs/rotated_1.pdf";
                reader_pages := Done [ {| page_rotation := 0; page_content := "a" |} ];
                write_raised := None;
                rotate_send_raised := None |} in
  let w := {| disk := {["outputs/other.pdf"]}; unlinked := [] |} in
  let h := rotate_pdf_request page_rotate_spec (Some "in.pdf") "90" "all" env w in
  let w' := close_response h in
  snd h = Done ["outputs/rotated_1.pdf"] /\
  "uploads/u_in.pdf" ∉ disk w' /\
  unlinked w' = ["uploads/u_in.pdf"] /\
  "outputs/rotated_1.pdf" ∈ disk w'.
Proof.
  intros env w h w'.
  destruct (proj2 output_file_outlives_file_response page_rotate_spec
              "in.pdf" "90" "all" env w 90) as (Ht & Hu & Hout);
    [reflexivity | discriminate |].
  split; [reflexivity|]. split; [exact Ht|]. split; [exact Hu|].
  exact (proj2 (Hout ["outputs/rotated_1.pdf"] eq_refl)).
Defined.

(** * Further properties of the handlers *)

(** ** Selections of [split_pdf] and [rotate_pdf] *)

(** [rotate_pdf] and [split_pdf] read a range string alike: the set of
    [rotate_pdf] holds exactly the indices [split_pdf] lists, and one
    fails, with the same exception, exactly when the other does. *)
Theorem rotate_selects_what_split_lists (pages : string) (total_pages : nat) :
  rotate_select pages total_pages =
  match split_select pages total_pages with
  | Done l => Done (list_to_set l)
  | Reply st d => Reply st d
  | Raise e => Raise e
  end.
Proof.
  rewrite rotate_select_split.
  destruct (split_select pages total_pages); reflexivity.
Qed.

Section joined_ranges.

Lemma split_nonempty c s : Py.split c s <> [].
Proof.
  destruct s as [|d r]; cbn; [discriminate|].
  destruct (Ascii.eqb d c); [discriminate|].
  destruct (Py.split c r); discriminate.
Qed.

Lemma split_join c a b :
  Py.split c (a +:+ String c b) = Py.split c a ++ Py.split c b.
Proof.
  induction a as [|d r IH].
  - rewrite append_nil_l. cbn [Py.split]. now rewrite Ascii.eqb_refl.
  - rewrite append_cons. cbn [Py.split]. rewrite IH.
    destruct (Ascii.eqb d c); [reflexivity|].
    pose proof (split_nonempty c r) as Hne.
    destruct (Py.split c r) as [|h t]; [congruence | reflexivity].
Qed.

Lemma joined_is_not_all a b : String.eqb (a +:+ String "," b) "all" = false.
Proof.
  destruct (String.eqb _ "all") eqn:E; [|reflexivity].
  apply String.eqb_eq in E.
  pose proof (contains_app_sep "," a b) as H. rewrite E in H. discriminate H.
Qed.

End joined_ranges.

(** Joining two range strings with a comma concatenates their selections
    in [split_pdf]: the order of the tokens and repeated pages are kept. *)
Theorem split_select_of_joined_ranges (a b : string) (total_pages : nat) :
  a <> "all" -> b <> "all" ->
  split_select (a +:+ "," +:+ b) total_pages =
  (x ← split_select a total_pages; y ← split_select b total_pages; Done (x ++ y)).
Proof.
  intros Ha Hb. unfold split_select.
  apply String.eqb_neq in Ha. apply String.eqb_neq in Hb. rewrite Ha, Hb.
  change (a +:+ "," +:+ b) with (a +:+ String "," b).
  rewrite joined_is_not_all, split_join, split_loop_app.
  destruct (split_loop _ (Py.split "," a) []) as [x | |]; cbn; try reflexivity.
  rewrite split_loop_acc. reflexivity.
Qed.

Lemma split_select_of_joined_ranges_witness :
  split_select ("3,1" +:+ "," +:+ "1-2") 4 =
  (x ← split_select "3,1" 4; y ← split_select "1-2" 4; Done (x ++ y)).
Proof.
  apply (split_select_of_joined_ranges "3,1" "1-2" 4); discriminate.
Defined.

(** ** The archive of [split_pdf] *)

Example split_pdf_ex :
  split_pdf ["a"; "b"; "c"] "3, 1-2,3"
  = Done [("page_3.pdf", "c"); ("page_1.pdf", "a"); ("page_2.pdf", "b"); ("page_3.pdf", "c")].
Proof. reflexivity. Qed.
Example split_pdf_zero : split_pdf ["a"; "b"; "c"] "0-1" = Done [("page_0.pdf", "c"); ("page_1.pdf", "a")].
Proof. reflexivity. Qed.

Section archive_facts.
Context {Page : Type}.
Implicit Types (doc : list Page) (sel : list Z) (zip : list (string * Page)).

Lemma split_write_in_bounds doc sel :
  Forall (fun i => 0 <= i < Z.of_nat (length doc)) sel ->
  forall zip, exists new,
    split_write doc sel zip = Done (zip ++ new) /\ Forall2 (is_entry doc) new sel.
Proof.
  induction 1 as [|i sel Hi _ IH]; intros zip; cbn [split_write].
  - exists []. rewrite app_nil_r. split; [reflexivity | constructor].
  - destruct (getitem_in_range doc i Hi) as (pg & -> & Hpg). cbn.
    destruct (IH (zip ++ [("page_" +:+ Py.str (i + 1) +:+ ".pdf", pg)]))
      as (new & -> & Hnew).
    eexists (_ :: new). rewrite <- app_assoc. split; [reflexivity|].
    constructor; [split; [reflexivity | exact Hpg] | exact Hnew].
Qed.

(** Entries for the indices [0 .. n-1] hold the pages of the document. *)
Lemma entries_of_all doc (entries : list (string * Page)) :
  Forall2 (is_entry doc) entries (Py.range 0 (Z.of_nat (length doc))) ->
  entries.*2 = doc.
Proof.
  intros H. apply list_eq. intros k. rewrite list_lookup_fmap.
  pose proof (Forall2_length _ _ _ H) as Hlen.
  unfold Py.range in *. rewrite length_seqZ in Hlen.
  destruct (entries !! k) as [e|] eqn:E; cbn.
  - destruct (Forall2_lookup_l _ _ _ _ _ H E) as (i & Hi & _ & Hpg).
    apply lookup_seqZ in Hi as [-> _].
    rewrite Z.add_0_l, Nat2Z.id in Hpg. now rewrite Hpg.
  - symmetry. apply lookup_ge_None. apply lookup_ge_None in E. lia.
Qed.

Lemma merge_loop_readable (docs : list (list Page)) : forall writer,
  merge_loop (Done <$> docs) writer = Done (writer ++ concat docs).
Proof.
  induction docs as [|d rest IH]; intros writer; cbn.
  - now rewrite app_nil_r.
  - rewrite IH. now rewrite app_assoc.
Qed.

Lemma concat_singletons (entries : list (string * Page)) :
  concat ((fun e : string * Page => [e.2]) <$> entries) = entries.*2.
Proof. induction entries as [|e rest IH]; cbn; [reflexivity | now rewrite IH]. Qed.

Lemma length_concat (docs : list (list Page)) :
  length (concat docs) = sum_list (length <$> docs).
Proof.
  induction docs as [|d rest IH]; cbn; [reflexivity|].
  now rewrite length_app, IH.
Qed.

Lemma merge_loop_unreadable (docs : list (list Page)) e rest : forall writer,
  merge_loop ((Done <$> docs) ++ Raise e :: rest) writer = Raise e.
Proof.
  induction docs as [|d docs IH]; intros writer; cbn; [reflexivity | apply IH].
Qed.

End archive_facts.

(** For a valid range string whose numbers have at most 4300 digits each,
    [split_pdf] always answers, with one archive entry for each selected
    index, in the order of the selection: the entry for index [i] is named
    [page_<i+1>.pdf] and holds page [i] of the document. *)
Theorem split_pdf_writes_selected_pages
    (Page : Type) (doc : list Page) (pages : string) :
  valid_range pages = true ->
  bounded_range pages = true ->
  exists sel entries,
    split_select pages (length doc) = Done sel /\
    split_pdf doc pages = Done entries /\
    Forall2 (fun e i => e.1 = "page_" +:+ Py.str (i + 1) +:+ ".pdf" /\
                        doc !! Z.to_nat i = Some e.2) entries sel.
Proof.
  intros Hv Hlim.
  destruct (split_select_valid pages (length doc) Hv Hlim) as (sel & E & Hsel).
  destruct (split_write_in_bounds doc sel Hsel []) as (entries & Hw & Hent).
  exists sel, entries. unfold split_pdf. rewrite E. cbn. auto.
Qed.

Lemma split_pdf_writes_selected_pages_witness :
  exists sel entries,
    split_select "2-3, 1,9" (length ["a"; "b"; "c"]) = Done sel /\
    split_pdf ["a"; "b"; "c"] "2-3, 1,9" = Done entries /\
    Forall2 (fun e i => e.1 = "page_" +:+ Py.str (i + 1) +:+ ".pdf" /\
                        ["a"; "b"; "c"] !! Z.to_nat i = Some e.2) entries sel.
Proof.
  apply (split_pdf_writes_selected_pages string ["a"; "b"; "c"] "2-3, 1,9");
    reflexivity.
Defined.

(** A range token that starts at 0 reaches the index -1, which
    [reader.pages] counts from the end: the archive of [split_pdf] then
    starts with the last page of the document, under the name
    [page_0.pdf], followed by the pages up to the end of the range. *)
Theorem split_range_from_zero_takes_last_page
    (Page : Type) (doc : list Page) (last_page : Page)
    (pages part sa sb : string) (b : Z) :
  Py.split "," pages = [part] ->
  Py.strip part = sa +:+ "-" +:+ sb ->
  Py.contains "-" sa = false -> Py.contains "-" sb = false ->
  Py.int sa = Done 0 -> Py.int sb = Done b -> 0 <= b ->
  last doc = Some last_page ->
  exists rest,
    split_pdf doc pages = Done (("page_0.pdf", last_page) :: rest) /\
    Forall2 (fun e i => e.1 = "page_" +:+ Py.str (i + 1) +:+ ".pdf" /\
                        doc !! Z.to_nat i = Some e.2)
      rest (Py.range 0 (Z.min b (Z.of_nat (length doc)))).
Proof.
  intros Hs Hp Ha Hb Ea Eb Hb0 Hlast.
  assert (0 < length doc)%nat as Hlen
    by (destruct doc; [discriminate Hlast | cbn; lia]).
  assert (String.eqb pages "all" = false) as Hall.
  { destruct (String.eqb pages "all") eqn:E; [|reflexivity].
    apply String.eqb_eq in E. subst pages.
    now destruct (split_all_not_descending [] part [] sa sb Hs). }
  assert (split_part (Z.of_nat (length doc)) part
          = Done (-1 :: Py.range 0 (Z.min b (Z.of_nat (length doc))))) as Hpart.
  { unfold split_part. rewrite Hp.
    change (sa +:+ "-" +:+ sb) with (sa +:+ String "-" sb).
    rewrite contains_app_sep, split_app_sep by assumption.
    cbn. rewrite Ea. cbn. rewrite Eb. cbn. f_equal.
    unfold Py.range. rewrite seqZ_cons by lia. f_equal. f_equal. lia. }
  unfold split_pdf, split_select. rewrite Hall, Hs. cbn [split_loop].
  rewrite Hpart. cbn. cbn [split_write].
  assert (getitem doc (-1) = Done last_page) as ->.
  { unfold getitem. cbn [Z.ltb Z.compare].
    replace (0 <=? -1 + Z.of_nat (length doc)) with true
      by (symmetry; apply Z.leb_le; lia).
    replace (-1 + Z.of_nat (length doc) <? Z.of_nat (length doc)) with true
      by (symmetry; apply Z.ltb_lt; lia).
    cbn. rewrite last_lookup in Hlast.
    replace (Z.to_nat (-1 + Z.of_nat (length doc))) with (pred (length doc)) by lia.
    now rewrite Hlast. }
  cbn.
  destruct (split_write_in_bounds doc (Py.range 0 (Z.min b (Z.of_nat (length doc)))))
    with (zip := [("page_0.pdf", last_page)]) as (rest & Hw & Hrest).
  { apply Forall_forall. intros i Hi. apply range_bounds in Hi. lia. }
  exists rest. split; [exact Hw | exact Hrest].
Qed.

Lemma split_range_from_zero_takes_last_page_witness :
  exists rest,
    split_pdf ["a"; "b"; "c"] " 0-1" = Done (("page_0.pdf", "c") :: rest) /\
    Forall2 (fun e i => e.1 = "page_" +:+ Py.str (i + 1) +:+ ".pdf" /\
                        ["a"; "b"; "c"] !! Z.to_nat i = Some e.2)
      rest (Py.range 0 (Z.min 1 (Z.of_nat (length ["a"; "b"; "c"])))).
Proof.
  apply (split_range_from_zero_takes_last_page string ["a"; "b"; "c"] "c"
           " 0-1" " 0-1" "0" "1" 1); first [reflexivity | lia].
Defined.

(** ** [merge_pdfs] *)

Example merge_one : merge_pdfs [Done ["a"; "b"]] = Reply 400 "At least 2 PDF files required".
Proof. reflexivity. Qed.
Example merge_ex : merge_pdfs [Done ["a"; "b"]; Done []; Done ["c"]] = Done ["a"; "b"; "c"].
Proof. reflexivity. Qed.

(** Splitting a document with ["all"] and merging the archive entries in
    their order gives the pages of the document back when it has at least
    two pages; the single entry of a one-page document, and the empty
    archive of an empty one, are refused by [merge_pdfs]. *)
Theorem split_then_merge_restores_document (Page : Type) (doc : list Page) :
  exists entries,
    split_pdf doc "all" = Done entries /\
    entries.*2 = doc /\
    merge_pdfs ((fun e => Done [e.2]) <$> entries) =
      if (length doc <? 2)%nat then Reply 400 "At least 2 PDF files required"
      else Done doc.
Proof.
  destruct (split_write_in_bounds doc (Py.range 0 (Z.of_nat (length doc)))) with (zip := @nil (string * Page))
    as (entries & Hw & Hent).
  { apply Forall_forall. intros i Hi. apply range_bounds in Hi. lia. }
  pose proof (entries_of_all doc entries Hent) as Hdoc.
  exists entries. split; [exact Hw|]. split; [exact Hdoc|].
  unfold merge_pdfs. rewrite length_fmap.
  replace (length entries) with (length doc)
    by (rewrite <- Hdoc at 1; now rewrite length_fmap).
  destruct (length doc <? 2)%nat; [reflexivity|].
  replace ((fun e : string * Page => Done [e.2]) <$> entries)
    with (Done <$> ((fun e : string * Page => [e.2]) <$> entries))
    by (rewrite <- list_fmap_compose; reflexivity).
  rewrite merge_loop_readable, concat_singletons, Hdoc. reflexivity.
Qed.

(** [merge_pdfs] writes the pages of the uploaded files in the order of
    the upload, so the merged document has as many pages as the files
    together; a file that cannot be read fails the whole request with its
    exception. *)
Theorem merge_concatenates_files (Page : Type) (docs : list (list Page)) :
  (2 <= length docs)%nat ->
  merge_pdfs (Done <$> docs) = Done (concat docs) /\
  length (concat docs) = sum_list (length <$> docs) /\
  forall e rest, merge_pdfs ((Done <$> docs) ++ Raise e :: rest) = Raise e.
Proof.
  intros Hlen. split; [|split].
  - unfold merge_pdfs. rewrite length_fmap.
    replace (length docs <? 2)%nat with false by (symmetry; apply Nat.ltb_ge; lia).
    now rewrite merge_loop_readable.
  - apply length_concat.
  - intros e rest. unfold merge_pdfs. rewrite length_app, length_fmap.
    replace (_ <? 2)%nat with false by (symmetry; apply Nat.ltb_ge; lia).
    apply merge_loop_unreadable.
Qed.

Lemma merge_concatenates_files_witness :
  merge_pdfs (Done <$> [["a"; "b"]; []; ["c"]]) = Done (concat [["a"; "b"]; []; ["c"]]) /\
  length (concat [["a"; "b"]; []; ["c"]]) = sum_list (length <$> [["a"; "b"]; []; ["c"]]) /\
  forall e rest, merge_pdfs ((Done <$> [["a"; "b"]; []; ["c"]]) ++ Raise e :: rest) = Raise e.
Proof.
  apply (merge_concatenates_files string [["a"; "b"]; []; ["c"]]). cbn. lia.
Defined.

(** ** Files of the other handlers *)

Section more_staged_files.
Implicit Types (w : world) (p q : string) (l : list string).

Lemma cleanup_file_disk p w : disk (cleanup_file p w) = disk w ∖ {[p]}.
Proof.
  unfold cleanup_file. case_bool_decide as H; cbn; [reflexivity|].
  apply set_eq. intros q. rewrite elem_of_difference, elem_of_singleton.
  split; [|tauto]. intros Hq. split; [assumption|]. intros ->. contradiction.
Qed.

Lemma cleanup_all_disk l : forall w,
  disk (foldl (fun w p => cleanup_file p w) w l) = disk w ∖ list_to_set l.
Proof.
  induction l as [|p l IH]; intros w; cbn [foldl].
  - apply set_eq. intros q.
    rewrite elem_of_difference, list_to_set_nil, elem_of_empty. tauto.
  - rewrite IH, cleanup_file_disk. apply set_eq. intros q.
    rewrite !elem_of_difference, list_to_set_cons, elem_of_union, elem_of_singleton.
    tauto.
Qed.

Lemma cleanup_file_log p w :
  unlinked (cleanup_file p w) = unlinked w \/
  unlinked (cleanup_file p w) = unlinked w ++ [p].
Proof. unfold cleanup_file. case_bool_decide; cbn; auto. Qed.

(** What [merge_stage] leaves on disk are the files it recorded. *)
Lemma merge_stage_disk files : forall temp_files writer w,
  let '(w', temp_files', _) := merge_stage files temp_files writer w in
  (forall q, q ∈ disk w' -> q ∈ disk w \/ q ∈ temp_files') /\
  (forall q, q ∈ temp_files -> q ∈ temp_files').
Proof.
  induction files as [|f rest IH]; intros temp_files writer w; cbn [merge_stage].
  - split; auto.
  - assert (forall q, q ∈ disk (save_upload_file (upload_path f) w) ->
              q ∈ disk w \/ q ∈ temp_files ++ [upload_path f]) as Hstep.
    { intros q. cbn. rewrite elem_of_union, elem_of_singleton, elem_of_app, list_elem_of_singleton.
      tauto. }
    destruct (upload_pages f) as [pages | st d | e].
    + specialize (IH (temp_files ++ [upload_path f]) (writer ++ pages)
                     (save_upload_file (upload_path f) w)).
      destruct (merge_stage rest _ _ _) as [[w' temp_files'] r].
      destruct IH as [Hd Ht]. split.
      * intros q Hq. destruct (Hd q Hq) as [H | H]; [|auto].
        destruct (Hstep q H) as [H' | H']; auto.
      * intros q Hq. apply Ht. apply elem_of_app. auto.
    + split; [exact Hstep|]. intros q Hq. apply elem_of_app. auto.
    + split; [exact Hstep|]. intros q Hq. apply elem_of_app. auto.
Qed.

End more_staged_files.

(** [cleanup_file] is idempotent and touches one file only: a second call
    changes nothing, every other file stays as it was, and the call
    unlinks at most once. *)
Theorem cleanup_file_is_idempotent (p : string) (w : world) :
  cleanup_file p (cleanup_file p w) = cleanup_file p w /\
  (p ∉ disk (cleanup_file p w)) /\
  (forall q, q <> p -> (q ∈ disk (cleanup_file p w) <-> q ∈ disk w)) /\
  (unlinked (cleanup_file p w) = unlinked w \/
   unlinked (cleanup_file p w) = unlinked w ++ [p]).
Proof.
  split; [apply cleanup_file_twice|].
  split; [apply cleanup_file_gone|].
  split; [intros q Hq; now apply cleanup_file_other | apply cleanup_file_log].
Qed.

(** [split_pdf] leaves the disk as it found it, whatever happens to the
    request: the staged upload is removed after an answer, after a bad
    range string and after a failure of the PDF reader alike, and nothing
    else is created. *)
Theorem split_request_leaves_no_file
    (file : option string) (pages temp_path : string)
    (reader : outcome (list page)) (w : world) :
  temp_path ∉ disk w ->
  disk (fst (split_pdf_request file pages temp_path reader w)) = disk w.
Proof.
  intros Hfresh. destruct file as [name|]; [|reflexivity].
  unfold split_pdf_request. cbn [fst]. rewrite cleanup_file_disk. cbn.
  apply set_eq. intros q.
  rewrite elem_of_difference, elem_of_union, elem_of_singleton.
  split; [tauto|]. intros Hq. split; [tauto|]. intros ->. contradiction.
Qed.

Lemma split_request_leaves_no_file_witness :
  disk (fst (split_pdf_request (Some "in.pdf") "1,x" "uploads/u_in.pdf"
               (Done [ {| page_rotation := 0; page_content := "a" |} ])
               {| disk := {["outputs/other.pdf"]}; unlinked := [] |}))
  = disk {| disk := {["outputs/other.pdf"]}; unlinked := [] |}.
Proof.
  apply (split_request_leaves_no_file (Some "in.pdf") "1,x" "uploads/u_in.pdf").
  cbn. rewrite elem_of_singleton. discriminate.
Defined.

(** After a [merge_pdfs] request none of the uploads is on disk, whether
    the request was answered, refused for having fewer than two files, or
    failed at an unreadable file or while writing: the [finally] clause
    removes every file staged so far. *)
Theorem merge_request_removes_uploads
    (files : list upload) (env : merge_env) (w : world) :
  (forall f, f ∈ files -> upload_path f ∉ disk w) ->
  (forall f, f ∈ files -> upload_path f <> merge_output_path env) ->
  forall f, f ∈ files ->
    upload_path f ∉ disk (close_response (merge_pdfs_request files env w)).
Proof.
  intros Hfresh Hout f Hf.
  assert (forall (h : handled) w0,
            upload_path f ∉ disk w0 -> (fst h = w0) ->
            upload_path f ∉ disk (close_response h)) as Hclose.
  { intros h w0 H0 E. now rewrite close_response_keeps, E. }
  unfold merge_pdfs_request.
  destruct (length files <? 2)%nat; [eapply Hclose; eauto|].
  pose proof (merge_stage_disk files [] [] w) as Hstage.
  destruct (merge_stage files [] [] w) as [[w1 temp_files] merged].
  destruct Hstage as [Hdisk _].
  set (out := merge_output_path env) in *.
  assert (forall w2, (forall q, q ∈ disk w2 -> q ∈ disk w1 \/ q = out) ->
            upload_path f ∉ disk (foldl (fun w p => cleanup_file p w) w2 temp_files))
    as Hfin.
  { intros w2 H2. rewrite cleanup_all_disk, elem_of_difference, elem_of_list_to_set.
    intros [Hin Hnot]. destruct (H2 _ Hin) as [H | H].
    - destruct (Hdisk _ H) as [H' | H']; [now apply (Hfresh f Hf) | contradiction].
    - now apply (Hout f Hf). }
  assert (forall q, q ∈ disk (create out w1) -> q ∈ disk w1 \/ q = out) as Hcreate.
  { intros q. cbn. rewrite elem_of_union, elem_of_singleton. tauto. }
  destruct merged as [pages | st d | e];
    [destruct (merge_write_raised env); [|destruct (merge_send_raised env)]|..];
    (eapply Hclose; [|reflexivity]); cbn [fst]; apply Hfin; auto.
Qed.

Lemma merge_request_removes_uploads_witness :
  let files := [ {| upload_path := "uploads/u1_a.pdf";
                    upload_pages := Done [ {| page_rotation := 0; page_content := "a" |} ] |};
                 {| upload_path := "uploads/u2_b.pdf"; upload_pages := Raise LibraryError |};
                 {| upload_path := "uploads/u3_c.pdf"; upload_pages := Done [] |} ] in
  let env := {| merge_output_path := "outputs/merged_1.pdf";
                merge_write_raised := None; merge_send_raised := None |} in
  let w' := close_response (merge_pdfs_request files env {| disk := ∅; unlinked := [] |}) in
  ("uploads/u1_a.pdf" ∉ disk w') /\ ("uploads/u2_b.pdf" ∉ disk w') /\
  ("uploads/u3_c.pdf" ∉ disk w').
Proof.
  intros files env w'.
  assert (forall f, f ∈ files -> upload_path f ∉ disk w') as H.
  { apply (merge_request_removes_uploads files env {| disk := ∅; unlinked := [] |}).
    - intros f _. cbn. apply not_elem_of_empty.
    - intros f Hf. subst files.
      repeat (apply elem_of_cons in Hf as [-> | Hf]; [discriminate|]).
      now apply elem_of_nil in Hf. }
  split; [|split].
  - apply (H {| upload_path := "uploads/u1_a.pdf";
                upload_pages := Done [ {| page_rotation := 0; page_content := "a" |} ] |}).
    subst files. apply list_elem_of_here.
  - apply (H {| upload_path := "uploads/u2_b.pdf"; upload_pages := Raise LibraryError |}).
    subst files. apply list_elem_of_further, list_elem_of_here.
  - apply (H {| upload_path := "uploads/u3_c.pdf"; upload_pages := Done [] |}).
    subst files. do 2 apply list_elem_of_further. apply list_elem_of_here.
Defined.

(** [unlock_pdf] stages the upload before its [try]: an exception of
    [upload_file.save] is the only one that escapes.  Without a file the
    handler replies 400 and touches nothing.  Once the upload is staged,
    no exception escapes and the upload is removed; the reply has status
    401 exactly when pikepdf rejects the password, and status 500 for
    every other failure. *)
Theorem unlock_raises_only_while_staging
    (file : option string) (env : unlock_env) (w : world) :
  let h := unlock_pdf file env w in
  (file = None -> h = (w, Reply 400 "No file provided")) /\
  (forall e, snd h = Raise e <-> file <> None /\ unlock_stage_raised env = Some e) /\
  (file <> None -> unlock_stage_raised env = None ->
     unlock_temp_path env ∉ disk (fst h) /\
     (unlock_open env = PikePasswordError -> snd h = Reply 401 "Invalid password") /\
     (forall d, snd h = Reply 401 d -> unlock_open env = PikePasswordError) /\
     (forall st d, snd h = Reply st d -> st = 401 \/ st = 500)).
Proof.
  destruct env as [staged temp output opened wrote saved sent].
  unfold unlock_pdf.
  cbn [unlock_stage_raised unlock_temp_path unlock_output_path unlock_open
       unlock_save_wrote unlock_save_raised unlock_send_raised].
  destruct file as [name|].
  2:{ cbn. split; [reflexivity|]. split; [|intros H; now destruct H].
      intros e. split; [discriminate | intros [H _]; now destruct H]. }
  split; [discriminate|].
  destruct staged as [e0|].
  { cbn [snd]. split; [|discriminate].
    intros e. split; [intros [= ->]; split; [discriminate | reflexivity]|].
    now intros [_ [= ->]]. }
  assert (forall r : outcome (list string),
            (forall e, r <> Raise e) ->
            forall e, r = Raise e <-> Some name <> None /\ @None exn = Some e) as Hno.
  { intros r Hr e. split; [intros H; now destruct (Hr e) | intros [_ H]; discriminate H]. }
  destruct opened as [| | m]; [destruct saved as [m|]; [|destruct sent as [m|]]|..];
    cbn [fst snd];
    (split; [apply Hno; intros e; discriminate|]);
    intros _ _;
    (split; [apply cleanup_file_gone|]);
    (split; [intros H; first [discriminate H | reflexivity]|]);
    (split; [intros d H; first [discriminate H | reflexivity]|]);
    intros st d H; inversion H; auto.
Qed.

Lemma unlock_raises_only_while_staging_witness :
  let env := {| unlock_stage_raised := None;
                unlock_temp_path := "uploads/u_in.pdf";
                unlock_output_path := "outputs/unlocked_1.pdf";
                unlock_open := PikePasswordError;
                unlock_save_wrote := false; unlock_save_raised := None;
                unlock_send_raised := None |} in
  let h := unlock_pdf (Some "in.pdf") env {| disk := ∅; unlinked := [] |} in
  snd h = Reply 401 "Invalid password" /\ "uploads/u_in.pdf" ∉ disk (fst h).
Proof.
  intros env h.
  destruct (unlock_raises_only_while_staging (Some "in.pdf") env
              {| disk := ∅; unlinked := [] |}) as (_ & _ & H).
  destruct H as (Hgone & H401 & _); [discriminate | reflexivity |].
  split; [apply H401; reflexivity | exact Hgone].
Defined.

Example unlock_staging_fails :
  let env := {| unlock_stage_raised := Some LibraryError;
                unlock_temp_path := "uploads/u_in.pdf";
                unlock_output_path := "outputs/unlocked_1.pdf";
                unlock_open := PikeOpened;
                unlock_save_wrote := true; unlock_save_raised := None;
                unlock_send_raised := None |} in
  unlock_pdf (Some "in.pdf") env {| disk := ∅; unlinked := [] |}
  = ({| disk := ∅; unlinked := [] |}, Raise LibraryError).
Proof. reflexivity. Qed.

(** [html_to_pdf] never lets an exception escape either, and a request
    without a URL touches nothing; but a failed conversion is answered
    with status 500 without removing what wkhtmltopdf may have written. *)
Theorem html_never_raises (url : option string) (env : html_env) (w : world) :
  let h := html_to_pdf url env w in
  (forall e, snd h <> Raise e) /\
  (forall st d, snd h = Reply st d -> st = 400 \/ st = 500) /\
  ((url = None \/ url = Some "") -> h = (w, Reply 400 "URL is required")) /\
  (forall st d, snd h = Reply st d ->
     forall q, q ∈ disk (close_response h) <->
               q ∈ disk w \/ (st = 500 /\ pdfkit_wrote env = true /\ q = html_output_path env)).
Proof.
  destruct env as [output wrote raised sraised].
  assert (forall q, q ∈ disk (if wrote then create output w else w) <->
            q ∈ disk w \/ (wrote = true /\ q = output)) as Hw.
  { intros q. destruct wrote; cbn.
    - rewrite elem_of_union, elem_of_singleton. tauto.
    - split; [auto | intros [H | [H _]]; [assumption | discriminate]]. }
  unfold html_to_pdf. cbn [html_output_path pdfkit_wrote pdfkit_raised html_send_raised].
  destruct url as [url|]; [destruct (String.eqb url "") eqn:E|].
  - apply String.eqb_eq in E. subst url. cbn.
    split; [intros e; discriminate|]. split; [intros st d [= <- _]; auto|].
    split; [reflexivity|]. intros st d [= <- _] q. split; [auto|].
    intros [H | (H & _)]; [assumption | discriminate].
  - apply String.eqb_neq in E.
    destruct raised as [m|]; [|destruct sraised as [m|]]; cbn [fst snd close_response];
      (split; [intros e; discriminate|]);
      (split; [intros st d H; inversion H; auto|]);
      (split; [intros [H | H]; [discriminate H | injection H as ->; contradiction]|]);
      intros st d H; inversion H; subst; intros q; rewrite Hw; split;
      intros [Hq | Hq]; auto; right; tauto.
  - cbn. split; [intros e; discriminate|]. split; [intros st d [= <- _]; auto|].
    split; [reflexivity|]. intros st d [= <- _] q. split; [auto|].
    intros [H | (H & _)]; [assumption | discriminate].
Qed.

Lemma cleanup_file_is_idempotent_witness :
  let w := {| disk := {["uploads/a"; "uploads/b"]}; unlinked := [] |} in
  ("uploads/a" ∈ disk (cleanup_file "uploads/b" w) <-> "uploads/a" ∈ disk w) /\
  cleanup_file "uploads/b" (cleanup_file "uploads/b" w) = cleanup_file "uploads/b" w.
Proof.
  intros w. split.
  - apply (cleanup_file_is_idempotent "uploads/b" w). discriminate.
  - apply (cleanup_file_is_idempotent "uploads/b" w).
Defined.

Lemma html_never_raises_witness :
  let env := {| html_output_path := "outputs/webpage_1.pdf"; pdfkit_wrote := true;
                pdfkit_raised := Some "exit code 1"; html_send_raised := None |} in
  html_to_pdf (Some "") env {| disk := ∅; unlinked := [] |}
  = ({| disk := ∅; unlinked := [] |}, Reply 400 "URL is required").
Proof.
  intros env.
  apply (html_never_raises (Some "") env {| disk := ∅; unlinked := [] |}).
  right. reflexivity.
Defined.

(** ** Reordering with [organize_pdf] *)

Section organize_more.
Context {Page : Type}.

Lemma fmap_Some_eq (a b : list Page) : Some <$> a = Some <$> b -> a = b.
Proof.
  revert b. induction a as [|x a IH]; intros [|y b] H; try discriminate; [reflexivity|].
  cbn in H. injection H as -> H. f_equal. now apply IH.
Qed.

Lemma written_pages_lookup (doc out : list Page) (order : list Z) :
  Forall2 (fun pg p => doc !! Z.to_nat (p - 1) = Some pg) out order ->
  Some <$> out = (fun p => doc !! Z.to_nat (p - 1)) <$> order.
Proof. induction 1 as [|pg p out order H _ IH]; cbn; [reflexivity | now rewrite H, IH]. Qed.

Lemma lookup_all_pages (doc : list Page) :
  (fun p => doc !! Z.to_nat (p - 1)) <$> seqZ 1 (Z.of_nat (length doc)) = Some <$> doc.
Proof.
  apply list_eq. intros k. rewrite !list_lookup_fmap.
  destruct (decide (k < length doc)%nat) as [Hk | Hk].
  - rewrite lookup_seqZ_lt by lia. cbn.
    replace (Z.to_nat (1 + Z.of_nat k - 1)) with k by lia.
    destruct (doc !! k) eqn:E; [reflexivity|]. apply lookup_ge_None in E. lia.
  - rewrite lookup_seqZ_ge by lia. cbn.
    rewrite (proj2 (lookup_ge_None doc k)) by lia. reflexivity.
Qed.

Lemma filter_keeps_all (P : Z -> Prop) `{!forall p, Decision (P p)} (l : list Z) :
  Forall P l -> filter P l = l.
Proof.
  induction 1 as [|p l Hp _ IH]; [reflexivity|].
  rewrite filter_cons, decide_True by assumption. now rewrite IH.
Qed.

End organize_more.

(** Reordering keeps every page: when nothing is deleted and [page_order]
    expands to a permutation of the page numbers [1 .. total_pages],
    [organize_pdf] writes a permutation of the pages of the document, and
    the document itself when the order is [1 .. total_pages]. *)
Theorem organize_permutation_keeps_pages
    (Page : Type) (doc : list Page) (page_order : string) (order : list Z) :
  page_order <> "" ->
  expansion page_order = Done order ->
  order ≡ₚ seqZ 1 (Z.of_nat (length doc)) ->
  exists out,
    organize_pdf doc (Some page_order) "" = Done out /\
    out ≡ₚ doc /\
    (order = seqZ 1 (Z.of_nat (length doc)) -> out = doc).
Proof.
  intros Hne Eo Hperm.
  assert (String.eqb page_order "" = false) as Hne' by now apply String.eqb_neq.
  unfold expansion in Eo. rewrite Hne' in Eo.
  destruct (organize_add_pages_filter doc ∅ [] order) with (writer := @nil Page)
    as (out & E & Hout).
  { intros p. rewrite elem_of_nil. split; [apply not_elem_of_empty | tauto]. }
  rewrite filter_keeps_all in Hout.
  2:{ apply Forall_forall. intros p Hp. rewrite Hperm in Hp.
      apply elem_of_seqZ in Hp. rewrite elem_of_nil. split; [tauto | lia]. }
  apply written_pages_lookup in Hout.
  exists out. split.
  - unfold organize_pdf. rewrite Hne'. cbn. rewrite Eo. cbn. exact E.
  - split.
    + assert (Some <$> out ≡ₚ Some <$> doc) as Hp.
      { rewrite Hout, <- lookup_all_pages. now apply fmap_Permutation. }
      apply Permutation_sym, Permutation_map_inv in Hp as (l & El & Hl).
      apply fmap_Some_eq in El. subst l. now symmetry.
    + intros ->. rewrite lookup_all_pages in Hout. now apply fmap_Some_eq.
Qed.

Lemma organize_permutation_keeps_pages_witness :
  exists out,
    organize_pdf ["a"; "b"; "c"; "d"] (Some "3-4,1, 2") "" = Done out /\
    out ≡ₚ ["a"; "b"; "c"; "d"] /\
    ([3; 4; 1; 2] = seqZ 1 (Z.of_nat (length ["a"; "b"; "c"; "d"])) ->
     out = ["a"; "b"; "c"; "d"]).
Proof.
  apply (organize_permutation_keeps_pages string ["a"; "b"; "c"; "d"] "3-4,1, 2" [3; 4; 1; 2]).
  - discriminate.
  - reflexivity.
  - change (seqZ 1 (Z.of_nat (length ["a"; "b"; "c"; "d"]))) with [1; 2; 3; 4].
    apply (Permutation_app_comm [3; 4] [1; 2]).
Defined.

(** ** Page numbers *)

Section numbering.

Lemma replace_from_absent c old' new s :
  Py.contains c s = false ->
  Py.replace_from (String c old') new 0 s = s.
Proof.
  induction s as [|d r IH]; cbn [Py.replace_from Py.contains Py.startswith];
    [reflexivity|].
  intros H. apply orb_false_iff in H as [Hd Hr].
  rewrite Ascii.eqb_sym, Hd. cbn. now rewrite IH.
Qed.

End numbering.

(** A format template without an opening brace has no placeholder: it is
    printed as it is on every numbered page.  The two numbers are turned
    into text all the same, so the request still fails with [ValueError]
    when one of them has more than 4300 digits. *)
Theorem template_without_placeholder_is_verbatim
    (format_str : string) (page_num total_pages : Z) :
  Py.contains "{" format_str = false ->
  page_number_text format_str page_num total_pages =
  (_ ← Py.str_checked page_num; _ ← Py.str_checked total_pages; Done format_str).
Proof.
  intros H. unfold page_number_text, Py.replace.
  destruct (Py.str_checked page_num) as [n | |]; cbn; [|reflexivity..].
  destruct (Py.str_checked total_pages) as [t | |]; cbn; [|reflexivity..].
  rewrite (replace_from_absent "{" "n}" _ format_str H).
  f_equal. apply replace_from_absent. exact H.
Qed.

Lemma template_without_placeholder_is_verbatim_witness :
  page_number_text "- page -" 3 12 = Done "- page -" /\
  page_number_text "- page -" (10 ^ 4300) 12 = Raise ValueError.
Proof.
  split.
  - rewrite (template_without_placeholder_is_verbatim "- page -" 3 12); reflexivity.
  - rewrite (template_without_placeholder_is_verbatim "- page -" (10 ^ 4300) 12);
      [vm_compute|]; reflexivity.
Defined.

(** The numbering of [add_page_numbers] is consecutive and starts at
    [start_number] on the first numbered page, which is page 0, or page 1
    when [skip_first] is set: when the handler answers, the numbered page
    that follows it at distance [k] has received, by [insert_text], the
    text for the number [start_number + k]. *)
Theorem numbering_starts_at_start_number
    (Page Coord : Type) (rect_width rect_height : Page -> Coord)
    (half : Coord -> Coord) (of_int : Z -> Coord) (minus_int : Coord -> Z -> Coord)
    (insert_text :
       Page -> Coord * Coord -> string -> Z -> Z * Z * Z -> Z -> bool -> outcome Page)
    (doc : list Page) (position format_str : string) (font_size : Z)
    (color : string) (start_number : Z) (skip_first : bool) (out : list Page) :
  add_page_numbers rect_width rect_height half of_int minus_int insert_text
    doc position format_str font_size color start_number skip_first = Done out ->
  exists rgb,
    parse_color color = Done rgb /\
    forall (k : nat) (pg : Page),
      doc !! ((if skip_first then 1 else 0) + k)%nat = Some pg ->
      exists text pg',
        page_number_text format_str (start_number + Z.of_nat k)
          (Z.of_nat (length doc)) = Done text /\
        insert_text pg
          (page_number_point rect_width rect_height half of_int minus_int position pg)
          text font_size rgb 0 true = Done pg' /\
        out !! ((if skip_first then 1 else 0) + k)%nat = Some pg'.
Proof.
  intros H. unfold add_page_numbers in H.
  destruct (parse_color color) as [rgb | |]; try discriminate H. cbn in H.
  exists rgb. split; [reflexivity|]. intros k pg Hpg.
  destruct (add_page_numbers_loop_spec _ _ _ _ _ _ _ _ _ _ _ _ _ _ _ _ H)
    as [_ Hpages].
  specialize (Hpages _ _ Hpg).
  replace (skip_first && (0 + Z.of_nat ((if skip_first then 1 else 0) + k) =? 0))
    with false in Hpages.
  2:{ destruct skip_first; cbn [andb]; [|reflexivity].
      symmetry. apply Z.eqb_neq. lia. }
  destruct Hpages as (text & pg' & Htext & Hins & Hout).
  exists text, pg'. split; [|split; assumption].
  rewrite <- Htext. f_equal. destruct skip_first; lia.
Qed.

Lemma numbering_starts_at_start_number_witness :
  let doc := [ {| sample_width := 595; sample_height := 842; sample_texts := [] |};
               {| sample_width := 595; sample_height := 842; sample_texts := [] |};
               {| sample_width := 595; sample_height := 842; sample_texts := [] |} ] in
  exists out,
    add_page_numbers sample_width sample_height (fun x => x `div` 2) id Z.sub
      sample_insert_text doc "bottom-center" "{n}" 12 "000000" 10 true = Done out /\
    exists rgb,
      parse_color "000000" = Done rgb /\
      forall (k : nat) (pg : sample_page),
        doc !! ((if true then 1 else 0) + k)%nat = Some pg ->
        exists text pg',
          page_number_text "{n}" (10 + Z.of_nat k) (Z.of_nat (length doc)) = Done text /\
          sample_insert_text pg
            (page_number_point sample_width sample_height (fun x => x `div` 2) id Z.sub
               "bottom-center" pg)
            text 12 rgb 0 true = Done pg' /\
          out !! ((if true then 1 else 0) + k)%nat = Some pg'.
Proof.
  intros doc. eexists. split; [vm_compute; reflexivity|].
  apply (numbering_starts_at_start_number sample_page Z sample_width sample_height
           (fun x => x `div` 2) id Z.sub sample_insert_text doc
           "bottom-center" "{n}" 12 "000000" 10 true).
  vm_compute. reflexivity.
Defined.

(** ** Well-formed colours *)

Example accepts_two_ex : accepts_two "f" "F" = true. Proof. reflexivity. Qed.

Section hex_colors.

Lemma accepts_two_all :
  forallb (fun c1 => forallb (accepts_two c1) all_ascii) all_ascii = true.
Proof. vm_compute. reflexivity. Qed.

Lemma hex_is_not_hash_all :
  forallb (fun c => negb (is_hex_digit c) || negb (Ascii.eqb c "#")) all_ascii = true.
Proof. vm_compute. reflexivity. Qed.

Lemma int16_two_hex c1 c2 :
  is_hex_digit c1 = true -> is_hex_digit c2 = true ->
  exists v, Py.int16 (String c1 (String c2 "")) = Done v /\ 0 <= v <= 255.
Proof.
  intros H1 H2. pose proof accepts_two_all as H.
  rewrite forallb_forall in H. specialize (H c1 (all_ascii_complete c1)).
  rewrite forallb_forall in H. specialize (H c2 (all_ascii_complete c2)).
  unfold accepts_two in H. rewrite H1, H2 in H. cbn [andb negb orb] in H.
  unfold Py.int16. destruct (Py.int_base 16 _) as [v|]; [|discriminate H].
  exists v. split; [reflexivity|].
  apply andb_true_iff in H as [Ha Hb].
  apply Z.leb_le in Ha. apply Z.leb_le in Hb. lia.
Qed.

Lemma hex_is_not_hash c : is_hex_digit c = true -> Ascii.eqb c "#" = false.
Proof.
  intros Hc. pose proof hex_is_not_hash_all as H.
  rewrite forallb_forall in H. specialize (H c (all_ascii_complete c)).
  rewrite Hc in H. cbn in H. now apply negb_true_iff in H.
Qed.

Lemma strip_one_hash c r :
  match String c r with String "#" r' => r' | _ => String c r end
  = if Ascii.eqb c "#" then r else String c r.
Proof. destruct c as [[] [] [] [] [] [] [] []]; reflexivity. Qed.

(** Six hexadecimal digits are read as three bytes. *)
Lemma channels_of_hex (h : string) :
  String.length h = 6%nat -> forallb is_hex_digit (list_ascii_of_string h) = true ->
  Py.lstrip_char "#" h = h /\
  exists r g b,
    channels (Py.slice 0 2 h) (Py.slice 2 4 h) (Py.slice 4 6 h) = Done (r, g, b) /\
    0 <= r <= 255 /\ 0 <= g <= 255 /\ 0 <= b <= 255.
Proof.
  intros Hlen Hhex.
  destruct h as [|c0 [|c1 [|c2 [|c3 [|c4 [|c5 [|c6 h]]]]]]]; try discriminate Hlen.
  cbn in Hhex.
  repeat (apply andb_true_iff in Hhex as [?H Hhex]).
  split.
  - cbn. now rewrite hex_is_not_hash.
  - cbn [Py.slice substring Nat.sub].
    destruct (int16_two_hex c0 c1) as (r & Er & Hr); [assumption..|].
    destruct (int16_two_hex c2 c3) as (g & Eg & Hg); [assumption..|].
    destruct (int16_two_hex c4 c5) as (b & Eb & Hb); [assumption..|].
    exists r, g, b. unfold channels. rewrite Er. cbn. rewrite Eg. cbn. rewrite Eb.
    cbn. auto.
Qed.

End hex_colors.

(** Every well-formed colour, six hexadecimal digits with or without a
    leading [#], is parsed, and each of its three channels is a byte. *)
Theorem well_formed_color_is_parsed (color : string) :
  well_formed_color color = true ->
  exists r g b,
    parse_color color = Done (r, g, b) /\
    0 <= r <= 255 /\ 0 <= g <= 255 /\ 0 <= b <= 255.
Proof.
  unfold well_formed_color. intros H. rewrite parse_color_channels. cbv zeta.
  destruct color as [|c rest]; [discriminate H|].
  rewrite strip_one_hash in H. cbn [Py.lstrip_char].
  destruct (Ascii.eqb c "#").
  - apply andb_true_iff in H as [Hlen Hhex]. apply Nat.eqb_eq in Hlen.
    destruct (channels_of_hex rest Hlen Hhex) as (-> & Hch). exact Hch.
  - apply andb_true_iff in H as [Hlen Hhex]. apply Nat.eqb_eq in Hlen.
    destruct (channels_of_hex (String c rest) Hlen Hhex) as (_ & Hch). exact Hch.
Qed.

Lemma well_formed_color_is_parsed_witness :
  exists r g b,
    parse_color "#1a2B3c" = Done (r, g, b) /\
    0 <= r <= 255 /\ 0 <= g <= 255 /\ 0 <= b <= 255.
Proof. apply (well_formed_color_is_parsed "#1a2B3c"). reflexivity. Defined.

(** ** [edit_pdf] and [add_watermark] *)

Example edit_pdf_ex :
  edit_pdf sample_insert_text
    [ {| sample_width := 595; sample_height := 842; sample_texts := [] |};
      {| sample_width := 595; sample_height := 842; sample_texts := [] |} ]
    "hi" 100 200 12 "#ff0000" 2
  = Done [ {| sample_width := 595; sample_height := 842; sample_texts := [] |};
           {| sample_width := 595; sample_height := 842;
              sample_texts := [(100, 200, "hi")] |} ].
Proof. reflexivity. Qed.
Example edit_pdf_negative_channel :
  edit_pdf sample_insert_text
    [ {| sample_width := 595; sample_height := 842; sample_texts := [] |} ]
    "hi" 100 200 12 "-f0000" 1
  = Raise ValueError.
Proof. reflexivity. Qed.
Example add_watermark_default_rotation :
  add_watermark sample_width sample_height (fun x => x `div` 2)
    (fun x => x * 2 `div` 10) (fun x => x * 8 `div` 10) sample_insert_text
    [ {| sample_width := 595; sample_height := 842; sample_texts := [] |} ]
    "DRAFT" 50 3 "#888888" 45 "center"
  = Raise ValueError.
Proof. reflexivity. Qed.

(** [edit_pdf] refuses a page number outside [1, total_pages] with status
    400 whatever the colour.  Otherwise, when the colour parses: with an
    empty text the document is left as it is, and [insert_text] is not
    called; with a text, the request fails with the exception of
    [insert_text] if it raises one, and else changes the page of that
    number only, into the page [insert_text] made of it. *)
Theorem edit_pdf_changes_one_page
    (Page Coord : Type)
    (insert_text :
       Page -> Coord * Coord -> string -> Z -> Z * Z * Z -> Z -> bool -> outcome Page)
    (doc : list Page) (text : string)
    (text_x text_y : Coord) (text_size : Z) (text_color : string) (page_num : Z) :
  let answer := edit_pdf insert_text doc text text_x text_y text_size text_color
                  page_num in
  ((page_num < 1 \/ page_num > Z.of_nat (length doc)) ->
   answer = Reply 400 "Invalid page number") /\
  (forall rgb,
     1 <= page_num <= Z.of_nat (length doc) ->
     parse_color text_color = Done rgb ->
     exists pg,
       doc !! Z.to_nat (page_num - 1) = Some pg /\
       (text = "" -> answer = Done doc) /\
       (text <> "" ->
        forall e,
          insert_text pg (text_x, text_y) text text_size rgb 0 true = Raise e ->
          answer = Raise e) /\
       (text <> "" ->
        forall pg',
          insert_text pg (text_x, text_y) text text_size rgb 0 true = Done pg' ->
          exists out,
            answer = Done out /\
            length out = length doc /\
            (forall i : nat, i <> Z.to_nat (page_num - 1) -> out !! i = doc !! i) /\
            out !! Z.to_nat (page_num - 1) = Some pg')).
Proof.
  cbv zeta. split.
  - intros H. unfold edit_pdf.
    replace ((page_num <? 1) || (page_num >? Z.of_nat (length doc))) with true;
      [reflexivity|].
    symmetry. apply orb_true_iff. rewrite Z.ltb_lt, Z.gtb_ltb, Z.ltb_lt. lia.
  - intros rgb Hp Hc. unfold edit_pdf.
    replace ((page_num <? 1) || (page_num >? Z.of_nat (length doc))) with false
      by (symmetry; apply orb_false_iff; rewrite Z.ltb_ge, Z.gtb_ltb, Z.ltb_ge; lia).
    unfold fitz_getitem.
    replace (page_num - 1 <? Z.of_nat (length doc)) with true
      by (symmetry; apply Z.ltb_lt; lia).
    rewrite Z.mod_small by lia.
    destruct (doc !! Z.to_nat (page_num - 1)) as [pg|] eqn:Epg;
      [|apply lookup_ge_None in Epg; lia].
    cbn. rewrite Hc. cbn. exists pg. split; [reflexivity|].
    split; [|split].
    + intros ->. cbn. now rewrite list_insert_id.
    + intros Hne e He. apply String.eqb_neq in Hne. rewrite Hne, He. reflexivity.
    + intros Hne pg' Hpg'. apply String.eqb_neq in Hne. rewrite Hne, Hpg'. cbn.
      eexists. split; [reflexivity|].
      split; [apply length_insert|].
      split; [intros i Hi; apply list_lookup_insert_ne; congruence|].
      apply list_lookup_insert_eq. apply lookup_lt_Some in Epg. lia.
Qed.

Lemma edit_pdf_changes_one_page_witness :
  let doc := [ {| sample_width := 595; sample_height := 842; sample_texts := [] |};
               {| sample_width := 842; sample_height := 595; sample_texts := [] |} ] in
  exists out,
    edit_pdf sample_insert_text doc "hi" 100 200 12 "#ff0000" 2 = Done out /\
    length out = length doc /\
    (forall i : nat, i <> Z.to_nat (2 - 1) -> out !! i = doc !! i) /\
    out !! Z.to_nat (2 - 1) =
      Some {| sample_width := 842; sample_height := 595;
              sample_texts := [(100, 200, "hi")] |}.
Proof.
  intros doc.
  destruct (proj2 (edit_pdf_changes_one_page sample_page Z sample_insert_text
                     doc "hi" 100 200 12 "#ff0000" 2) (255, 0, 0))
    as (pg & Hpg & _ & _ & Hdone).
  - cbn. lia.
  - reflexivity.
  - injection Hpg as <-. apply Hdone; [discriminate | reflexivity].
Defined.

Section watermark_facts.
Context {Page Coord : Type}.
Variables (rect_width rect_height : Page -> Coord) (half scale02 scale08 : Coord -> Coord).
Variable insert_text :
  Page -> Coord * Coord -> string -> Z -> Z * Z * Z -> Z -> bool -> outcome Page.

Let loop := add_watermark_loop rect_width rect_height half scale02 scale08 insert_text.
Let point := watermark_point half scale02 scale08.

Lemma add_watermark_loop_spec text font_size rgb rotation position
    (doc : list Page) : forall out,
  loop text font_size rgb rotation position doc = Done out ->
  length out = length doc /\
  forall (i : nat) pg, doc !! i = Some pg ->
    exists pg',
      insert_text pg (point position (rect_width pg) (rect_height pg))
        text font_size rgb rotation true = Done pg' /\
      out !! i = Some pg'.
Proof.
  subst loop point.
  induction doc as [|pg rest IH]; intros out H; cbn [add_watermark_loop] in H.
  - injection H as <-. split; [reflexivity|]. intros i pg Hi.
    now rewrite lookup_nil in Hi.
  - bind_case H pg' Epg. bind_case H rest' Erest. injection H as <-.
    destruct (IH _ eq_refl) as [Hlen Hrest].
    split; [cbn; now rewrite Hlen|].
    intros [|i] pg0 Hi; cbn in Hi.
    + injection Hi as <-. eauto.
    + apply Hrest. exact Hi.
Qed.

Lemma add_watermark_loop_total text font_size rgb rotation position
    (doc : list Page) :
  (forall pg pt, exists pg',
     insert_text pg pt text font_size rgb rotation true = Done pg') ->
  exists out, loop text font_size rgb rotation position doc = Done out.
Proof.
  subst loop point. intros Hins.
  induction doc as [|pg rest [rest' IH]]; cbn [add_watermark_loop]; [eauto|].
  destruct (Hins pg (watermark_point half scale02 scale08 position
                       (rect_width pg) (rect_height pg))) as [pg' ->].
  cbn. rewrite IH. cbn. eauto.
Qed.

End watermark_facts.

(** [add_watermark] answers only when the colour has parsed and
    [insert_text] has accepted every page: each page of the answer is what
    one call of [insert_text] made of the page at its position, with the
    requested size, colour and rotation, over the content.  A colour that
    does not parse fails the request whatever [insert_text] does.  A
    position that is not one of the five names is treated as ["center"],
    the [opacity] of the request has no effect on the result, and the
    handler answers whenever [insert_text] accepts its arguments. *)
Theorem watermark_marks_every_page
    (Page Coord : Type) (rect_width rect_height : Page -> Coord)
    (half scale02 scale08 : Coord -> Coord)
    (insert_text :
       Page -> Coord * Coord -> string -> Z -> Z * Z * Z -> Z -> bool -> outcome Page)
    (doc : list Page) (text : string) (font_size : Z)
    (opacity : Coord) (color : string) (rotation : Z) (position : string) :
  let answer := add_watermark rect_width rect_height half scale02 scale08 insert_text
                  doc text font_size opacity color rotation position in
  (forall e, parse_color color = Raise e -> answer = Raise e) /\
  (forall out, answer = Done out ->
     exists rgb,
       parse_color color = Done rgb /\
       length out = length doc /\
       forall (i : nat) pg, doc !! i = Some pg ->
         exists point pg',
           insert_text pg point text font_size rgb rotation true = Done pg' /\
           out !! i = Some pg' /\
           (~ position ∈ ["top-left"; "top-right"; "bottom-left"; "bottom-right"] ->
            point = (half (rect_width pg), half (rect_height pg)))) /\
  (forall opacity',
     add_watermark rect_width rect_height half scale02 scale08 insert_text
       doc text font_size opacity' color rotation position = answer) /\
  (forall rgb, parse_color color = Done rgb ->
     (forall pg pt, exists pg',
        insert_text pg pt text font_size rgb rotation true = Done pg') ->
     exists out, answer = Done out).
Proof.
  cbv zeta. split; [|split; [|split]].
  - intros e He. unfold add_watermark. now rewrite He.
  - intros out H. unfold add_watermark in H.
    destruct (parse_color color) as [rgb | |]; try discriminate H. cbn in H.
    destruct (add_watermark_loop_spec _ _ _ _ _ _ _ _ _ _ _ _ _ H) as [Hlen Hpages].
    exists rgb. split; [reflexivity|]. split; [exact Hlen|].
    intros i pg Hpg. destruct (Hpages i pg Hpg) as (pg' & Hins & Hout).
    eexists _, pg'. split; [exact Hins|]. split; [exact Hout|].
    intros Hpos. unfold watermark_point.
    destruct (String.eqb position "center"); [reflexivity|].
    repeat match goal with
    | |- context [String.eqb position ?s] =>
        let E := fresh "E" in
        destruct (String.eqb position s) eqn:E;
        [apply String.eqb_eq in E; subst position; exfalso; apply Hpos;
         repeat (first [apply list_elem_of_here | apply list_elem_of_further]) |]
    end.
    reflexivity.
  - reflexivity.
  - intros rgb Hc Hins. unfold add_watermark. rewrite Hc. cbn.
    now apply add_watermark_loop_total.
Qed.

Lemma watermark_marks_every_page_witness :
  let half := fun x : Z => x `div` 2 in
  let scale02 := fun x : Z => x * 2 `div` 10 in
  let scale08 := fun x : Z => x * 8 `div` 10 in
  let doc := [ {| sample_width := 595; sample_height := 842; sample_texts := [] |} ] in
  exists out,
    add_watermark sample_width sample_height half scale02 scale08 sample_insert_text
      doc "DRAFT" 50 3 "#888888" 90 "middle" = Done out /\
    exists rgb,
      parse_color "#888888" = Done rgb /\
      length out = length doc /\
      forall (i : nat) pg, doc !! i = Some pg ->
        exists point pg',
          sample_insert_text pg point "DRAFT" 50 rgb 90 true = Done pg' /\
          out !! i = Some pg' /\
          (~ "middle" ∈ ["top-left"; "top-right"; "bottom-left"; "bottom-right"] ->
           point = (half (sample_width pg), half (sample_height pg))).
Proof.
  intros half scale02 scale08 doc.
  eexists. split; [vm_compute; reflexivity|].
  apply (proj1 (proj2 (watermark_marks_every_page sample_page Z sample_width
                         sample_height half scale02 scale08 sample_insert_text doc
                         "DRAFT" 50 3 "#888888" 90 "middle"))).
  vm_compute. reflexivity.
Defined.

(** ** The layout of [jpg_to_pdf] *)

Example jpg_place_ex :
  jpg_place sample_thumbnail "landscape" 20 (400, 301)
  = Done {| placed_page := (842, 595); placed_at := (221, 147);
            placed_size := (400, 301) |}.
Proof. reflexivity. Qed.
Example jpg_to_pdf_wide_margin :
  jpg_to_pdf sample_thumbnail [(400, 301)] "portrait" 400 = Raise ValueError.
Proof. reflexivity. Qed.

Section jpg_facts.
Variable thumbnail : Z * Z -> Z * Z -> outcome (Z * Z).

Lemma jpg_pages_spec orientation margin (images : list (Z * Z)) : forall placed,
  jpg_pages thumbnail orientation margin images = Done placed ->
  Forall2 (fun p img => jpg_place thumbnail orientation margin img = Done p)
          placed images.
Proof.
  induction images as [|img rest IH]; intros placed H; cbn [jpg_pages] in H.
  - injection H as <-. constructor.
  - bind_case H p Ep. bind_case H rest' Erest. injection H as <-.
    constructor; [exact Ep | now apply IH].

Qed.

Lemma jpg_pages_total orientation margin (images : list (Z * Z)) :
  Forall (fun img => exists size,
            thumbnail img ((jpg_page_size orientation).1 - 2 * margin,
                           (jpg_page_size orientation).2 - 2 * margin) = Done size)
         images ->
  exists placed, jpg_pages thumbnail orientation margin images = Done placed.
Proof.
  induction 1 as [|img rest [size Hsize] _ [placed IH]]; cbn [jpg_pages]; [eauto|].
  unfold jpg_place. cbv zeta. rewrite Hsize. cbn. rewrite IH. cbn. eauto.
Qed.

End jpg_facts.

(** [jpg_to_pdf] refuses a request without files.  When it answers, there
    is one page for each image, in order, A4 in the requested orientation,
    holding the image at the size [thumbnail] gave it, centred up to the
    rounding of [//], and inside the margins whenever that size fits the
    box [thumbnail] was given.  It answers whenever [thumbnail] accepts
    every image with the box of the request, and only then: a box that
    Pillow refuses fails the request. *)
Theorem jpg_images_are_centred_within_margins
    (thumbnail : Z * Z -> Z * Z -> outcome (Z * Z))
    (images : list (Z * Z)) (orientation : string) (margin : Z) :
  let page_size := if String.eqb orientation "landscape"
                   then (842, 595) else (595, 842) in
  let box := (page_size.1 - 2 * margin, page_size.2 - 2 * margin) in
  jpg_to_pdf thumbnail [] orientation margin = Reply 400 "No files provided" /\
  (forall placed,
     jpg_to_pdf thumbnail images orientation margin = Done placed ->
     Forall2 (fun p img =>
       thumbnail img box = Done (placed_size p) /\
       placed_page p = page_size /\
       0 <= (placed_page p).1 - (placed_size p).1 - 2 * (placed_at p).1 <= 1 /\
       0 <= (placed_page p).2 - (placed_size p).2 - 2 * (placed_at p).2 <= 1 /\
       ((placed_size p).1 <= box.1 -> (placed_size p).2 <= box.2 ->
        margin <= (placed_at p).1 /\
        (placed_at p).1 + (placed_size p).1 <= (placed_page p).1 - margin /\
        margin <= (placed_at p).2 /\
        (placed_at p).2 + (placed_size p).2 <= (placed_page p).2 - margin))
       placed images) /\
  (images <> [] ->
   Forall (fun img => exists size, thumbnail img box = Done size) images ->
   exists placed, jpg_to_pdf thumbnail images orientation margin = Done placed).
Proof.
  cbv zeta. change (if String.eqb orientation "landscape" then (842, 595) else (595, 842))
    with (jpg_page_size orientation).
  split; [reflexivity|]. split.
  - intros placed H.
    assert (jpg_pages thumbnail orientation margin images = Done placed) as Hp
      by (destruct images; [discriminate H | exact H]).
    apply jpg_pages_spec in Hp.
    eapply Forall2_impl; [exact Hp|]. intros p img Hplace. cbn beta in Hplace.
    unfold jpg_place in Hplace. cbv zeta in Hplace.
    set (W := (jpg_page_size orientation).1) in *.
    set (H0 := (jpg_page_size orientation).2) in *.
    destruct (thumbnail img (W - 2 * margin, H0 - 2 * margin)) as [size | |];
      try discriminate Hplace.
    cbn in Hplace. injection Hplace as <-. cbn.
    pose proof (Z.div_mod (W - size.1) 2 ltac:(lia)) as Dw.
    pose proof (Z.mod_pos_bound (W - size.1) 2 ltac:(lia)) as Mw.
    pose proof (Z.div_mod (H0 - size.2) 2 ltac:(lia)) as Dh.
    pose proof (Z.mod_pos_bound (H0 - size.2) 2 ltac:(lia)) as Mh.
    split; [reflexivity|]. split; [destruct (jpg_page_size orientation); reflexivity|].
    fold W H0. split; [lia|]. split; [lia|]. intros Hw Hh. lia.
  - intros Hne Hall.
    destruct (jpg_pages_total thumbnail orientation margin images Hall) as [placed Hp].
    exists placed. destruct images; [congruence | exact Hp].
Qed.

Lemma jpg_images_are_centred_within_margins_witness :
  exists placed,
    jpg_to_pdf sample_thumbnail [(400, 301); (2000, 1000)] "portrait" 20 = Done placed /\
    Forall2 (fun p img =>
      sample_thumbnail img (595 - 2 * 20, 842 - 2 * 20) = Done (placed_size p) /\
      placed_page p = (595, 842) /\
      0 <= (placed_page p).1 - (placed_size p).1 - 2 * (placed_at p).1 <= 1 /\
      0 <= (placed_page p).2 - (placed_size p).2 - 2 * (placed_at p).2 <= 1 /\
      ((placed_size p).1 <= 595 - 2 * 20 -> (placed_size p).2 <= 842 - 2 * 20 ->
       20 <= (placed_at p).1 /\
       (placed_at p).1 + (placed_size p).1 <= (placed_page p).1 - 20 /\
       20 <= (placed_at p).2 /\
       (placed_at p).2 + (placed_size p).2 <= (placed_page p).2 - 20))
      placed [(400, 301); (2000, 1000)].
Proof.
  eexists. split; [vm_compute; reflexivity|].
  apply (proj1 (proj2 (jpg_images_are_centred_within_margins sample_thumbnail
                         [(400, 301); (2000, 1000)] "portrait" 20))).
  vm_compute. reflexivity.
Defined.

(** ** More on [rotate_pdf] and [word_to_pdf] *)

Section unselected.
Context {Page : Type} (page_rotate : Page -> Z -> outcome Page).

Lemma rotate_pages_unselected (sel : gset Z) rotation (doc : list Page) :
  forall i writer,
    (forall k : nat, (k < length doc)%nat -> i + Z.of_nat k ∉ sel) ->
    rotate_pages page_rotate sel rotation i doc writer = Done (writer ++ doc).
Proof.
  induction doc as [|pg rest IH]; intros i writer H; cbn [rotate_pages].
  - now rewrite app_nil_r.
  - rewrite bool_decide_eq_false_2.
    2:{ specialize (H 0%nat). rewrite Z.add_0_r in H. apply H. cbn. lia. }
    cbn. rewrite IH.
    + now rewrite <- app_assoc.
    + intros k Hk. replace (i + 1 + Z.of_nat k) with (i + Z.of_nat (S k)) by lia.
      apply H. cbn. lia.
Qed.

End unselected.

(** A rotate request whose range string selects no page of the document
    (page numbers beyond the last page, a descending range) is answered
    with the unchanged document, and [page.rotate] is not called. *)
Theorem rotate_outside_document_changes_nothing
    (Page : Type) (page_rotate : Page -> Z -> outcome Page)
    (doc : list Page) (rotation : Z) (pages : string) (sel : gset Z) :
  rotate_select pages (length doc) = Done sel ->
  (forall i, i ∈ sel -> i < 0 \/ Z.of_nat (length doc) <= i) ->
  rotate_pdf page_rotate doc rotation pages = Done doc.
Proof.
  intros Hsel Hout. unfold rotate_pdf. rewrite Hsel. cbn.
  rewrite rotate_pages_unselected; [reflexivity|].
  intros k Hk Hin. destruct (Hout _ Hin); lia.
Qed.

Lemma rotate_outside_document_changes_nothing_witness :
  rotate_pdf (fun (p : string) (_ : Z) => Raise ValueError) ["a"; "b"] 45 "7, 5-3"
  = Done ["a"; "b"].
Proof.
  apply (rotate_outside_document_changes_nothing string
           (fun p _ => Raise ValueError) ["a"; "b"] 45 "7, 5-3" ∅).
  - vm_compute. reflexivity.
  - intros i Hi. now apply not_elem_of_empty in Hi.
Defined.

Section word_errors.

Lemma create_other_absent p q (w : world) : q <> p -> q ∉ disk w -> q ∉ disk (create p w).
Proof.
  intros Hne Hq. cbn. rewrite elem_of_union, elem_of_singleton. tauto.
Qed.

End word_errors.

(** [word_to_pdf] answers the two failures of LibreOffice it knows with
    status 500: a timeout with "Conversion timed out", a missing
    executable with "LibreOffice not installed", and a run that wrote no
    converted file with "Conversion failed".  Neither [TimeoutExpired] nor
    [FileNotFoundError] ever leaves the handler; other exceptions do. *)
Theorem word_to_pdf_error_replies (file : string) (env : word_env) (w : world) :
  let h := word_to_pdf (Some file) env w in
  (forall e, snd h = Raise e -> e <> TimeoutExpired /\ e <> FileNotFoundError) /\
  (run_raised env = Some TimeoutExpired -> snd h = Reply 500 "Conversion timed out") /\
  (run_raised env = Some FileNotFoundError ->
   snd h = Reply 500 "LibreOffice not installed") /\
  (forall e, run_raised env = Some e -> e <> TimeoutExpired -> e <> FileNotFoundError ->
   snd h = Raise e) /\
  (run_raised env = None -> run_wrote env = false ->
   word_converted_path env <> word_temp_path env ->
   word_converted_path env ∉ disk w ->
   snd h = Reply 500 "Conversion failed").
Proof.
  destruct env as [temp output converted wrote raised mraised sraised].
  unfold word_to_pdf.
  cbn [word_temp_path word_output_path word_converted_path run_wrote run_raised
       move_raised word_send_raised].
  split; [|split; [|split; [|split]]].
  - intros e. destruct raised as [e'|].
    + destruct e'; cbn [snd]; intros [= <-]; split; discriminate.
    + case_bool_decide; [|discriminate].
      destruct mraised as [e'|]; [|destruct sraised as [e'|]; [|discriminate]];
        destruct e'; cbn [snd]; intros [= <-]; split; discriminate.
  - intros [= ->]. reflexivity.
  - intros [= ->]. reflexivity.
  - intros e [= ->] H1 H2. destruct e; first [reflexivity | contradiction].
  - intros -> -> Hne Hfresh. cbn [snd].
    rewrite bool_decide_eq_false_2; [reflexivity|].
    now apply create_other_absent.
Qed.

Lemma word_to_pdf_error_replies_witness :
  let env := {| word_temp_path := "uploads/u_a.docx";
                word_output_path := "outputs/converted_1.pdf";
                word_converted_path := "outputs/u_a.pdf";
                run_wrote := false; run_raised := None;
                move_raised := None; word_send_raised := None |} in
  snd (word_to_pdf (Some "a.docx") env {| disk := ∅; unlinked := [] |})
  = Reply 500 "Conversion failed".
Proof.
  intros env.
  apply (word_to_pdf_error_replies "a.docx" env {| disk := ∅; unlinked := [] |}).
  - reflexivity.
  - reflexivity.
  - discriminate.
  - cbn. apply not_elem_of_empty.
Defined.
